(** * atmPy size distributions: a shallow embedding of [atmPy/sizedistribution.py]

    The Python module keeps its tables in pandas data frames that are
    reached through object references, copies them with [deepcopy] and
    updates some of them in place.  The embedding therefore runs every
    method in a small state-and-exception monad over an explicit object
    store, so that aliasing and in-place updates are visible in the model.

    Numbers.  A float is modelled by an exact rational; [value] adds one
    extra element for the non-finite results (inf, nan) that numpy
    produces instead of raising when a division by zero occurs.  Rounding
    and overflow of binary64 arithmetic are not modelled.  Decimal
    literals of the source ([1.1], [1e-12], [1e6]) are the rationals they
    denote; [np.pi] and [np.log(10.)] are the binary64 numbers numpy
    returns.

    Data frames.  A frame is its list of rows, each row a key (the index
    entry: a timestamp or an altitude, as a rational) and one value per
    column.  Column labels are not modelled: all frames that meet belong
    to the same bins. *)

From Stdlib Require Import String Ascii DecimalString.
From Stdlib Require Import QArith Qabs Lqa ZArith Arith Lia Bool.
From Stdlib Require Import Permutation Sorted SetoidList List.
Import ListNotations.

Local Open Scope string_scope.
Local Open Scope Q_scope.
Local Open Scope list_scope.

(** ** Floats *)

Definition value := option Q.

Definition vmulq (v : value) (c : Q) : value :=
  match v with Some x => Some (x * c) | None => None end.

Definition vdivq (v : value) (c : Q) : value :=
  match v with
  | Some x => if Qeq_bool c 0 then None else Some (x / c)
  | None => None
  end.

Definition vmul (a b : value) : value :=
  match a, b with Some x, Some y => Some (x * y) | _, _ => None end.

Definition vadd (a b : value) : value :=
  match a, b with Some x, Some y => Some (x + y) | _, _ => None end.

Definition vsub (a b : value) : value :=
  match a, b with Some x, Some y => Some (x - y) | _, _ => None end.

(** [a / c] on two finite floats. *)
Definition qdiv (a c : Q) : value :=
  if Qeq_bool c 0 then None else Some (a / c).

Definition Qltb (x y : Q) : bool := negb (Qle_bool y x).

(** [np.pi] and [np.log(10.)]. *)
Definition np_pi : Q := 884279719003555 # 281474976710656.
Definition np_log_10 : Q := 2592480341699211 # 1125899906842624.

(** Equality of floats as numbers, and closeness up to a relative
    tolerance. *)
Definition veq (a b : value) : Prop :=
  match a, b with
  | Some x, Some y => x == y
  | None, None => True
  | _, _ => False
  end.


(** ** numpy arrays and pandas frames *)

Fixpoint map2 {A B C} (f : A -> B -> C) (l : list A) (l' : list B) : list C :=
  match l, l' with
  | a :: t, b :: t' => f a b :: map2 f t t'
  | _, _ => []
  end.

(** [a[1:]] and [a[:-1]]. *)
Definition from1 {A} (a : list A) : list A := tl a.
Definition upto_last {A} (a : list A) : list A := removelast a.

Definition DataFrame := list (Q * list value).

Definition index (df : DataFrame) : list Q := map fst df.

(** Insertion of a row by key, after the rows whose key is not larger:
    the sort is stable. *)
Fixpoint insert_row (r : Q * list value) (df : DataFrame) : DataFrame :=
  match df with
  | [] => [r]
  | r' :: t => if Qle_bool (fst r') (fst r) then r' :: insert_row r t else r :: df
  end.

Definition sort_index (df : DataFrame) : DataFrame :=
  fold_left (fun acc r => insert_row r acc) df [].

Fixpoint insert_key (k : Q) (l : list Q) : list Q :=
  match l with
  | [] => [k]
  | k' :: t => if Qle_bool k' k then k' :: insert_key k t else k :: l
  end.

(** [np.sort] on a one-dimensional array. *)
Definition np_sort (l : list Q) : list Q :=
  fold_left (fun acc k => insert_key k acc) l [].

(** [np.median]: nan on an empty array, the middle element of the sorted
    array, or the mean of the two middle elements. *)
Definition np_median (l : list Q) : option Q :=
  let s := np_sort l in
  let n := length s in
  match n with
  | O => None
  | _ =>
    if Nat.even n
    then Some ((nth (n / 2 - 1) s 0 + nth (n / 2) s 0) / 2)
    else Some (nth (n / 2) s 0)
  end.

(** Python exceptions.  The module raises [ValueError] and [TypeError]
    with a message; the others come from numpy, pandas and the
    interpreter. *)
Inductive exn :=
| ValueError (msg : string)
| TypeError (msg : string)
| IndexError (msg : string)
| KeyError (msg : string)
| AttributeError (msg : string)
| IOError (msg : string)
| RecursionError.

Inductive outcome (A : Type) :=
| Ok (a : A)
| Raise (e : exn).
Arguments Ok {A} a.
Arguments Raise {A} e.

(** Arithmetic between a frame and a one-dimensional array: the array is
    applied to every row, column by column; pandas refuses an array whose
    length is not the number of columns. *)
Definition broadcast_error : exn :=
  ValueError "Unable to coerce to Series, length must match the number of columns".

Definition frame_op {B} (op : value -> B -> value) (df : DataFrame) (a : list B)
  : outcome DataFrame :=
  if forallb (fun r => Nat.eqb (length (snd r)) (length a)) df
  then Ok (map (fun r => (fst r, map2 op (snd r) a)) df)
  else Raise broadcast_error.

(** [df.loc[k] = row]: overwrites the rows whose key is [k], or appends a
    new row when there is none. *)
Definition loc_setitem (df : DataFrame) (k : Q) (row : list value) : outcome DataFrame :=
  match df with
  | r0 :: _ =>
    if negb (Nat.eqb (length (snd r0)) (length row))
    then Raise (ValueError "cannot set a row with mismatched columns")
    else if existsb (fun r => Qeq_bool (fst r) k) df
    then Ok (map (fun r => if Qeq_bool (fst r) k then (fst r, row) else r) df)
    else Ok (df ++ [(k, row)])
  | [] => Ok [(k, row)]
  end.

(** [df.loc[k].values] for a key that labels one row. *)
Definition loc_getitem (df : DataFrame) (k : Q) : outcome (list value) :=
  match filter (fun r => Qeq_bool (fst r) k) df with
  | [] => Raise (KeyError "the label is not in the index")
  | [r] => Ok (snd r)
  | _ => Raise (ValueError "Lengths must match")
  end.

(** ** Objects and the store *)

Definition loc := nat.

Inductive pyclass := SizeDist | SizeDist_TS | SizeDist_LS.

Definition class_name (c : pyclass) : string :=
  match c with
  | SizeDist => "SizeDist"
  | SizeDist_TS => "SizeDist_TS"
  | SizeDist_LS => "SizeDist_LS"
  end.

(** [layerbounderies] is a one-dimensional array of layer edges when it
    comes from the constructor's callers, and an array of (low, high)
    rows when it is built by [add_layer]. *)
Inductive ndarray :=
| Arr1 (a : list Q)
| Arr2 (a : list (Q * Q)).

Record instance := mkInstance {
  cls : pyclass;
  bins : list Q;
  bincenters : list Q;
  binwidth : list Q;
  distributionType : string;
  data : loc;
  layerbounderies : option ndarray;
  layercenters : option (list Q)
}.

Definition with_data (i : instance) (d : loc) : instance :=
  mkInstance (cls i) (bins i) (bincenters i) (binwidth i) (distributionType i) d
             (layerbounderies i) (layercenters i).

Definition with_distributionType (i : instance) (k : string) : instance :=
  mkInstance (cls i) (bins i) (bincenters i) (binwidth i) k (data i)
             (layerbounderies i) (layercenters i).

Definition with_layers (i : instance) (lb : ndarray) (lc : list Q) : instance :=
  mkInstance (cls i) (bins i) (bincenters i) (binwidth i) (distributionType i) (data i)
             (Some lb) (Some lc).

Inductive pyobj :=
| ODataFrame (df : DataFrame)
| OSeries (s : list value)
| OInstance (i : instance).

(** A snapshot file: the text lines of its head, and the text lines of
    the table that [to_csv] appended below them, if any. *)
Record file := mkFile {
  header : list string;
  table : option (list string)
}.

Record state := mkState {
  heap : list pyobj;
  warnings : list string;
  files : list (string * file)
}.

Definition M (A : Type) : Type := state -> state * outcome A.

Definition ret {A} (a : A) : M A := fun st => (st, Ok a).

Definition raise {A} (e : exn) : M A := fun st => (st, Raise e).

Definition bind {A B} (m : M A) (k : A -> M B) : M B :=
  fun st =>
    match m st with
    | (st', Ok a) => k a st'
    | (st', Raise e) => (st', Raise e)
    end.

Declare Scope py_scope.
Delimit Scope py_scope with py.
Notation "x <- m ;; k" := (bind m (fun x => k))
  (at level 61, m at next level, right associativity) : py_scope.
Notation "m ;;; k" := (bind m (fun _ => k))
  (at level 61, right associativity) : py_scope.
Local Open Scope py_scope.

Definition lift {A} (o : outcome A) : M A := fun st => (st, o).

Definition warn (msg : string) : M unit :=
  fun st => (mkState (heap st) (warnings st ++ [msg]) (files st), Ok tt).

Definition set_heap (st : state) (h : list pyobj) : state :=
  mkState h (warnings st) (files st).

Definition alloc (o : pyobj) : M loc :=
  fun st => (set_heap st (heap st ++ [o]), Ok (length (heap st))).

Fixpoint update {A} (l : list A) (n : nat) (a : A) : list A :=
  match l, n with
  | [], _ => []
  | _ :: t, O => a :: t
  | x :: t, S n' => x :: update t n' a
  end.

Definition store (l : loc) (o : pyobj) : M unit :=
  fun st => (set_heap st (update (heap st) l o), Ok tt).

Definition get_instance (l : loc) : M instance :=
  fun st =>
    match nth_error (heap st) l with
    | Some (OInstance i) => (st, Ok i)
    | _ => (st, Raise (AttributeError "object is not a size distribution"))
    end.

Definition get_frame (l : loc) : M DataFrame :=
  fun st =>
    match nth_error (heap st) l with
    | Some (ODataFrame df) => (st, Ok df)
    | _ => (st, Raise (AttributeError "object is not a DataFrame"))
    end.

Definition get_series (l : loc) : M (list value) :=
  fun st =>
    match nth_error (heap st) l with
    | Some (OSeries s) => (st, Ok s)
    | _ => (st, Raise (AttributeError "object is not a Series"))
    end.

(** [x.data], the frame behind it, and the two ways the module updates
    it: rebinding the attribute to a new frame, or changing the frame
    object in place. *)
Definition get_data (self : loc) : M DataFrame :=
  i <- get_instance self ;; get_frame (data i).

Definition rebind_data (self : loc) (df : DataFrame) : M unit :=
  i <- get_instance self ;;
  d <- alloc (ODataFrame df) ;;
  store self (OInstance (with_data i d)).

Definition inplace_data (self : loc) (df : DataFrame) : M unit :=
  i <- get_instance self ;;
  _ <- get_frame (data i) ;;
  store (data i) (ODataFrame df).

(** ** [SizeDist] *)

Definition string_of_nat (n : nat) : string :=
  NilZero.string_of_uint (Nat.to_uint n).

Definition zeros (n : nat) : list value := repeat (Some 0) n.

Definition np_where {A} (p : A -> bool) (l : list A) : list nat :=
  map fst (filter (fun x => p (snd x)) (combine (seq 0 (length l)) l)).

Fixpoint for_each {A} (l : list A) (body : A -> M unit) : M unit :=
  match l with
  | [] => ret tt
  | a :: t => body a ;;; for_each t body
  end.

Definition fillGaps (self : loc) (scale : Q) : M unit :=
  df <- get_data self ;;
  let diff := map2 Qminus (from1 (index df)) (upto_last (index df)) in
  match np_median diff with
  | None => ret tt
  | Some median =>
    let threshold := median * scale in
    let where_ := np_where (fun d => Qltb threshold d) diff in
    if negb (Nat.eqb (length where_) 0) then
      warn ("The dataset provided had " ++ string_of_nat (length where_) ++ " gaps")%string ;;;
      i <- get_instance self ;;
      let gap_start := map (fun w => nth w (index df) 0) where_ in
      let gap_end := map (fun w => nth (w + 1) (index df) 0) where_ in
      for_each gap_start (fun gap_s =>
        cur <- get_data self ;;
        new <- lift (loc_setitem cur (gap_s + threshold) (zeros (length (bincenters i)))) ;;
        inplace_data self new) ;;;
      for_each gap_end (fun gap_e =>
        cur <- get_data self ;;
        new <- lift (loc_setitem cur (gap_e - threshold) (zeros (length (bincenters i)))) ;;
        inplace_data self new) ;;;
      cur <- get_data self ;;
      rebind_data self (sort_index cur)
    else ret tt
  end.

Definition default_scale : Q := 11 # 10.

(** [SizeDist.__init__], for the class [c] being instantiated.  [data] is
    [None] or a reference to the caller's frame, [bincenters] is [None]
    for anything that is not an array. *)
Definition SizeDist__init__ (c : pyclass) (data : option loc) (bins : list Q)
    (distrType : string) (bincenters : option (list Q)) (fixGaps : bool) : M loc :=
  let centers :=
    match bincenters with
    | Some b => b
    | None => map2 (fun a b => (a + b) / 2) (from1 bins) (upto_last bins)
    end in
  let width := map2 Qminus (from1 bins) (upto_last bins) in
  match data with
  | None =>
    d <- alloc (ODataFrame []) ;;
    alloc (OInstance (mkInstance c bins centers width distrType d None None))
  | Some d =>
    self <- alloc (OInstance (mkInstance c bins centers width distrType d None None)) ;;
    (if fixGaps then fillGaps self default_scale else ret tt) ;;;
    ret self
  end.

(** [distTypes]: the groups of representation kinds. *)
Definition distTypes (group : string) : list string :=
  if String.eqb group "log normal" then ["dNdlogDp"; "dSdlogDp"; "dVdlogDp"]
  else if String.eqb group "natural" then ["dNdDp"; "dSdDp"; "dVdDp"]
  else if String.eqb group "number" then ["dNdlogDp"; "dNdDp"]
  else if String.eqb group "surface" then ["dSdlogDp"; "dSdDp"]
  else if String.eqb group "volume" then ["dVdlogDp"; "dVdDp"]
  else [].

(** Python's [x in l] on a list of strings. *)
Definition member (x : string) (l : list string) : bool := existsb (String.eqb x) l.

(** The arithmetic of the conversions.  The methods that convert a
    table are written once, for any arithmetic: the entries of the
    arrays that [_normal2log], [_2Surface] and [_2Volume] compute from
    the bin centers, the quotient of two such arrays, and the products
    and quotients of a value of the table with an entry of these arrays,
    with a quotient of two entries and with a bin width. *)
Record arithmetic := mkArithmetic {
  scalar : Type;
  normal2log : Q -> scalar;
  toSurface : Q -> scalar;
  toVolume : Q -> scalar;
  fraction : Type;
  quotient : scalar -> scalar -> fraction;
  times : value -> scalar -> value;
  over : value -> scalar -> value;
  times_quotient : value -> fraction -> value;
  times_width : value -> Q -> value;
  over_width : value -> Q -> value
}.

(** Arithmetic without rounding, on the rationals. *)
Definition exact : arithmetic :=
  {| scalar := Q;
     normal2log := fun c => c * np_log_10;
     toSurface := fun c => 4 * np_pi * (c / 2) ^ 2;
     toVolume := fun c => 4 / 3 * np_pi * (c / 2) ^ 3;
     fraction := value;
     quotient := qdiv;
     times := vmulq;
     over := vdivq;
     times_quotient := vmul;
     times_width := vmulq;
     over_width := vdivq |}.

Definition _normal2log_in (A : arithmetic) (self : loc) : M (list (scalar A)) :=
  i <- get_instance self ;;
  ret (map (normal2log A) (bincenters i)).

Definition _2Surface_in (A : arithmetic) (self : loc) : M (list (scalar A)) :=
  i <- get_instance self ;;
  ret (map (toSurface A) (bincenters i)).

Definition _2Volume_in (A : arithmetic) (self : loc) : M (list (scalar A)) :=
  i <- get_instance self ;;
  ret (map (toVolume A) (bincenters i)).

Definition _normal2log : loc -> M (list Q) := _normal2log_in exact.
Definition _2Surface : loc -> M (list Q) := _2Surface_in exact.
Definition _2Volume : loc -> M (list Q) := _2Volume_in exact.

(** [deepcopy(self)]: a new instance with a new frame of its own. *)
Definition copy (self : loc) : M loc :=
  i <- get_instance self ;;
  df <- get_frame (data i) ;;
  d <- alloc (ODataFrame df) ;;
  alloc (OInstance (with_data i d)).

Definition get_distributionType (self : loc) : M string :=
  i <- get_instance self ;; ret (distributionType i).

Definition set_distributionType (self : loc) (k : string) : M unit :=
  i <- get_instance self ;; store self (OInstance (with_distributionType i k)).

(** [x.data = x.data <op> a] builds a new frame; [x.data <op>= a] changes
    the frame object that [x.data] refers to. *)
Definition data_assign {B} (op : value -> B -> value) (x : loc) (a : list B) : M unit :=
  df <- get_data x ;;
  new <- lift (frame_op op df a) ;;
  rebind_data x new.

Definition data_inplace {B} (op : value -> B -> value) (x : loc) (a : list B) : M unit :=
  df <- get_data x ;;
  new <- lift (frame_op op df a) ;;
  inplace_data x new.

Definition not_an_option (distType : string) : exn :=
  ValueError (distType ++ " is not an option")%string.

(** [SizeDist._convert2otherDistribution], in the arithmetic [A].  The
    method calls itself, once through [convert2dNdDp] and once directly;
    [fuel] bounds the depth of these calls.  [dist.distributionType] is
    read once, as [k]: the attribute is not assigned before the last
    block.  The [print]s of the verbose mode are left out. *)
Fixpoint convert_in (A : arithmetic) (fuel : nat) (self : loc) (distType : string)
    (verbose : bool) {struct fuel} : M loc :=
  match fuel with
  | O => raise RecursionError
  | S fuel' =>
    dist <- copy self ;;
    k <- get_distributionType dist ;;
    if String.eqb k distType then
      (if verbose
       then warn ("Distribution type is already " ++ distType
                  ++ ". Output is an unchanged copy of the distribution")%string
       else ret tt) ;;;
      ret dist
    else
      (if String.eqb k "numberConcentration" then ret tt
       else if String.eqb distType "numberConcentration" then ret tt
       else if member k (distTypes "log normal") then
         if member distType (distTypes "log normal") then ret tt
         else f <- _normal2log_in A self ;; data_assign (over A) dist f
       else if member k (distTypes "natural") then
         if member distType (distTypes "natural") then ret tt
         else f <- _normal2log_in A self ;; data_assign (times A) dist f
       else raise (not_an_option distType)) ;;;
      (if String.eqb k "numberConcentration" then ret tt
       else if String.eqb distType "numberConcentration" then ret tt
       else if member k (distTypes "number") then
         if member distType (distTypes "number") then ret tt
         else if member distType (distTypes "surface") then
           f <- _2Surface_in A self ;; data_inplace (times A) dist f
         else if member distType (distTypes "volume") then
           f <- _2Volume_in A self ;; data_inplace (times A) dist f
         else raise (not_an_option distType)
       else if member k (distTypes "surface") then
         if member distType (distTypes "surface") then ret tt
         else if member distType (distTypes "number") then
           f <- _2Surface_in A self ;; data_inplace (over A) dist f
         else if member distType (distTypes "volume") then
           v <- _2Volume_in A self ;; s <- _2Surface_in A self ;;
           data_inplace (times_quotient A) dist (map2 (quotient A) v s)
         else raise (not_an_option distType)
       else if member k (distTypes "volume") then
         if member distType (distTypes "volume") then ret tt
         else if member distType (distTypes "number") then
           f <- _2Volume_in A self ;; data_inplace (over A) dist f
         else if member distType (distTypes "surface") then
           s <- _2Surface_in A self ;; v <- _2Volume_in A self ;;
           data_inplace (times_quotient A) dist (map2 (quotient A) s v)
         else raise (not_an_option distType)
       else raise (not_an_option distType)) ;;;
      dist <- (if String.eqb distType "numberConcentration" then
                 dist' <- convert_in A fuel' dist "dNdDp" false ;;
                 i <- get_instance self ;;
                 data_inplace (times_width A) dist' (binwidth i) ;;;
                 ret dist'
               else if String.eqb k "numberConcentration" then
                 i <- get_instance self ;;
                 data_assign (over_width A) dist (binwidth i) ;;;
                 set_distributionType dist "dNdDp" ;;;
                 convert_in A fuel' dist distType false
               else ret dist) ;;
      set_distributionType dist distType ;;;
      ret dist
  end.

Definition convert : nat -> loc -> string -> bool -> M loc := convert_in exact.

(** The interpreter's recursion limit. *)
Definition recursion_limit : nat := 1000.

Definition _convert2otherDistribution_in (A : arithmetic) (self : loc)
    (distType : string) (verbose : bool) : M loc :=
  convert_in A recursion_limit self distType verbose.

Definition _convert2otherDistribution (self : loc) (distType : string) (verbose : bool)
  : M loc :=
  convert recursion_limit self distType verbose.

Definition convert2dNdDp (self : loc) : M loc :=
  _convert2otherDistribution self "dNdDp" false.
Definition convert2dNdlogDp (self : loc) : M loc :=
  _convert2otherDistribution self "dNdlogDp" false.
Definition convert2dSdDp (self : loc) : M loc :=
  _convert2otherDistribution self "dSdDp" false.
Definition convert2dSdlogDp (self : loc) : M loc :=
  _convert2otherDistribution self "dSdlogDp" false.
Definition convert2dVdDp (self : loc) : M loc :=
  _convert2otherDistribution self "dVdDp" false.
Definition convert2dVdlogDp (self : loc) : M loc :=
  _convert2otherDistribution self "dVdlogDp" false.
Definition convert2numberconcentration (self : loc) : M loc :=
  _convert2otherDistribution self "numberConcentration" false.

(** ** [SizeDist_LS] *)

Definition with_layerbounderies (i : instance) (lb : ndarray) : instance :=
  mkInstance (cls i) (bins i) (bincenters i) (binwidth i) (distributionType i) (data i)
             (Some lb) (layercenters i).

Definition with_layercenters (i : instance) (lc : list Q) : instance :=
  mkInstance (cls i) (bins i) (bincenters i) (binwidth i) (distributionType i) (data i)
             (layerbounderies i) (Some lc).

Definition get_layerbounderies (self : loc) : M ndarray :=
  i <- get_instance self ;;
  match layerbounderies i with
  | Some a => ret a
  | None => raise (AttributeError "object has no attribute 'layerbounderies'")
  end.

Definition get_layercenters (self : loc) : M (list Q) :=
  i <- get_instance self ;;
  match layercenters i with
  | Some a => ret a
  | None => raise (AttributeError "object has no attribute 'layercenters'")
  end.

(** [SizeDist_LS.__init__].  The parameters [bincenters] and [fixGaps]
    are accepted and not passed on.  [layerbounderies] is [None] or, as
    in the module's own calls, a one-dimensional array of layer edges. *)
Definition SizeDist_LS__init__ (data : option loc) (bins : list Q)
    (distributionType : string) (layerbounderies : option (list Q))
    (bincenters : option (list Q)) (fixGaps : bool) : M loc :=
  self <- SizeDist__init__ SizeDist_LS data bins distributionType None true ;;
  i <- get_instance self ;;
  match layerbounderies with
  | None => store self (OInstance (with_layers i (Arr2 []) []))
  | Some lb =>
    store self (OInstance (with_layers i (Arr1 lb)
      (map2 (fun a b => (a + b) / 2) (from1 lb) (upto_last lb))))
  end ;;;
  ret self.

(** The result of one call of the Mie routine, and the frame that
    [_perform_Miecalculations] returns: each column is a Series object of
    its own, and reading a column of the frame twice gives the same
    object. *)
Record mie_values := mkMieValues {
  values_extinction_efficiency : value;
  values_scattering_efficiency : value;
  values_extinction_crosssection : value;
  values_scattering_crosssection : value
}.

Record mie_frame := mkMieFrame {
  diam_index : list Q;
  extinction_efficiency : loc;
  scattering_efficiency : loc;
  absorption_efficiency : loc;
  extinction_crossection : loc;
  scattering_crossection : loc;
  absorption_crossection : loc
}.

Record aod_result := mkAOD {
  AOD : value;
  AOD_layer : list (Q * value);
  extCoeffPerLayer : DataFrame
}.

Definition np_sum (l : list value) : value := fold_left vadd l (Some 0).

(** [_get_coefficients(crossection, cn)].  Both arguments are references;
    [*=] changes the objects they refer to. *)
Definition _get_coefficients (crossection cn : loc) : M loc :=
  cs <- get_series crossection ;;
  store crossection (OSeries (map (fun x => vmulq x (1 # 1000000000000)) cs)) ;;;
  c <- get_series cn ;;
  store cn (OSeries (map (fun x => vmulq x 1000000) c)) ;;;
  c' <- get_series cn ;;
  cs' <- get_series crossection ;;
  if Nat.eqb (length c') (length cs')
  then alloc (OSeries (map2 vmul c' cs'))
  else raise (ValueError "Lengths must match").

Section Mie.

(** The Mie routine [bhmie.bhmie_hagen] is not part of the module: it is
    a parameter of the model, as is the type of refractive indices. *)
Variable refractive_index : Type.
Variable bhmie_hagen : value -> refractive_index -> Q -> Q -> mie_values.

Definition _perform_Miecalculations (diam : list Q) (wavelength : Q)
    (n : refractive_index) : M mie_frame :=
  let noOfAngles := 100 in
  let sp := fun r l => qdiv (2 * np_pi * r) l in
  let values := map (fun d => bhmie_hagen (sp (d / 2) wavelength) n noOfAngles d) diam in
  e_eff <- alloc (OSeries (map values_extinction_efficiency values)) ;;
  s_eff <- alloc (OSeries (map values_scattering_efficiency values)) ;;
  a_eff <- alloc (OSeries (map (fun v => vsub (values_extinction_efficiency v)
                                              (values_scattering_efficiency v)) values)) ;;
  e_cs <- alloc (OSeries (map values_extinction_crosssection values)) ;;
  s_cs <- alloc (OSeries (map values_scattering_crosssection values)) ;;
  a_cs <- alloc (OSeries (map (fun v => vsub (values_extinction_crosssection v)
                                             (values_scattering_crosssection v)) values)) ;;
  ret (mkMieFrame diam e_eff s_eff a_eff e_cs s_cs a_cs).

(** [sdls.layerbounderies[i][1] - sdls.layerbounderies[i][0]]. *)
Definition layerThickness (lb : ndarray) (i : nat) : outcome Q :=
  match lb with
  | Arr1 a =>
    match nth_error a i with
    | Some _ => Raise (IndexError "invalid index to scalar variable.")
    | None => Raise (IndexError "index out of bounds")
    end
  | Arr2 a =>
    match nth_error a i with
    | Some (low, high) => Ok (high - low)
    | None => Raise (IndexError "index out of bounds")
    end
  end.

(** The loop of [calculate_AOD] over [enumerate(sdls.layercenters)]; the
    rows of [AOD_layer] and [extCoeffPerLayer] are produced in order.
    [laydata] is the array of the row's values. *)
Fixpoint AOD_loop (sdls : loc) (mie : mie_frame) (i : nat) (lcs : list Q)
  : M (list (Q * value) * DataFrame) :=
  match lcs with
  | [] => ret ([], [])
  | lc :: rest =>
    df <- get_data sdls ;;
    row <- lift (loc_getitem df lc) ;;
    laydata <- alloc (OSeries row) ;;
    extinction_coefficient <- _get_coefficients (extinction_crossection mie) laydata ;;
    lb <- get_layerbounderies sdls ;;
    thickness <- lift (layerThickness lb i) ;;
    ext <- get_series extinction_coefficient ;;
    let AOD_perBin := map (fun x => vmulq x thickness) ext in
    r <- AOD_loop sdls mie (S i) rest ;;
    ret ((lc, np_sum AOD_perBin) :: fst r, (lc, ext) :: snd r)
  end.

Definition calculate_AOD (self : loc) (wavelenth : Q) (n : refractive_index)
  : M aod_result :=
  sdls <- convert2numberconcentration self ;;
  s <- get_instance sdls ;;
  mie <- _perform_Miecalculations (map (fun c => c / 1000) (bincenters s))
                                  (wavelenth / 1000) n ;;
  lcs <- get_layercenters sdls ;;
  r <- AOD_loop sdls mie 0 lcs ;;
  warn "ACTION required: what to do with gaps in the layers when clauclating the AOD?!?" ;;;
  ret (mkAOD (np_sum (map snd (fst r))) (fst r) (snd r)).

End Mie.

(** [np.unique]: the sorted array without repetitions. *)
Fixpoint dedup (l : list Q) : list Q :=
  match l with
  | [] => []
  | a :: t =>
    match t with
    | [] => [a]
    | b :: _ => if Qeq_bool a b then dedup t else a :: dedup t
    end
  end.

Definition flatten (a : list (Q * Q)) : list Q :=
  flat_map (fun p => [fst p; snd p]) a.

Definition np_unique (l : list Q) : list Q := dedup (np_sort l).

(** [a.sort(axis=0)]: each column is sorted on its own. *)
Definition sort_axis0 (a : list (Q * Q)) : list (Q * Q) :=
  combine (np_sort (map fst a)) (np_sort (map snd a)).

Definition OverlappingLayer : exn :=
  ValueError "The new layer is overlapping with an existing layer!".

(** [SizeDist_LS.add_layer(sd, layerboundery)]. *)
Definition add_layer (self sd : loc) (layerboundery : list Q) : M unit :=
  match layerboundery with
  | [low; high] =>
    k <- get_distributionType self ;;
    sd <- _convert2otherDistribution sd k false ;;
    old <- get_layerbounderies self ;;
    layerbounderies <-
      match old with
      | Arr2 a => ret (a ++ [(low, high)])
      | Arr1 _ =>
        raise (ValueError "all the input arrays must have same number of dimensions")
      end ;;
    let layerbounderiesU := np_unique (flatten layerbounderies) in
    let d := map2 (fun a b => (Z.of_nat a - Z.of_nat b)%Z)
                  (np_where (fun x => Qeq_bool x high) layerbounderiesU)
                  (np_where (fun x => Qeq_bool x low) layerbounderiesU) in
    match d with
    | [] => raise (IndexError "index 0 is out of bounds for axis 0 with size 0")
    | d0 :: _ =>
      if negb (Z.eqb d0 1) then raise OverlappingLayer
      else
        i <- get_instance self ;;
        store self (OInstance (with_layerbounderies i (Arr2 (sort_axis0 layerbounderies)))) ;;;
        let layercenter := (low + high) / 2 in
        lcs <- get_layercenters self ;;
        i <- get_instance self ;;
        store self (OInstance (with_layercenters i (np_sort (lcs ++ [layercenter])))) ;;;
        new <- get_data sd ;;
        match new with
        | [r] => inplace_data sd [(layercenter, snd r)]
        | _ => raise (ValueError "Length mismatch")
        end ;;;
        cur <- get_data self ;;
        new <- get_data sd ;;
        rebind_data self (sort_index (cur ++ new))
    end
  | _ => raise (ValueError "layerboundery has to be of length 2")
  end.

(** ** Snapshot files *)

(** [s.split(c)] and [s.strip()]. *)
Fixpoint split_on (c : ascii) (s : string) : list string :=
  match s with
  | EmptyString => [EmptyString]
  | String a t =>
    if Ascii.eqb a c then EmptyString :: split_on c t
    else match split_on c t with
         | h :: r => String a h :: r
         | [] => [String a EmptyString]
         end
  end.

Definition is_space (a : ascii) : bool :=
  Ascii.eqb a " " || Ascii.eqb a "009" || Ascii.eqb a "010"
  || Ascii.eqb a "011" || Ascii.eqb a "012" || Ascii.eqb a "013".

Fixpoint lstrip (s : string) : string :=
  match s with
  | EmptyString => EmptyString
  | String a t => if is_space a then lstrip t else s
  end.

Fixpoint rstrip (s : string) : string :=
  match s with
  | EmptyString => EmptyString
  | String a t =>
    match rstrip t with
    | EmptyString => if is_space a then EmptyString else String a EmptyString
    | t' => String a t'
    end
  end.

Definition strip (s : string) : string := rstrip (lstrip s).

Fixpoint lookup_file (fname : string) (fs : list (string * file)) : option file :=
  match fs with
  | [] => None
  | (n, f) :: t => if String.eqb n fname then Some f else lookup_file fname t
  end.

Definition set_files (st : state) (fs : list (string * file)) : state :=
  mkState (heap st) (warnings st) fs.

(** [open(fname, 'w')] followed by the [write]s of [lines] and [close]. *)
Definition write_file (fname : string) (lines : list string) : M unit :=
  fun st => (set_files st ((fname, mkFile lines None) :: files st), Ok tt).

(** Appending the lines [text] to the file, as [to_csv(fname, mode='a')]
    does with the text of a table. *)
Definition append_table (text : list string) (fname : string) : M unit :=
  fun st =>
    match lookup_file fname (files st) with
    | Some f => (set_files st ((fname, mkFile (header f) (Some text)) :: files st), Ok tt)
    | None => (set_files st ((fname, mkFile [] (Some text)) :: files st), Ok tt)
    end.

Definition open_read (fname : string) : M file :=
  fun st =>
    match lookup_file fname (files st) with
    | Some f => (st, Ok f)
    | None => (st, Raise (IOError "No such file or directory"))
    end.

(** [readline()] at line [i]: below the head of the file come the lines
    of the table, for which a line without equals sign stands ([to_csv]
    writes labels, keys and numbers between commas), or the end of the
    file. *)
Definition readline (f : file) (i : nat) : string :=
  match nth_error (header f) i with
  | Some s => s
  | None => match table f with Some _ => "," | None => "" end
  end.

(** An entry of the index as [read_csv] returns it: a number, or a text
    that is no number. *)
Inductive label :=
| LNumber (q : Q)
| LText (s : string).

(** [data.index = keys]. *)
Definition set_index {A} (raw : list (A * list value)) (keys : list Q)
  : outcome DataFrame :=
  if Nat.eqb (length keys) (length raw) then Ok (combine keys (map snd raw))
  else Raise (ValueError "Length mismatch").

Inductive pyvalue :=
| PStr (s : string)
| PArray (a : list Q).

Fixpoint dict_get (d : list (string * pyvalue)) (key : string) : outcome pyvalue :=
  match d with
  | [] => Raise (KeyError key)
  | (k, v) :: t => if String.eqb k key then Ok v else dict_get t key
  end.

Definition headerNo : nat := 50.

Definition nol : list string := ["distributionType"; "objectType"].

Definition NotASizeDistribution : exn := TypeError "Sure this is a size distribution?".
Definition UnknownObjectType : exn := TypeError "not a valid object type".

Section Text.

(** How Python prints a list of floats and what [np.array(eval(text))]
    makes of a text are parameters of the model.  So is what pandas does
    with the text of a table: the lines that [DataFrame.to_csv] prints,
    the index entries and the values that [pd.read_csv] reads from such
    lines, and the timestamps that [pd.to_datetime] makes of index
    entries (a timestamp is the number it stands for), or the error it
    raises. *)
Variable repr_list : list Q -> string.
Variable py_eval : string -> outcome (list Q).
Variable to_csv_text : DataFrame -> list string.
Variable read_csv_text : list string -> outcome (list (label * list value)).
Variable to_datetime : list label -> outcome (list Q).

(** [df.to_csv(fname, mode='a')]. *)
Definition to_csv (df : DataFrame) (fname : string) : M unit :=
  append_table (to_csv_text df) fname.

(** [pd.read_csv(fname, header=h, index_col=0)]: the table is found when
    it starts at line [h]. *)
Definition read_csv (f : file) (h : nat) : outcome (list (label * list value)) :=
  match table f with
  | Some text =>
    if Nat.eqb h (length (header f)) then read_csv_text text
    else Raise (ValueError "Error tokenizing data")
  | None => Raise (ValueError "No columns to parse from file")
  end.

Definition save_csv (self : loc) (fname : string) : M unit :=
  i <- get_instance self ;;
  write_file fname
    [("bins = " ++ repr_list (bins i))%string;
     ("distributionType = " ++ distributionType i)%string;
     ("objectType = " ++ class_name (cls i))%string;
     "#"] ;;;
  df <- get_data self ;;
  to_csv df fname.

(** The loop [for i in range(headerNo)] of the loader, from line [i] on,
    with [todo] rounds left; it yields the [i] of the [break] and the
    dictionary. *)
Fixpoint read_header (f : file) (todo i : nat) (outDict : list (string * pyvalue))
  : outcome (nat * list (string * pyvalue)) :=
  match todo with
  | O => Ok (pred i, outDict)
  | S todo' =>
    let split := split_on "=" (readline f i) in
    let split0 := nth 0 split "" in
    let variable := strip split0 in
    match split0 with
    | EmptyString => Raise (IndexError "string index out of range")
    | String c _ =>
      if Ascii.eqb c "#" then Ok (i, outDict)
      else
        match nth_error split 1 with
        | None => Raise (IndexError "list index out of range")
        | Some v =>
          let value := strip v in
          match (if member variable nol then Ok (PStr value)
                 else match py_eval value with
                      | Ok a => Ok (PArray a)
                      | Raise e => Raise e
                      end) with
          | Raise e => Raise e
          | Ok entry =>
            let outDict := (variable, entry) :: outDict in
            if Nat.eqb i (headerNo - 1) then Raise NotASizeDistribution
            else read_header f todo' (S i) outDict
          end
        end
    end
  end.

Definition as_array (v : pyvalue) : outcome (list Q) :=
  match v with
  | PArray a => Ok a
  | PStr _ => Raise (TypeError "unsupported operand type(s) for +: 'str' and 'str'")
  end.

Definition as_str (v : pyvalue) : outcome string :=
  match v with
  | PStr s => Ok s
  | PArray _ => Raise (TypeError "distribution type is not a string")
  end.

Definition is_str (v : pyvalue) (s : string) : bool :=
  match v with
  | PStr s' => String.eqb s' s
  | PArray _ => false
  end.

(** [read_distribution_csv(fname, fixGaps)].  The call of [SizeDist_LS]
    passes no [layerbounderies]. *)
Definition read_distribution_csv (fname : string) (fixGaps : bool) : M loc :=
  f <- open_read fname ;;
  r <- lift (read_header f headerNo 0 []) ;;
  let i := fst r in
  let outDict := snd r in
  raw <- lift (read_csv f (i + 1)) ;;
  keys <- lift (to_datetime (map fst raw)) ;;
  df <- lift (set_index raw keys) ;;
  data <- alloc (ODataFrame df) ;;
  objectType <- lift (dict_get outDict "objectType") ;;
  if is_str objectType "SizeDist_TS" then
    b <- lift (dict_get outDict "bins") ;; b <- lift (as_array b) ;;
    k <- lift (dict_get outDict "distributionType") ;; k <- lift (as_str k) ;;
    SizeDist__init__ SizeDist_TS (Some data) b k None fixGaps
  else if is_str objectType "SizeDist" then
    b <- lift (dict_get outDict "bins") ;; b <- lift (as_array b) ;;
    k <- lift (dict_get outDict "distributionType") ;; k <- lift (as_str k) ;;
    SizeDist__init__ SizeDist (Some data) b k None fixGaps
  else if is_str objectType "SizeDist_LS" then
    b <- lift (dict_get outDict "bins") ;;
    k <- lift (dict_get outDict "distributionType") ;;
    raise (TypeError
      "__init__() missing 1 required positional argument: 'layerbounderies'")
  else raise UnknownObjectType.

End Text.

(** ** Labels and plot arrays *)

(** [get_label(distType)]: the axis label of a kind. *)
Definition get_label (distType : string) : outcome string :=
  if String.eqb distType "dNdDp" then
    Ok "$\mathrm{d}N\,/\,\mathrm{d}D_{P}$ (nm$^{-1}\,$cm$^{-3}$)"
  else if String.eqb distType "dNdlogDp" then
    Ok "$\mathrm{d}N\,/\,\mathrm{d}log(D_{P})$ (cm$^{-3}$)"
  else if String.eqb distType "dSdDp" then
    Ok "$\mathrm{d}S\,/\,\mathrm{d}D_{P}$ (nm$\,$cm$^{-3}$)"
  else if String.eqb distType "dSdlogDp" then
    Ok "$\mathrm{d}S\,/\,\mathrm{d}log(D_{P})$ (nm$^2\,$cm$^{-3}$)"
  else if String.eqb distType "dVdDp" then
    Ok "$\mathrm{d}V\,/\,\mathrm{d}D_{P}$ (nm$^2\,$cm$^{-3}$)"
  else if String.eqb distType "dVdlogDp" then
    Ok "$\mathrm{d}V\,/\,\mathrm{d}log(D_{P})$ (nm$^3\,$cm$^{-3}$)"
  else if String.eqb distType "calibration" then
    Ok "$\mathrm{d}N\,/\,\mathrm{d}Amp$ (bin$^{-1}\,$cm$^{-3}$)"
  else if String.eqb distType "numberConcentration" then
    Ok "Particle number in bin"
  else Raise (ValueError (distType ++ " is not really an option!?!")%string).

(** [SizeDist_TS._getXYZ] and [SizeDist_LS._getXYZ]: the keys of the
    rows and the bin edges, each repeated to a full array, and the values
    with a column of zeros appended. *)
Definition _getXYZ (self : loc) : M (list (list Q) * list (list Q) * list (list value)) :=
  i <- get_instance self ;;
  df <- get_frame (data i) ;;
  let binArray := repeat (bins i) (length (index df)) in
  let timeArray := map (fun k => repeat k (length (bins i))) (index df) in
  let ext := map (fun _ => [Some 0]) (index df) in
  let Z := map2 (fun row e => row ++ e) (map snd df) ext in
  ret (timeArray, binArray, Z).

(** * Specifications *)

(** ** Vocabulary *)

(** The locations below [n] hold in [h'] what they hold in [h]. *)
Definition frozen (n : nat) (h h' : list pyobj) : Prop :=
  (n <= length h')%nat /\ forall l, (l < n)%nat -> nth_error h' l = nth_error h l.

Definition assertion := list pyobj -> Prop.

(** [triple n P m Q]: from a store of at least [n] objects that satisfies
    [P], the computation [m] leaves the first [n] objects alone and ends
    with an outcome and a store that satisfy [Q]. *)
Definition triple {A} (n : nat) (P : assertion) (m : M A) (Q : outcome A -> assertion)
  : Prop :=
  forall st, (n <= length (heap st))%nat -> P (heap st) ->
    frozen n (heap st) (heap (fst (m st))) /\ Q (snd (m st)) (heap (fst (m st))).

(** The object at [l] is the instance [i], with the frame [df]. *)
Definition view (h : list pyobj) (l : loc) (i : instance) (df : DataFrame) : Prop :=
  nth_error h l = Some (OInstance i) /\ nth_error h (data i) = Some (ODataFrame df).

(** [d] is an instance created after the first [n] objects, and so is its
    frame. *)
Definition owned (n : nat) (d : loc) : assertion :=
  fun h =>
    (n <= d)%nat /\
    exists i df, view h d i df /\ (n <= data i)%nat.

(** The situation inside a conversion: the source [self] is the instance
    [i0], among the first [n] objects; the working copy [d] was created
    later and is [i0] but for its kind [k] and its frame [df]. *)
Definition holds (n : nat) (self : loc) (i0 : instance) (k : string) (df : DataFrame)
    (d : loc) : assertion :=
  fun h =>
    (self < n)%nat /\ nth_error h self = Some (OInstance i0) /\ (n <= d)%nat /\
    exists dl, (n <= dl)%nat /\
      nth_error h d = Some (OInstance (with_distributionType (with_data i0 dl) k)) /\
      nth_error h dl = Some (ODataFrame df).

(** The six kinds on the two axes. *)
Definition axis_kinds : list string :=
  ["dNdDp"; "dNdlogDp"; "dSdDp"; "dSdlogDp"; "dVdDp"; "dVdlogDp"].

(** [df <op> a], row by row, when nothing is refused. *)
Definition apply_op {B} (op : value -> B -> value) (a : list B) (df : DataFrame)
  : DataFrame :=
  map (fun r => (fst r, map2 op (snd r) a)) df.

Definition rows_len (m : nat) (df : DataFrame) : Prop :=
  Forall (fun r => length (snd r) = m) df.

(** Every row has one value per bin. *)
Definition frame_wf (i : instance) (df : DataFrame) : Prop :=
  rows_len (length (bincenters i)) df /\ rows_len (length (binwidth i)) df.

(** The conversion of one value of a bin with center [c], as the
    specification words it: first the diameter scaling, natural to
    logarithmic multiplies by [c * ln 10] and the other direction
    divides; then the weighting basis, with the surface and the volume
    of a sphere of diameter [c]. *)
Definition surface_factor (c : Q) : Q := 4 * np_pi * (c / 2) ^ 2.
Definition volume_factor (c : Q) : Q := 4 / 3 * np_pi * (c / 2) ^ 3.

Definition scale_value (k1 k2 : string) (v : value) (c : Q) : value :=
  if member k1 (distTypes "log normal") then
    if member k2 (distTypes "log normal") then v else vdivq v (c * np_log_10)
  else
    if member k2 (distTypes "natural") then v else vmulq v (c * np_log_10).

Definition basis_value (k1 k2 : string) (v : value) (c : Q) : value :=
  if member k1 (distTypes "number") then
    if member k2 (distTypes "number") then v
    else if member k2 (distTypes "surface") then vmulq v (surface_factor c)
    else vmulq v (volume_factor c)
  else if member k1 (distTypes "surface") then
    if member k2 (distTypes "surface") then v
    else if member k2 (distTypes "number") then vdivq v (surface_factor c)
    else vmul v (qdiv (volume_factor c) (surface_factor c))
  else
    if member k2 (distTypes "volume") then v
    else if member k2 (distTypes "number") then vdivq v (volume_factor c)
    else vmul v (qdiv (surface_factor c) (volume_factor c)).

Definition convert_value (k1 k2 : string) (v : value) (c : Q) : value :=
  basis_value k1 k2 (scale_value k1 k2 v c) c.

(** The outcome is [Ok a], and [P] holds. *)
Definition returns {A} (a : A) (P : assertion) : outcome A -> assertion :=
  fun r h => r = Ok a /\ P h.

(** The outcome is the exception [e], and [P] holds. *)
Definition raises {A} (e : exn) (P : assertion) : outcome A -> assertion :=
  fun r h => r = Raise e /\ P h.

(** The outcome is [Ok d] for some [d] with [P d]. *)
Definition returns_some {A} (P : A -> assertion) : outcome A -> assertion :=
  fun r h => exists a, r = Ok a /\ P a h.

(** A computation that leaves the store alone. *)
Definition reads {A} (m : M A) : Prop := forall st, heap (fst (m st)) = heap st.

(** The specification of a call: whatever the store, the objects that
    exist when [m] starts are left alone. *)
Definition call {A} (P : assertion) (m : M A) (Q : outcome A -> assertion) : Prop :=
  forall n, triple n (fun h => n = length h /\ P h) m Q.

(** The conversion ends with the exception [e]. *)
Definition refused (e : exn) : outcome loc -> assertion := fun r _ => r = Raise e.

(** The message of the exception contains the name [k]. *)
Definition mentions (e : exn) (k : string) : bool :=
  match e with
  | ValueError msg | TypeError msg | IndexError msg | KeyError msg
  | AttributeError msg | IOError msg =>
    match String.index 0 k msg with Some _ => true | None => false end
  | RecursionError => false
  end.

Definition ascending (l : list Q) : Prop := StronglySorted Qle l.
Definition strictly_ascending (l : list Q) : Prop := StronglySorted Qlt l.


Definition setitem (df : DataFrame) (k : Q) (row : list value) : DataFrame :=
  if existsb (fun r => Qeq_bool (fst r) k) df
  then map (fun r => if Qeq_bool (fst r) k then (fst r, row) else r) df
  else df ++ [(k, row)].

Definition setitems_result (df : DataFrame) (keys : list Q) (row : list value) : DataFrame :=
  fold_left (fun d k => setitem d k row) keys df.

(** The words of the specification for gap detection. *)
Definition deltas (df : DataFrame) : list Q :=
  map2 Qminus (from1 (index df)) (upto_last (index df)).

Definition typical_delta (df : DataFrame) : Q :=
  match np_median (deltas df) with Some m => m | None => 0 end.

Definition gaps (scale : Q) (df : DataFrame) : list nat :=
  match np_median (deltas df) with
  | Some m => np_where (fun d => Qltb (m * scale) d) (deltas df)
  | None => []
  end.

Definition gap_warning (n : nat) : string :=
  ("The dataset provided had " ++ string_of_nat n ++ " gaps")%string.

(** The keys of the rows that [fillGaps] sets to zero. *)
Definition fill_keys (scale : Q) (df : DataFrame) : list Q :=
  map (fun w => nth w (index df) 0 + typical_delta df * scale) (gaps scale df)
  ++ map (fun w => nth (w + 1) (index df) 0 - typical_delta df * scale) (gaps scale df).

(** [lo] is immediately followed by [hi] in [U]. *)
Definition adjacent (U : list Q) (lo hi : Q) : Prop :=
  exists pre a b post, U = pre ++ a :: b :: post /\ a == lo /\ b == hi.

(** The difference of positions that [add_layer] computes. *)
Definition index_difference (U : list Q) (lo hi : Q) : list Z :=
  map2 (fun a b => (Z.of_nat a - Z.of_nat b)%Z)
       (np_where (fun x => Qeq_bool x hi) U)
       (np_where (fun x => Qeq_bool x lo) U).

Definition layer_added (i : instance) (lb : list (Q * Q)) (lcs : list Q) (low high : Q)
    (dl : loc) : instance :=
  with_data
    (with_layercenters
       (with_layerbounderies i (Arr2 (sort_axis0 (lb ++ [(low, high)]))))
       (np_sort (lcs ++ [(low + high) / 2])))
    dl.

Definition empty_state : state := mkState [] [] [].

Definition sample_bins : list Q := [50; 150; 250].

(** A table with one row, of the kind [k]. *)
Definition single_row (k : string) (v : list value) : M loc :=
  d <- alloc (ODataFrame [(0, v)]) ;;
  SizeDist__init__ SizeDist (Some d) sample_bins k None true.

(** An empty layer series that receives the layer [b1]; a second table
    is ready to be added. *)
Definition one_layer (b1 : list Q) : M (loc * loc) :=
  host <- SizeDist_LS__init__ None sample_bins "dNdDp" None None true ;;
  sd1 <- single_row "dNdDp" [Some 5; Some 5] ;;
  add_layer host sd1 b1 ;;;
  sd2 <- single_row "dNdDp" [Some 7; Some 7] ;;
  ret (host, sd2).

Definition two_layers (b1 b2 : list Q) : M loc :=
  p <- one_layer b1 ;;
  add_layer (fst p) (snd p) b2 ;;;
  ret (fst p).

Definition get_object (st : state) (l : loc) : pyobj :=
  nth l (heap st) (OSeries []).

Definition instance_of (o : pyobj) : instance :=
  match o with
  | OInstance i => i
  | _ => mkInstance SizeDist [] [] [] "" 0%nat None None
  end.

Definition frame_of (st : state) (i : instance) : DataFrame :=
  match get_object st (data i) with
  | ODataFrame df => df
  | _ => []
  end.

Definition one_layer_state : state := fst (one_layer [100; 200] empty_state).

(** A layer series that is constructed with the layer edges 100 and 200
    (object 1), and a table that is ready to be added (object 3). *)
Definition edges_layer_state : state :=
  fst ((host <- SizeDist_LS__init__ None sample_bins "dNdDp" (Some [100; 200]) None true ;;
        single_row "dNdDp" [Some 7; Some 7]) empty_state).

(** A Mie routine that gives every particle the extinction cross-section
    1 and the scattering cross-section 1/2. *)
Definition unit_mie (x : value) (n : Q) (angles d : Q) : mie_values :=
  mkMieValues (Some 1) (Some (1 # 2)) (Some 1) (Some (1 # 2)).

Definition two_layer_AOD : M aod_result :=
  host <- two_layers [100; 200] [200; 300] ;;
  calculate_AOD Q unit_mie host 600 (16 # 10).

(** The midpoints of the bin edges. *)
Definition bin_midpoints (bins : list Q) : list Q :=
  map2 (fun a b => (a + b) / 2) (from1 bins) (upto_last bins).

(** The text to the right of the first equals sign of a line, as the
    loader reads it. *)
Definition line_value (s : string) : string :=
  match nth_error (split_on "=" s) 1 with
  | Some v => strip v
  | None => ""
  end.

(** A line that the loader takes for an assignment: it has an equals
    sign, does not start with [#], and its value is kept as text or can
    be evaluated. *)
Definition assignment_line (py_eval : string -> outcome (list Q)) (s : string) : Prop :=
  exists c0 r0 v rest,
    split_on "=" s = String c0 r0 :: v :: rest
    /\ Ascii.eqb c0 "#" = false
    /\ (member (strip (String c0 r0)) nol = true \/ exists a, py_eval (strip v) = Ok a).

Definition all_kinds : list string :=
  axis_kinds ++ ["numberConcentration"; "calibration"].

(** A table of the kind [k] with the one row (1, 2) at key 0: the frame
    is object 0 and the instance object 1. *)
Definition sample_state (k : string) : state :=
  fst (single_row k [Some 1; Some 2] empty_state).

(** Ten rows at the keys 0 to 4 and 9 to 13: one gap of five times the
    median delta. *)
Definition gap_table : DataFrame :=
  map (fun k => (k, [Some 1; Some 2])) [0; 1; 2; 3; 4; 9; 10; 11; 12; 13].

(** The time series over [gap_table]: the frame is object 0 and the
    instance object 1. *)
Definition gap_state (fixGaps : bool) : state :=
  fst ((d <- alloc (ODataFrame gap_table) ;;
        SizeDist__init__ SizeDist_TS (Some d) sample_bins "dNdDp" None fixGaps)
       empty_state).

(** Stand-ins for the printing and the evaluation of the sample bins. *)
Definition sample_repr (l : list Q) : string := "[50.0, 150.0, 250.0]".
Definition sample_eval (s : string) : outcome (list Q) := Ok sample_bins.

(** Stand-ins for what pandas does with the text of a table.  The text
    has a title line and one line for every row, with the key and the
    values between commas; a number is written as a fraction, and [nan]
    stands for a value that is not finite.  Reading takes a first field
    that is not a number for a text, and taking keys for timestamps
    accepts numbers only. *)
Definition print_Z (z : Z) : string := NilZero.string_of_int (Z.to_int z).

Definition parse_Z (s : string) : option Z :=
  option_map Z.of_int (NilZero.int_of_string s).

Definition print_number (v : value) : string :=
  match v with
  | Some q => (print_Z (Qnum q) ++ "/" ++ print_Z (Zpos (Qden q)))%string
  | None => "nan"
  end.

Definition parse_number (s : string) : option value :=
  if String.eqb s "nan" then Some None
  else match split_on "/" s with
       | [n; d] =>
         match parse_Z n, parse_Z d with
         | Some n, Some (Zpos d) => Some (Some (n # d))
         | _, _ => None
         end
       | _ => None
       end.

Definition sample_to_csv (df : DataFrame) : list string :=
  "key,values"
  :: map (fun r => String.concat "," (print_number (Some (fst r))
                                        :: map print_number (snd r))) df.

Fixpoint parse_numbers (l : list string) : outcome (list value) :=
  match l with
  | [] => Ok []
  | s :: t =>
    match parse_number s, parse_numbers t with
    | Some v, Ok r => Ok (v :: r)
    | None, _ => Raise (ValueError "could not convert string to float")
    | _, Raise e => Raise e
    end
  end.

Fixpoint parse_rows (l : list string) : outcome (list (label * list value)) :=
  match l with
  | [] => Ok []
  | s :: t =>
    match split_on "," s with
    | [] => Raise (ValueError "Error tokenizing data")
    | k :: vs =>
      match parse_numbers vs, parse_rows t with
      | Ok row, Ok r =>
        Ok ((match parse_number k with
             | Some (Some q) => LNumber q
             | _ => LText k
             end, row) :: r)
      | Raise e, _ => Raise e
      | _, Raise e => Raise e
      end
    end
  end.

Definition sample_read_csv (text : list string) : outcome (list (label * list value)) :=
  parse_rows (tl text).

Fixpoint sample_to_datetime (l : list label) : outcome (list Q) :=
  match l with
  | [] => Ok []
  | LNumber q :: t =>
    match sample_to_datetime t with
    | Ok r => Ok (q :: r)
    | Raise e => Raise e
    end
  | LText _ :: _ => Raise (ValueError "Unknown string format")
  end.


(** What a conversion returns was created by it. *)
Definition fresh_result (n : nat) : outcome loc -> assertion :=
  fun r h => match r with Ok d => owned n d h | Raise _ => True end.

(** The kinds between which tables can be converted. *)
Definition convertible_kinds : list string := axis_kinds ++ ["numberConcentration"].

(** Four rows at the keys 0 to 3. *)
Definition regular_table : DataFrame :=
  map (fun k => (k, [Some 1; Some 2])) [0; 1; 2; 3].

(** The time series over [regular_table]: the frame is object 0 and the
    instance object 1. *)
Definition regular_state : state :=
  fst ((d <- alloc (ODataFrame regular_table) ;;
        SizeDist__init__ SizeDist_TS (Some d) sample_bins "dNdDp" None false)
       empty_state).

(** [d] is an instance created after the first [n] objects that is [i0]
    but for its kind [k] and its frame, which was created later as
    well. *)
Definition version (i0 : instance) (n : nat) (k : string) (d : loc) : assertion :=
  fun h =>
    (n <= d)%nat /\
    exists dl df, (n <= dl)%nat
                  /\ view h d (with_distributionType (with_data i0 dl) k) df.

Definition some_version (i0 : instance) (n : nat) (d : loc) : assertion :=
  fun h => exists k, version i0 n k d h.

(** What a conversion returns: a version of the source, of the kind
    that was asked for. *)
Definition converted (i0 : instance) (n : nat) (k : string) : outcome loc -> assertion :=
  fun r h => match r with Ok d => version i0 n k d h | Raise _ => True end.

Definition converted_some (i0 : instance) (n : nat) : outcome loc -> assertion :=
  fun r h => match r with Ok d => some_version i0 n d h | Raise _ => True end.

(** [crossection *= 1e-12], as [_get_coefficients] does it. *)
Definition rescale (cs : list value) : list value :=
  map (fun x => vmulq x (1 # 1000000000000)) cs.

(** The number concentrations of a row of a table of the instance [i]. *)
Definition number_row (i : instance) (row : list value) : list value :=
  map2 vmulq (map2 (convert_value (distributionType i) "dNdDp") row (bincenters i))
       (binwidth i).

(** The extinction cross-sections that the Mie routine gives for the bin
    centers of [i], in micrometers, at the wavelength [wl] in
    nanometers. *)
Definition mie_crosssections {refractive_index : Type}
    (bhmie_hagen : value -> refractive_index -> Q -> Q -> mie_values)
    (i : instance) (wl : Q) (n : refractive_index) : list value :=
  map values_extinction_crosssection
    (map (fun d => bhmie_hagen (qdiv (2 * np_pi * (d / 2)) (wl / 1000)) n 100 d)
       (map (fun c => c / 1000) (bincenters i))).

(** The extinction coefficients of the layer at position [j], as
    [calculate_AOD] computes them: by then the cross-sections have been
    rescaled [j + 1] times. *)
Definition layer_coefficients (cn cs : list value) (j : nat) : list value :=
  map2 vmul (map (fun x => vmulq x 1000000) cn) (Nat.iter (S j) rescale cs).

(** * Proofs *)

Create HintDb reads.

(** ** The store *)

Lemma length_update {A} (l : list A) n a : length (update l n a) = length l.
Proof.
  revert n; induction l as [|x t IH]; intros [|n]; simpl; auto.
Qed.

Lemma nth_error_update_eq {A} (l : list A) n a :
  (n < length l)%nat -> nth_error (update l n a) n = Some a.
Proof.
  revert n; induction l as [|x t IH]; intros [|n] H; simpl in *; try lia; auto.
  apply IH; lia.
Qed.

Lemma nth_error_update_neq {A} (l : list A) n m a :
  n <> m -> nth_error (update l n a) m = nth_error l m.
Proof.
  revert n m; induction l as [|x t IH]; intros [|n] [|m] H; simpl; auto; try congruence.
Qed.

Lemma nth_error_snoc_eq {A} (l : list A) a : nth_error (l ++ [a]) (length l) = Some a.
Proof.
  rewrite nth_error_app2 by lia. now rewrite Nat.sub_diag.
Qed.

Lemma nth_error_snoc_lt {A} (l : list A) a n :
  (n < length l)%nat -> nth_error (l ++ [a]) n = nth_error l n.
Proof.
  intros; now rewrite nth_error_app1.
Qed.

Lemma nth_error_lt {A} (l : list A) n a : nth_error l n = Some a -> (n < length l)%nat.
Proof.
  intros H; apply nth_error_Some; congruence.
Qed.

Lemma frozen_refl n h : (n <= length h)%nat -> frozen n h h.
Proof. split; auto. Qed.

Lemma frozen_trans n h1 h2 h3 : frozen n h1 h2 -> frozen n h2 h3 -> frozen n h1 h3.
Proof.
  intros [L1 H1] [L2 H2]; split; auto.
  intros l Hl; rewrite H2, H1; auto.
Qed.

Lemma frozen_le n n' h h' : (n <= n')%nat -> frozen n' h h' -> frozen n h h'.
Proof.
  intros Hn [L H]; split; [lia|]. intros l Hl; apply H; lia.
Qed.

Lemma frozen_alloc n h o : (n <= length h)%nat -> frozen n h (h ++ [o]).
Proof.
  intros Hn; split.
  - rewrite length_app; simpl; lia.
  - intros l Hl; apply nth_error_snoc_lt; lia.
Qed.

Lemma frozen_update n h l o :
  (n <= length h)%nat -> (n <= l)%nat -> frozen n h (update h l o).
Proof.
  intros Hn Hl; split.
  - now rewrite length_update.
  - intros l' Hl'; apply nth_error_update_neq; lia.
Qed.

Lemma frozen_prefix h h' : frozen (length h) h h' -> firstn (length h) h' = h.
Proof.
  intros [L H]. apply nth_error_ext; intros n.
  destruct (Nat.lt_ge_cases n (length h)) as [Hn|Hn].
  - rewrite nth_error_firstn.
    destruct (Nat.ltb_spec n (length h)); [|lia]. now apply H.
  - transitivity (@None pyobj).
    + apply nth_error_None. rewrite length_firstn. lia.
    + symmetry; now apply nth_error_None.
Qed.

(** ** Rules for triples *)

Lemma triple_conseq {A} n (P P' : assertion) (m : M A) (Q Q' : outcome A -> assertion) :
  (forall h, P h -> P' h) ->
  triple n P' m Q' ->
  (forall r h, Q' r h -> Q r h) ->
  triple n P m Q.
Proof.
  intros HP Hm HQ st Hn Hst. destruct (Hm st Hn (HP _ Hst)) as [F HQ']. auto.
Qed.

Lemma triple_ret {A} n (P : assertion) (a : A) (Q : outcome A -> assertion) :
  (forall h, P h -> Q (Ok a) h) -> triple n P (ret a) Q.
Proof.
  intros H st Hn Hst; simpl; split; auto using frozen_refl.
Qed.

Lemma triple_raise {A} n (P : assertion) e (Q : outcome A -> assertion) :
  (forall h, P h -> Q (Raise e) h) -> triple n P (raise e) Q.
Proof.
  intros H st Hn Hst; simpl; split; auto using frozen_refl.
Qed.

Lemma triple_bind {A B} n (P : assertion) (m : M A) (k : A -> M B)
    (Q : outcome A -> assertion) (R : outcome B -> assertion) :
  triple n P m Q ->
  (forall a, triple n (Q (Ok a)) (k a) R) ->
  (forall e h, Q (Raise e) h -> R (Raise e) h) ->
  triple n P (bind m k) R.
Proof.
  intros Hm Hk He st Hn Hst. unfold bind.
  destruct (Hm st Hn Hst) as [F HQ].
  destruct (m st) as [st' [a|e]]; simpl in *.
  - destruct (Hk a st') as [F' HR]; [apply F | exact HQ |].
    split; [eapply frozen_trans; eauto | exact HR].
  - split; auto.
Qed.

Lemma triple_reads {A} n (P : assertion) (m : M A) :
  reads m -> triple n P m (fun _ => P).
Proof.
  intros Hm st Hn Hst. rewrite Hm. split; auto using frozen_refl.
Qed.

(** Sequencing when the same assertion holds after the first step,
    whatever its outcome. *)
Lemma triple_seq {A B} n (P : assertion) (m : M A) (k : A -> M B)
    (R : outcome B -> assertion) :
  triple n P m (fun _ => P) ->
  (forall a, triple n P (k a) R) ->
  (forall e h, P h -> R (Raise e) h) ->
  triple n P (bind m k) R.
Proof.
  intros Hm Hk He. eapply triple_bind; eauto.
Qed.

Lemma reads_get_instance l : reads (get_instance l).
Proof.
  intros st; unfold get_instance.
  destruct (nth_error (heap st) l) as [[ | |]|]; reflexivity.
Qed.

Lemma reads_get_frame l : reads (get_frame l).
Proof.
  intros st; unfold get_frame.
  destruct (nth_error (heap st) l) as [[ | |]|]; reflexivity.
Qed.

Lemma reads_get_series l : reads (get_series l).
Proof.
  intros st; unfold get_series.
  destruct (nth_error (heap st) l) as [[ | |]|]; reflexivity.
Qed.

Lemma reads_ret {A} (a : A) : reads (ret a).
Proof. intros st; reflexivity. Qed.

Lemma reads_raise {A} e : reads (@raise A e).
Proof. intros st; reflexivity. Qed.

Lemma reads_lift {A} (o : outcome A) : reads (lift o).
Proof. intros st; reflexivity. Qed.

Lemma reads_warn msg : reads (warn msg).
Proof. intros st; reflexivity. Qed.

Lemma reads_bind {A B} (m : M A) (k : A -> M B) :
  reads m -> (forall a, reads (k a)) -> reads (bind m k).
Proof.
  intros Hm Hk st. unfold bind. specialize (Hm st).
  destruct (m st) as [st' [a|e]]; simpl in *; [rewrite Hk|]; auto.
Qed.

#[local] Hint Resolve reads_get_instance reads_get_frame reads_get_series reads_ret
  reads_raise reads_lift reads_warn : reads.

Lemma reads_get_data l : reads (get_data l).
Proof. unfold get_data; apply reads_bind; auto with reads. Qed.

Lemma reads_normal2log l : reads (_normal2log l).
Proof. unfold _normal2log, _normal2log_in; apply reads_bind; auto with reads. Qed.

Lemma reads_2Surface l : reads (_2Surface l).
Proof. unfold _2Surface, _2Surface_in; apply reads_bind; auto with reads. Qed.

Lemma reads_2Volume l : reads (_2Volume l).
Proof. unfold _2Volume, _2Volume_in; apply reads_bind; auto with reads. Qed.

Lemma reads_get_distributionType l : reads (get_distributionType l).
Proof. unfold get_distributionType; apply reads_bind; auto with reads. Qed.

#[local] Hint Resolve reads_get_data reads_normal2log reads_2Surface reads_2Volume
  reads_get_distributionType : reads.

(** ** Conversion never touches what existed before *)

Lemma owned_alloc n d o h : (n <= length h)%nat -> owned n d h -> owned n d (h ++ [o]).
Proof.
  intros Hn (Hd & i & df & [V1 V2] & Hi). split; auto. exists i, df; split; auto.
  split; rewrite nth_error_snoc_lt; eauto using nth_error_lt.
Qed.

Lemma triple_copy n self :
  triple n (fun _ => True) (copy self)
    (fun r h => match r with Ok d => owned n d h | Raise _ => True end).
Proof.
  intros st Hn _. unfold copy, bind, get_instance, get_frame, alloc.
  destruct (nth_error (heap st) self) as [[ | |i]|]; simpl; auto using frozen_refl.
  destruct (nth_error (heap st) (data i)) as [[df| |]|]; simpl; auto using frozen_refl.
  split.
  - eapply frozen_trans; apply frozen_alloc; auto.
    rewrite length_app; simpl; lia.
  - rewrite length_app; simpl. split; [lia|].
    exists (with_data i (length (heap st))), df. split; [split|simpl; lia].
    + replace (length (heap st) + 1)%nat with (length (heap st ++ [ODataFrame df])).
      * apply nth_error_snoc_eq.
      * rewrite length_app; reflexivity.
    + simpl. rewrite nth_error_snoc_lt.
      * apply nth_error_snoc_eq.
      * rewrite length_app; simpl; lia.
Qed.

Lemma keeps_rebind_data n d df :
  triple n (owned n d) (rebind_data d df) (fun _ => owned n d).
Proof.
  intros st Hn (Hd & i & df0 & [V1 V2] & Hi).
  unfold rebind_data, bind, get_instance, alloc, store. rewrite V1. simpl.
  pose proof (nth_error_lt _ _ _ V1) as Ld.
  split.
  - eapply frozen_trans; [apply frozen_alloc; auto|].
    apply frozen_update; auto. rewrite length_app; simpl; lia.
  - split; auto. exists (with_data i (length (heap st))), df. split; [split|simpl; lia].
    + apply nth_error_update_eq. rewrite length_app; simpl; lia.
    + simpl. rewrite nth_error_update_neq by lia. apply nth_error_snoc_eq.
Qed.

Lemma keeps_inplace_data n d df :
  triple n (owned n d) (inplace_data d df) (fun _ => owned n d).
Proof.
  intros st Hn (Hd & i & df0 & [V1 V2] & Hi).
  unfold inplace_data, bind, get_instance, get_frame, store. rewrite V1. simpl.
  rewrite V2. simpl.
  pose proof (nth_error_lt _ _ _ V2) as Ld.
  assert (data i <> d) by (intros E; rewrite E in V2; congruence).
  split.
  - apply frozen_update; auto.
  - split; auto. exists i, df. split; [split|auto].
    + now rewrite nth_error_update_neq.
    + now apply nth_error_update_eq.
Qed.

Lemma keeps_set_distributionType n d k :
  triple n (owned n d) (set_distributionType d k) (fun _ => owned n d).
Proof.
  intros st Hn (Hd & i & df0 & [V1 V2] & Hi).
  unfold set_distributionType, bind, get_instance, store. rewrite V1. simpl.
  pose proof (nth_error_lt _ _ _ V1) as Ld.
  assert (data i <> d) by (intros E; rewrite E in V2; congruence).
  split.
  - apply frozen_update; auto.
  - split; auto. exists (with_distributionType i k), df0. split; [split|auto].
    + now apply nth_error_update_eq.
    + simpl. now rewrite nth_error_update_neq.
Qed.

Lemma keeps_data_assign {B} n d (op : value -> B -> value) a :
  triple n (owned n d) (data_assign op d a) (fun _ => owned n d).
Proof.
  unfold data_assign.
  apply triple_seq; [apply triple_reads; auto with reads | intros df | auto].
  apply triple_seq; [apply triple_reads; auto with reads | intros new | auto].
  apply keeps_rebind_data.
Qed.

Lemma keeps_data_inplace {B} n d (op : value -> B -> value) a :
  triple n (owned n d) (data_inplace op d a) (fun _ => owned n d).
Proof.
  unfold data_inplace.
  apply triple_seq; [apply triple_reads; auto with reads | intros df | auto].
  apply triple_seq; [apply triple_reads; auto with reads | intros new | auto].
  apply keeps_inplace_data.
Qed.

(** One step of a computation that works on the copy [d]. *)
Ltac keeps_step :=
  match goal with
  | |- triple _ _ (if ?b then _ else _) _ => destruct b
  | |- triple _ _ (ret _) _ => apply triple_reads; auto with reads
  | |- triple _ _ (raise _) _ => apply triple_reads; auto with reads
  | |- triple _ _ (data_assign _ _ _) _ => apply keeps_data_assign
  | |- triple _ _ (data_inplace _ _ _) _ => apply keeps_data_inplace
  | |- triple _ _ (set_distributionType _ _) _ => apply keeps_set_distributionType
  | |- triple _ _ (bind _ _) (fun _ => _) =>
      apply triple_seq; [ try (apply triple_reads; solve [auto with reads]) | intro | auto ]
  end.

Lemma triple_any_pre {A} n (P : assertion) (m : M A) Q :
  triple n (fun _ => True) m Q -> triple n P m Q.
Proof.
  intros H; eapply triple_conseq; [| apply H |]; simpl; auto.
Qed.

Lemma convert_unfold fuel self distType verbose :
  convert (S fuel) self distType verbose =
  (dist <- copy self ;;
   k <- get_distributionType dist ;;
   if String.eqb k distType then
     (if verbose
      then warn ("Distribution type is already " ++ distType
                 ++ ". Output is an unchanged copy of the distribution")%string
      else ret tt) ;;;
     ret dist
   else
     (if String.eqb k "numberConcentration" then ret tt
      else if String.eqb distType "numberConcentration" then ret tt
      else if member k (distTypes "log normal") then
        if member distType (distTypes "log normal") then ret tt
        else f <- _normal2log self ;; data_assign vdivq dist f
      else if member k (distTypes "natural") then
        if member distType (distTypes "natural") then ret tt
        else f <- _normal2log self ;; data_assign vmulq dist f
      else raise (not_an_option distType)) ;;;
     (if String.eqb k "numberConcentration" then ret tt
      else if String.eqb distType "numberConcentration" then ret tt
      else if member k (distTypes "number") then
        if member distType (distTypes "number") then ret tt
        else if member distType (distTypes "surface") then
          f <- _2Surface self ;; data_inplace vmulq dist f
        else if member distType (distTypes "volume") then
          f <- _2Volume self ;; data_inplace vmulq dist f
        else raise (not_an_option distType)
      else if member k (distTypes "surface") then
        if member distType (distTypes "surface") then ret tt
        else if member distType (distTypes "number") then
          f <- _2Surface self ;; data_inplace vdivq dist f
        else if member distType (distTypes "volume") then
          v <- _2Volume self ;; s <- _2Surface self ;;
          data_inplace vmul dist (map2 qdiv v s)
        else raise (not_an_option distType)
      else if member k (distTypes "volume") then
        if member distType (distTypes "volume") then ret tt
        else if member distType (distTypes "number") then
          f <- _2Volume self ;; data_inplace vdivq dist f
        else if member distType (distTypes "surface") then
          s <- _2Surface self ;; v <- _2Volume self ;;
          data_inplace vmul dist (map2 qdiv s v)
        else raise (not_an_option distType)
      else raise (not_an_option distType)) ;;;
     dist <- (if String.eqb distType "numberConcentration" then
                dist' <- convert fuel dist "dNdDp" false ;;
                i <- get_instance self ;;
                data_inplace vmulq dist' (binwidth i) ;;;
                ret dist'
              else if String.eqb k "numberConcentration" then
                i <- get_instance self ;;
                data_assign vdivq dist (binwidth i) ;;;
                set_distributionType dist "dNdDp" ;;;
                convert fuel dist distType false
              else ret dist) ;;
     set_distributionType dist distType ;;;
     ret dist)%py.
Proof. reflexivity. Qed.

Lemma convert_frame fuel : forall n self distType verbose,
  triple n (fun _ => True) (convert fuel self distType verbose) (fresh_result n).
Proof.
  induction fuel as [|fuel IH]; intros n self distType verbose.
  - apply triple_raise; simpl; auto.
  - rewrite convert_unfold.
    eapply triple_bind with (Q := fresh_result n);
      [apply triple_copy | intros dist; simpl | simpl; auto].
    apply triple_seq; [apply triple_reads; auto with reads | intros k | simpl; auto].
    destruct (String.eqb k distType).
    { apply triple_seq; [| intros _; apply triple_ret; simpl; auto | simpl; auto].
      destruct verbose; apply triple_reads; auto with reads. }
    apply triple_seq; [repeat keeps_step | intros _ | simpl; auto].
    apply triple_seq; [repeat keeps_step | intros _ | simpl; auto].
    eapply triple_bind with (Q := fresh_result n); [| intros d | simpl; auto].
    + destruct (String.eqb distType "numberConcentration").
      * eapply triple_bind with (Q := fresh_result n);
          [ apply triple_any_pre, IH | intros d; simpl | simpl; auto ].
        apply triple_seq; [apply triple_reads; auto with reads | intros i | simpl; auto].
        apply triple_seq; [apply keeps_data_inplace | intros _ | simpl; auto].
        apply triple_ret; simpl; auto.
      * destruct (String.eqb k "numberConcentration").
        -- apply triple_seq; [apply triple_reads; auto with reads | intros i | simpl; auto].
           apply triple_seq; [apply keeps_data_assign | intros _ | simpl; auto].
           apply triple_seq; [apply keeps_set_distributionType | intros _ | simpl; auto].
           apply triple_any_pre, IH.
        -- apply triple_ret; simpl; auto.
    + simpl. apply triple_seq; [apply keeps_set_distributionType | intros _ | simpl; auto].
      apply triple_ret; simpl; auto.
Qed.

(** ** What a conversion computes *)

Lemma triple_bind_ok {A B} n (P P' : assertion) (m : M A) (a : A) (k : A -> M B) R :
  triple n P m (returns a P') ->
  triple n P' (k a) R ->
  triple n P (bind m k) R.
Proof.
  intros Hm Hk. eapply triple_bind; [exact Hm | |].
  - intros a' st Hn [E HP]. injection E as ->. now apply Hk.
  - intros e h [E _]; discriminate.
Qed.

Lemma triple_bind_some {A B} n (P : assertion) (P' : A -> assertion) (m : M A)
    (k : A -> M B) R :
  triple n P m (returns_some P') ->
  (forall a, triple n (P' a) (k a) R) ->
  triple n P (bind m k) R.
Proof.
  intros Hm Hk. eapply triple_bind; [exact Hm | |].
  - intros a st Hn (a' & E & HP). injection E as ->. now apply Hk.
  - intros e h (a' & E & _); discriminate.
Qed.

Lemma triple_bind_raises {A B} n (P P' : assertion) (m : M A) e (k : A -> M B)
    (R : outcome B -> assertion) :
  triple n P m (raises e P') ->
  (forall h, P' h -> R (Raise e) h) ->
  triple n P (bind m k) R.
Proof.
  intros Hm HR. eapply triple_bind; [exact Hm | |].
  - intros a st Hn [E _]; discriminate.
  - intros e' h [E HP]. injection E as ->. auto.
Qed.

Lemma triple_assoc {A B C} n P (m : M A) (f : A -> M B) (k : B -> M C) R :
  triple n P (bind m (fun x => bind (f x) k)) R ->
  triple n P (bind (bind m f) k) R.
Proof.
  intros H st Hn Hst. specialize (H st Hn Hst). unfold bind in *.
  destruct (m st) as [st' [a|e]]; auto.
Qed.

Lemma triple_ret_bind {A B} n P (a : A) (k : A -> M B) R :
  triple n P (k a) R -> triple n P (bind (ret a) k) R.
Proof. intros H st Hn Hst. exact (H st Hn Hst). Qed.

Lemma triple_raise_bind {A B} n (P : assertion) e (k : A -> M B)
    (R : outcome B -> assertion) :
  (forall h, P h -> R (Raise e) h) -> triple n P (bind (raise e) k) R.
Proof.
  intros H st Hn Hst. simpl. split; auto using frozen_refl.
Qed.

(** A computation that returns [a] and leaves the state alone whenever
    [P] holds. *)
Lemma triple_const {A} n (P : assertion) (m : M A) a :
  (forall st, P (heap st) -> heap (fst (m st)) = heap st /\ snd (m st) = Ok a) ->
  triple n P m (returns a P).
Proof.
  intros H st Hn Hst. destruct (H st Hst) as [E1 E2]. rewrite E1, E2.
  split; [now apply frozen_refl | split; auto].
Qed.

Section Holds.

Variables (n : nat) (self : loc) (i0 : instance) (k : string) (df : DataFrame) (d : loc).

Lemma spec_get_instance_self : triple n (holds n self i0 k df d) (get_instance self) (returns i0 (holds n self i0 k df d)).
Proof.
  apply triple_const. intros st (_ & Vs & _). unfold get_instance. now rewrite Vs.
Qed.

Lemma spec_normal2log :
  triple n (holds n self i0 k df d) (_normal2log self)
    (returns (map (fun c => c * np_log_10) (bincenters i0)) (holds n self i0 k df d)).
Proof.
  apply triple_const. intros st (_ & Vs & _).
  unfold _normal2log, _normal2log_in, bind, get_instance. now rewrite Vs.
Qed.

Lemma spec_2Surface :
  triple n (holds n self i0 k df d) (_2Surface self)
    (returns (map (fun c => 4 * np_pi * (c / 2) ^ 2) (bincenters i0)) (holds n self i0 k df d)).
Proof.
  apply triple_const. intros st (_ & Vs & _).
  unfold _2Surface, _2Surface_in, bind, get_instance. now rewrite Vs.
Qed.

Lemma spec_2Volume :
  triple n (holds n self i0 k df d) (_2Volume self)
    (returns (map (fun c => 4 / 3 * np_pi * (c / 2) ^ 3) (bincenters i0)) (holds n self i0 k df d)).
Proof.
  apply triple_const. intros st (_ & Vs & _).
  unfold _2Volume, _2Volume_in, bind, get_instance. now rewrite Vs.
Qed.

Lemma spec_get_distributionType :
  triple n (holds n self i0 k df d) (get_distributionType d) (returns k (holds n self i0 k df d)).
Proof.
  apply triple_const. intros st (_ & _ & _ & dl & _ & Vd & _).
  unfold get_distributionType, bind, get_instance. now rewrite Vd.
Qed.

Lemma spec_warn msg : triple n (holds n self i0 k df d) (warn msg) (returns tt (holds n self i0 k df d)).
Proof.
  apply triple_const. intros st _. split; reflexivity.
Qed.

Lemma spec_set_distributionType k' :
  triple n (holds n self i0 k df d) (set_distributionType d k') (returns tt (holds n self i0 k' df d)).
Proof.
  intros st Hn (Hs & Vs & Hd & dl & Hdl & Vd & Vf).
  unfold set_distributionType, bind, get_instance, store. rewrite Vd. simpl.
  pose proof (nth_error_lt _ _ _ Vd) as Ld.
  assert (dl <> d) by (intros E; rewrite E in Vf; congruence).
  split; [apply frozen_update; auto|].
  split; [reflexivity|].
  split; [auto|]. split; [rewrite nth_error_update_neq by lia; auto|].
  split; [auto|]. exists dl. split; [auto|]. split.
  - now apply nth_error_update_eq.
  - now rewrite nth_error_update_neq by auto.
Qed.

Lemma frame_op_ok {B} (op : value -> B -> value) a :
  rows_len (length a) df -> frame_op op df a = Ok (apply_op op a df).
Proof.
  intros W. unfold frame_op.
  replace (forallb _ df) with true; [reflexivity|].
  symmetry; apply forallb_forall. intros r Hr.
  apply Nat.eqb_eq. unfold rows_len in W; rewrite Forall_forall in W; auto.
Qed.

Lemma spec_data_assign {B} (op : value -> B -> value) a :
  rows_len (length a) df ->
  triple n (holds n self i0 k df d) (data_assign op d a) (returns tt (holds n self i0 k (apply_op op a df) d)).
Proof.
  intros W st Hn (Hs & Vs & Hd & dl & Hdl & Vd & Vf).
  unfold data_assign, get_data, rebind_data, bind, get_instance, get_frame, lift,
    alloc, store.
  rewrite Vd. simpl. rewrite Vf. rewrite (frame_op_ok op a W). rewrite Vd. simpl.
  pose proof (nth_error_lt _ _ _ Vd) as Ld.
  pose proof (nth_error_lt _ _ _ Vs) as Ls.
  split.
  - eapply frozen_trans; [apply frozen_alloc; auto|].
    apply frozen_update; auto. rewrite length_app; simpl; lia.
  - split; [reflexivity|].
    split; [auto|]. split.
    { rewrite nth_error_update_neq by lia. rewrite nth_error_snoc_lt; auto. }
    split; [auto|]. exists (length (heap st)). split; [auto|]. split.
    + apply nth_error_update_eq. rewrite length_app; simpl; lia.
    + rewrite nth_error_update_neq by lia. apply nth_error_snoc_eq.
Qed.

Lemma spec_data_inplace {B} (op : value -> B -> value) a :
  rows_len (length a) df ->
  triple n (holds n self i0 k df d) (data_inplace op d a) (returns tt (holds n self i0 k (apply_op op a df) d)).
Proof.
  intros W st Hn (Hs & Vs & Hd & dl & Hdl & Vd & Vf).
  unfold data_inplace, get_data, inplace_data, bind, get_instance, get_frame, lift, store.
  rewrite Vd. simpl. rewrite Vf. rewrite (frame_op_ok op a W). rewrite Vd. simpl.
  rewrite Vf. simpl.
  pose proof (nth_error_lt _ _ _ Vf) as Ld.
  assert (dl <> d) by (intros E; rewrite E in Vf; congruence).
  split; [apply frozen_update; auto|].
  split; [reflexivity|].
  split; [auto|]. split; [rewrite nth_error_update_neq by lia; auto|].
  split; [auto|]. exists dl. split; [auto|]. split.
  - now rewrite nth_error_update_neq by auto.
  - now apply nth_error_update_eq.
Qed.

End Holds.

Lemma spec_copy n self i0 df :
  triple n (fun h => (self < n)%nat /\ view h self i0 df) (copy self)
    (returns_some (holds n self i0 (distributionType i0) df)).
Proof.
  intros st Hn (Hs & Vs & Vf).
  unfold copy, bind, get_instance, get_frame, alloc. rewrite Vs. simpl. rewrite Vf. simpl.
  split.
  - eapply frozen_trans; apply frozen_alloc; auto. rewrite length_app; simpl; lia.
  - exists (length (heap st ++ [ODataFrame df])). split.
    { f_equal. }
    rewrite length_app; simpl.
    split; [auto|]. split.
    { rewrite !nth_error_app1; auto; rewrite ?length_app; simpl; lia. }
    split; [lia|]. exists (length (heap st)). split; [auto|]. split.
    + replace (length (heap st) + 1)%nat with (length (heap st ++ [ODataFrame df]))
        by (rewrite length_app; reflexivity).
      apply nth_error_snoc_eq.
    + rewrite nth_error_snoc_lt by (rewrite length_app; simpl; lia).
      apply nth_error_snoc_eq.
Qed.

Lemma length_map2 {A B C} (f : A -> B -> C) a b :
  length a = length b -> length (map2 f a b) = length a.
Proof.
  revert b; induction a as [|x a IH]; intros [|y b] H; simpl in *; try lia.
  f_equal; apply IH; lia.
Qed.

Lemma length_ratio {A} (f : Q -> Q -> value) (g h : A -> Q) cs :
  length (map2 f (map g cs) (map h cs)) = length cs.
Proof.
  rewrite length_map2; rewrite !length_map; reflexivity.
Qed.

Lemma rows_len_apply_op {B} (op : value -> B -> value) a df m :
  rows_len m df -> length a = m -> rows_len m (apply_op op a df).
Proof.
  intros W L. unfold rows_len, apply_op in *. rewrite Forall_map.
  eapply Forall_impl; [|exact W]. intros r Hr; simpl in *.
  rewrite length_map2; lia.
Qed.

Lemma apply_op_ext {B} (f g : value -> B -> value) a df :
  (forall v c, f v c = g v c) -> apply_op f a df = apply_op g a df.
Proof.
  intros E. unfold apply_op. apply map_ext. intros r. f_equal.
  generalize (snd r) as row. clear r.
  induction a as [|c a IH]; intros [|v row]; simpl; auto. now rewrite E, IH.
Qed.

Lemma map2_map_r {A B C D} (f : A -> C -> D) (g : B -> C) row a :
  map2 f row (map g a) = map2 (fun v c => f v (g c)) row a.
Proof.
  revert a; induction row as [|v row IH]; intros [|c a]; simpl; auto. now rewrite IH.
Qed.

Lemma apply_op_map {B} (op : value -> Q -> value) (g : B -> Q) a df :
  apply_op op (map g a) df = apply_op (fun v c => op v (g c)) a df.
Proof.
  unfold apply_op. apply map_ext. intros r. f_equal. apply map2_map_r.
Qed.

Lemma map2_map_same {A B C D} (f : B -> C -> D) (g : A -> B) (h : A -> C) a :
  map2 f (map g a) (map h a) = map (fun c => f (g c) (h c)) a.
Proof.
  induction a as [|c a IH]; simpl; auto. now rewrite IH.
Qed.

Lemma apply_op_map_v {B} (op : value -> value -> value) (g : B -> value) a df :
  apply_op op (map g a) df = apply_op (fun v c => op v (g c)) a df.
Proof.
  unfold apply_op. apply map_ext. intros r. f_equal. apply map2_map_r.
Qed.

Lemma map2_compose {A B} (f g : A -> B -> A) row a :
  map2 f (map2 g row a) a = map2 (fun v c => f (g v c) c) row a.
Proof.
  revert a; induction row as [|v row IH]; intros [|c a]; simpl; auto. now rewrite IH.
Qed.

Lemma apply_op_compose {B} (f g : value -> B -> value) a df :
  apply_op f a (apply_op g a df) = apply_op (fun v c => f (g v c) c) a df.
Proof.
  unfold apply_op. rewrite map_map. apply map_ext. intros r; simpl. f_equal.
  apply map2_compose.
Qed.

Lemma apply_op_id {B} (a : list B) df :
  rows_len (length a) df -> apply_op (fun v _ => v) a df = df.
Proof.
  intros W. unfold apply_op. rewrite <- (map_id df) at 2.
  apply map_ext_in. intros [key row] Hr; simpl. f_equal.
  unfold rows_len in W; rewrite Forall_forall in W. specialize (W _ Hr); simpl in W.
  clear Hr. revert a W; induction row as [|v row IH]; intros [|c a] L; simpl in *;
    try lia; auto.
  f_equal; apply IH; lia.
Qed.

(** Symbolic execution of a conversion between two given kinds. *)
Ltac eval_test b :=
  let b' := eval vm_compute in b in
  change b with b'; cbv iota.

Ltac rows_side :=
  repeat first
    [ assumption
    | rewrite length_map
    | rewrite length_ratio
    | apply rows_len_apply_op; [| first [reflexivity | now rewrite ?length_map, ?length_ratio]] ].

Ltac conv_step :=
  lazymatch goal with
  | |- triple _ _ (bind (bind _ _) _) _ => apply triple_assoc
  | |- triple _ _ (bind (ret _) _) _ => apply triple_ret_bind
  | |- triple _ _ (bind (if ?b then _ else _) _) _ => eval_test b
  | |- triple _ _ (if ?b then _ else _) _ => eval_test b
  | |- triple _ _ (bind (_normal2log _) _) _ =>
      eapply triple_bind_ok; [apply spec_normal2log|]
  | |- triple _ _ (bind (_2Surface _) _) _ =>
      eapply triple_bind_ok; [apply spec_2Surface|]
  | |- triple _ _ (bind (_2Volume _) _) _ =>
      eapply triple_bind_ok; [apply spec_2Volume|]
  | |- triple _ _ (bind (get_instance _) _) _ =>
      eapply triple_bind_ok; [apply spec_get_instance_self|]
  | |- triple _ _ (bind (get_distributionType _) _) _ =>
      eapply triple_bind_ok; [apply spec_get_distributionType|]
  | |- triple _ _ (bind (warn _) _) _ =>
      eapply triple_bind_ok; [apply spec_warn|]
  | |- triple _ _ (bind (set_distributionType _ _) _) _ =>
      eapply triple_bind_ok; [apply spec_set_distributionType|]
  | |- triple _ _ (bind (data_assign _ _ _) _) _ =>
      eapply triple_bind_ok; [apply spec_data_assign; rows_side|]
  | |- triple _ _ (bind (data_inplace _ _ _) _) _ =>
      eapply triple_bind_ok; [apply spec_data_inplace; rows_side|]
  end.

Lemma In_axis_kinds k :
  In k axis_kinds ->
  k = "dNdDp" \/ k = "dNdlogDp" \/ k = "dSdDp" \/ k = "dSdlogDp"
  \/ k = "dVdDp" \/ k = "dVdlogDp".
Proof.
  simpl. intuition auto.
Qed.

Lemma convert_axis fuel n self i0 df k2 verbose :
  In (distributionType i0) axis_kinds -> In k2 axis_kinds ->
  rows_len (length (bincenters i0)) df ->
  triple n (fun h => (self < n)%nat /\ view h self i0 df)
    (convert (S fuel) self k2 verbose)
    (returns_some (holds n self i0 k2
       (apply_op (convert_value (distributionType i0) k2) (bincenters i0) df))).
Proof.
  intros H1 H2 W. rewrite convert_unfold.
  eapply triple_bind_some; [apply spec_copy | intros dist].
  eapply triple_bind_ok; [apply spec_get_distributionType|].
  apply In_axis_kinds in H1, H2.
  destruct verbose;
  repeat (destruct H1 as [H1|H1]); rewrite H1;
  repeat (destruct H2 as [H2|H2]); rewrite H2;
  repeat conv_step;
  (apply triple_ret; intros h Hh; exists dist; split; [reflexivity|]);
  rewrite ?apply_op_map, ?map2_map_same, ?apply_op_map_v, ?apply_op_compose in Hh;
  (erewrite apply_op_ext; [exact Hh | reflexivity])
  || (rewrite (apply_op_ext _ (fun v _ => v)), apply_op_id; [exact Hh | exact W | reflexivity]).
Qed.

(** ** The round trip, value by value *)

Lemma Qeq_bool_false x y : ~ x == y -> Qeq_bool x y = false.
Proof.
  intros H. destruct (Qeq_bool x y) eqn:E; auto.
  apply Qeq_bool_iff in E. contradiction.
Qed.








Lemma run_triple {A} n (P : assertion) (m : M A) Q st :
  triple n P m Q -> (n <= length (heap st))%nat -> P (heap st) ->
  exists st' r, m st = (st', r) /\ frozen n (heap st) (heap st') /\ Q r (heap st').
Proof.
  intros T Hn HP. destruct (T st Hn HP) as [F HQ].
  destruct (m st) as [st' r]; simpl in *. eauto.
Qed.

Lemma holds_view n self i0 k df d h :
  holds n self i0 k df d h ->
  exists dl, view h d (with_distributionType (with_data i0 dl) k) df /\ (n <= d)%nat
             /\ (n <= dl)%nat.
Proof.
  intros (_ & _ & Hd & dl & Hdl & V1 & V2). exists dl. repeat split; auto.
Qed.




(** ** Calls *)

Lemma triple_call {A} n (P : assertion) (m : M A) Q :
  call P m Q -> triple n P m Q.
Proof.
  intros C st Hn HP.
  destruct (C (length (heap st)) st (Nat.le_refl _) (conj eq_refl HP)) as [F HQ].
  split; [eapply frozen_le; eauto | exact HQ].
Qed.

Lemma run_call {A} (P : assertion) (m : M A) Q st :
  call P m Q -> P (heap st) ->
  exists st' r, m st = (st', r) /\ frozen (length (heap st)) (heap st) (heap st')
                /\ Q r (heap st').
Proof.
  intros C HP.
  destruct (C (length (heap st)) st (Nat.le_refl _) (conj eq_refl HP)) as [F HQ].
  destruct (m st) as [st' r]; simpl in *. eauto.
Qed.

Lemma start_convert {A} n self i0 df (m : loc -> M A) R :
  (forall dist, triple n (holds n self i0 (distributionType i0) df dist) (m dist) R) ->
  triple n (fun h => n = length h /\ view h self i0 df) (bind (copy self) m) R.
Proof.
  intros H.
  eapply triple_bind_some with (P' := holds n self i0 (distributionType i0) df);
    [|exact H].
  eapply triple_conseq; [| apply spec_copy | intros r h Hr; exact Hr].
  intros h [-> V]. split; [|exact V]. eapply nth_error_lt, V.
Qed.

Lemma convert_same fuel self i0 df verbose :
  call (fun h => view h self i0 df)
    (convert (S fuel) self (distributionType i0) verbose)
    (fun r h => exists d dl,
       r = Ok d /\ view h d (with_data i0 dl) df).
Proof.
  intros n. rewrite convert_unfold. apply start_convert; intros dist.
  eapply triple_bind_ok; [apply spec_get_distributionType|].
  rewrite String.eqb_refl.
  destruct verbose; repeat conv_step;
    (apply triple_ret; intros h Hh;
     destruct (holds_view _ _ _ _ _ _ _ Hh) as (dl & V & _ & _);
     exists dist, dl; split; [reflexivity | exact V]).
Qed.

(** ** Conversions that are refused *)

Lemma member3 s a b c : member s [a; b; c] = true -> s = a \/ s = b \/ s = c.
Proof.
  unfold member; simpl. rewrite !orb_true_iff, !String.eqb_eq. intuition auto.
  discriminate.
Qed.

Lemma rows_len_apply_op2 {B} (op : value -> B -> value) a df m :
  rows_len m df -> rows_len (length a) df -> rows_len m (apply_op op a df).
Proof.
  intros W W'. unfold rows_len, apply_op in *. rewrite Forall_map.
  rewrite Forall_forall in *. intros r Hr; simpl.
  specialize (W r Hr); specialize (W' r Hr); simpl in *.
  rewrite length_map2; lia.
Qed.

Ltac conv_raise :=
  first [ apply triple_raise_bind | apply triple_raise ];
  intros; unfold refused; reflexivity.

(** A source kind that is on neither axis: the first block refuses the
    target. *)
Lemma convert_off_axis fuel self i0 df t verbose :
  String.eqb (distributionType i0) t = false ->
  String.eqb (distributionType i0) "numberConcentration" = false ->
  String.eqb t "numberConcentration" = false ->
  member (distributionType i0) (distTypes "log normal") = false ->
  member (distributionType i0) (distTypes "natural") = false ->
  call (fun h => view h self i0 df) (convert (S fuel) self t verbose)
    (refused (not_an_option t)).
Proof.
  intros E1 E2 E3 E4 E5 n. rewrite convert_unfold. apply start_convert; intros dist.
  eapply triple_bind_ok; [apply spec_get_distributionType|].
  rewrite E1, E2, E3, E4, E5. conv_raise.
Qed.

Lemma triple_exists {A X} n (P : X -> assertion) (m : M A) Q :
  (forall x, triple n (P x) m Q) -> triple n (fun h => exists x, P x h) m Q.
Proof.
  intros H st Hn [x Hx]. exact (H x st Hn Hx).
Qed.

(** A call of a method on the working copy. *)
Lemma triple_inner_call {A} n self i0 k df d (m : M A) Q :
  (forall dl, call (fun h => view h d (with_distributionType (with_data i0 dl) k) df) m Q) ->
  triple n (holds n self i0 k df d) m Q.
Proof.
  intros H.
  eapply triple_conseq with
    (P' := fun h => exists dl, view h d (with_distributionType (with_data i0 dl) k) df)
    (Q' := Q); [| | auto].
  - intros h Hh. destruct (holds_view _ _ _ _ _ _ _ Hh) as (dl & V & _ & _). eauto.
  - apply triple_exists; intros dl. apply triple_call, H.
Qed.

Lemma convert_calibration_nC fuel self i0 df verbose :
  distributionType i0 = "calibration" ->
  call (fun h => view h self i0 df)
    (convert (S (S fuel)) self "numberConcentration" verbose)
    (refused (not_an_option "dNdDp")).
Proof.
  intros E n. rewrite convert_unfold. apply start_convert; intros dist.
  eapply triple_bind_ok; [apply spec_get_distributionType|].
  rewrite E. repeat conv_step.
  eapply triple_bind_raises with (P' := fun _ => True); [|intros; reflexivity].
  eapply triple_conseq with (Q' := refused (not_an_option "dNdDp"));
    [ intros h Hh; exact Hh | | intros r h Hr; split; [exact Hr | exact I] ].
  apply triple_inner_call; intros dl.
  apply convert_off_axis; reflexivity.
Qed.

Lemma convert_axis_calibration fuel self i0 df verbose :
  In (distributionType i0) axis_kinds ->
  rows_len (length (bincenters i0)) df ->
  call (fun h => view h self i0 df) (convert (S fuel) self "calibration" verbose)
    (refused (not_an_option "calibration")).
Proof.
  intros H1 W n. rewrite convert_unfold. apply start_convert; intros dist.
  eapply triple_bind_ok; [apply spec_get_distributionType|].
  apply In_axis_kinds in H1.
  repeat (destruct H1 as [H1|H1]); rewrite H1; repeat conv_step; conv_raise.
Qed.

Lemma convert_nC_calibration fuel self i0 df verbose :
  distributionType i0 = "numberConcentration" ->
  frame_wf i0 df ->
  call (fun h => view h self i0 df) (convert (S (S fuel)) self "calibration" verbose)
    (refused (not_an_option "calibration")).
Proof.
  intros E [W1 W2] n. rewrite convert_unfold. apply start_convert; intros dist.
  eapply triple_bind_ok; [apply spec_get_distributionType|].
  rewrite E. repeat conv_step.
  eapply triple_bind_raises with (P' := fun _ => True); [|intros; reflexivity].
  eapply triple_conseq with (Q' := refused (not_an_option "calibration"));
    [ intros h Hh; exact Hh | | intros r h Hr; split; [exact Hr | exact I] ].
  apply triple_inner_call; intros dl.
  apply convert_axis_calibration.
  - simpl; auto.
  - simpl. now apply rows_len_apply_op2.
Qed.

(** C8.  Converting a table to the kind it already has returns a copy:
    a new instance, created by the call together with a new frame of its
    own, whose frame is the source frame, value for value; no arithmetic
    is applied.  The other attributes are those of the source, and every
    object that existed before the call, the source and its frame among
    them, is left as it was. *)
Theorem convert_same_kind st self i df verbose :
  view (heap st) self i df ->
  exists st' d dl,
    _convert2otherDistribution self (distributionType i) verbose st = (st', Ok d) /\
    view (heap st') d (with_data i dl) df /\
    (length (heap st) <= d)%nat /\ (length (heap st) <= dl)%nat /\
    d <> self /\ dl <> data i /\
    firstn (length (heap st)) (heap st') = heap st /\
    view (heap st') self i df.
Proof.
  intros V. unfold _convert2otherDistribution. change recursion_limit with (S 999).
  destruct (run_call _ _ _ st (convert_same 999 self i df verbose) V)
    as (st' & r & E & F & d & dl & -> & V').
  destruct (convert_frame (S 999) (length (heap st)) self (distributionType i) verbose st
              (Nat.le_refl _) I) as [_ R].
  rewrite E in R. simpl in R. destruct R as (Hd & i' & df' & [W1 W2] & Hi').
  pose proof (nth_error_lt _ _ _ (proj1 V)) as Ls.
  pose proof (nth_error_lt _ _ _ (proj2 V)) as Lf.
  assert (Hdl : (length (heap st) <= dl)%nat).
  { destruct V' as [V1 _]. rewrite V1 in W1. injection W1 as <-. exact Hi'. }
  exists st', d, dl.
  split; [exact E|]. split; [exact V'|]. split; [exact Hd|]. split; [exact Hdl|].
  split; [lia|]. split; [lia|]. split; [now apply frozen_prefix|].
  destruct F as [_ F]. destruct V as [V1 V2]. split; rewrite F; auto.
Qed.

(** C5, as the code has it.  A conversion from or to the kind
    [calibration] is refused with a [ValueError] that names one kind: the
    requested kind, or [dNdDp] when a calibration table is asked for
    number concentrations.  A conversion to the kind the table has
    returns an unchanged copy. *)
Theorem convert_calibration st self i df verbose :
  view (heap st) self i df -> frame_wf i df ->
  (distributionType i = "calibration" ->
   forall t, t <> "calibration" ->
     snd (_convert2otherDistribution self t verbose st)
     = Raise (not_an_option
                (if String.eqb t "numberConcentration" then "dNdDp" else t)))
  /\ (distributionType i <> "calibration" ->
      snd (_convert2otherDistribution self "calibration" verbose st)
      = Raise (not_an_option "calibration"))
  /\ (exists d dl,
        snd (_convert2otherDistribution self (distributionType i) verbose st) = Ok d
        /\ view (heap (fst (_convert2otherDistribution self (distributionType i)
                              verbose st))) d (with_data i dl) df).
Proof.
  intros V [W1 W2]. unfold _convert2otherDistribution.
  change recursion_limit with (S (S 998)). split; [|split].
  - intros E t Ht.
    destruct (String.eqb t "numberConcentration") eqn:Et.
    + apply String.eqb_eq in Et; subst t.
      destruct (run_call _ _ _ st (convert_calibration_nC 998 self i df verbose E) V)
        as (st' & r & Er & _ & ->). now rewrite Er.
    + assert (C : call (fun h => view h self i df) (convert (S (S 998)) self t verbose)
                    (refused (not_an_option t))).
      { apply convert_off_axis; rewrite ?E; auto.
        apply String.eqb_neq. congruence. }
      destruct (run_call _ _ _ st C V) as (st' & r & Er & _ & ->). now rewrite Er.
  - intros Hs.
    assert (C : call (fun h => view h self i df)
                  (convert (S (S 998)) self "calibration" verbose)
                  (refused (not_an_option "calibration"))).
    { destruct (String.eqb (distributionType i) "numberConcentration") eqn:E1.
      { apply String.eqb_eq in E1. apply convert_nC_calibration; [auto | split; auto]. }
      destruct (member (distributionType i) (distTypes "log normal")) eqn:E2.
      { apply member3 in E2. apply convert_axis_calibration; auto.
        unfold axis_kinds; simpl; intuition auto. }
      destruct (member (distributionType i) (distTypes "natural")) eqn:E3.
      { apply member3 in E3. apply convert_axis_calibration; auto.
        unfold axis_kinds; simpl; intuition auto. }
      apply convert_off_axis; auto. now apply String.eqb_neq. }
    destruct (run_call _ _ _ st C V) as (st' & r & Er & _ & ->). now rewrite Er.
  - destruct (run_call _ _ _ st (convert_same (S 998) self i df verbose) V)
      as (st' & r & E & _ & d & dl & -> & V').
    exists d, dl. rewrite E. auto.
Qed.

(** C9.  Whatever the source, the target kind and the outcome, a
    conversion leaves every object that existed before the call as it
    was: the store it ends with starts with the store it began with.  The
    instance it returns and the frame of that instance were created by the
    call. *)
Theorem convert_preserves_source st self distType verbose :
  let st' := fst (_convert2otherDistribution self distType verbose st) in
  firstn (length (heap st)) (heap st') = heap st
  /\ match snd (_convert2otherDistribution self distType verbose st) with
     | Ok d => owned (length (heap st)) d (heap st')
     | Raise _ => True
     end.
Proof.
  unfold _convert2otherDistribution. generalize recursion_limit; intros fuel.
  cbv zeta.
  destruct (convert_frame fuel (length (heap st)) self distType verbose st
              (Nat.le_refl _) I) as [F R].
  split; [now apply frozen_prefix | exact R].
Qed.

(** ** Sorting by key *)

Lemma insert_row_perm r df : Permutation (insert_row r df) (r :: df).
Proof.
  induction df as [|r' t IH]; simpl; auto.
  destruct (Qle_bool (fst r') (fst r)); auto.
  rewrite IH. apply perm_swap.
Qed.

Lemma sort_from_perm df acc :
  Permutation (fold_left (fun a r => insert_row r a) df acc) (acc ++ df).
Proof.
  revert acc; induction df as [|r t IH]; intros acc; simpl.
  - now rewrite app_nil_r.
  - rewrite IH. rewrite insert_row_perm. apply Permutation_middle.
Qed.

Lemma sort_index_perm df : Permutation (sort_index df) df.
Proof. apply (sort_from_perm df []). Qed.

Lemma insert_row_ascending r df :
  ascending (index df) -> ascending (index (insert_row r df)).
Proof.
  unfold ascending. induction df as [|r' t IH]; simpl; intros S.
  - repeat constructor.
  - inversion S as [|a l St Ft]; subst.
    destruct (Qle_bool (fst r') (fst r)) eqn:E; simpl.
    + constructor; [now apply IH|].
      apply Qle_bool_iff in E.
      assert (P : Permutation (index (insert_row r t)) (fst r :: index t))
        by (unfold index; rewrite insert_row_perm; reflexivity).
      eapply Permutation_Forall; [symmetry; exact P|]. constructor; auto.
    + constructor; [exact S|].
      assert (L : fst r < fst r').
      { apply Qnot_le_lt. intros H. apply Qle_bool_iff in H. congruence. }
      constructor; [lra|].
      eapply Forall_impl; [|exact Ft]. intros x Hx; simpl in *. lra.
Qed.

Lemma sort_from_ascending df acc :
  ascending (index acc) ->
  ascending (index (fold_left (fun a r => insert_row r a) df acc)).
Proof.
  revert acc; induction df as [|r t IH]; intros acc S; simpl; auto.
  apply IH. now apply insert_row_ascending.
Qed.

Lemma sort_index_ascending df : ascending (index (sort_index df)).
Proof. apply sort_from_ascending. constructor. Qed.

Lemma InA_perm (l l' : list Q) x : Permutation l l' -> InA Qeq x l -> InA Qeq x l'.
Proof.
  intros P H. apply InA_alt in H. destruct H as (y & E & Hy).
  apply InA_alt. exists y; split; auto. eapply Permutation_in; eauto.
Qed.




(** ** Setting rows by key *)

Lemma loc_setitem_ok df k row m :
  rows_len m df -> length row = m -> loc_setitem df k row = Ok (setitem df k row).
Proof.
  intros W L. unfold loc_setitem, setitem. destruct df as [|r0 t]; [reflexivity|].
  inversion W; subst.
  replace (Nat.eqb (length (snd r0)) (length row)) with true
    by (symmetry; apply Nat.eqb_eq; lia).
  simpl negb. cbv iota. now destruct (existsb _ (r0 :: t)).
Qed.

Lemma rows_len_setitem df k row m :
  rows_len m df -> length row = m -> rows_len m (setitem df k row).
Proof.
  intros W L. unfold setitem, rows_len in *.
  destruct (existsb _ df).
  - rewrite Forall_map. eapply Forall_impl; [|exact W]. intros r Hr; simpl in *.
    destruct (Qeq_bool (fst r) k); simpl; auto.
  - apply Forall_app; split; auto.
Qed.




Lemma rows_len_setitems keys : forall df row m,
  rows_len m df -> length row = m -> rows_len m (setitems_result df keys row).
Proof.
  induction keys as [|k t IH]; intros df row m W L; simpl; auto.
  apply IH; auto. now apply rows_len_setitem.
Qed.



Lemma setitems_result_app df keys keys' row :
  setitems_result df (keys ++ keys') row
  = setitems_result (setitems_result df keys row) keys' row.
Proof. unfold setitems_result. apply fold_left_app. Qed.


(** ** Running [fillGaps] *)

Lemma state_eta st : mkState (heap st) (warnings st) (files st) = st.
Proof. now destruct st. Qed.

Lemma instance_eta i : with_data i (data i) = i.
Proof. now destruct i. Qed.

Lemma get_data_run st self i df :
  view (heap st) self i df -> get_data self st = (st, Ok df).
Proof.
  intros [V1 V2]. unfold get_data, bind, get_instance, get_frame.
  now rewrite V1, V2.
Qed.

Lemma get_instance_run st self i df :
  view (heap st) self i df -> get_instance self st = (st, Ok i).
Proof.
  intros [V1 V2]. unfold get_instance. now rewrite V1.
Qed.

Lemma view_neq h self i df : view h self i df -> data i <> self.
Proof. intros [V1 V2] E. rewrite E in V2. congruence. Qed.

Lemma inplace_data_run st self i df new :
  view (heap st) self i df ->
  inplace_data self new st
  = (set_heap st (update (heap st) (data i) (ODataFrame new)), Ok tt)
  /\ view (update (heap st) (data i) (ODataFrame new)) self i new.
Proof.
  intros V. pose proof (view_neq _ _ _ _ V) as N. destruct V as [V1 V2].
  unfold inplace_data, bind, get_instance, get_frame, store. rewrite V1, V2.
  split; [reflexivity|]. split.
  - now rewrite nth_error_update_neq.
  - apply nth_error_update_eq. eapply nth_error_lt; eauto.
Qed.

Lemma rebind_data_run st self i df new :
  view (heap st) self i df ->
  rebind_data self new st
  = (set_heap st (update (heap st ++ [ODataFrame new]) self
                    (OInstance (with_data i (length (heap st))))), Ok tt)
  /\ view (update (heap st ++ [ODataFrame new]) self
             (OInstance (with_data i (length (heap st)))))
          self (with_data i (length (heap st))) new.
Proof.
  intros [V1 V2]. pose proof (nth_error_lt _ _ _ V1) as L.
  unfold rebind_data, bind, get_instance, alloc, store. rewrite V1.
  split; [reflexivity|]. split.
  - apply nth_error_update_eq. rewrite length_app; simpl; lia.
  - simpl. rewrite nth_error_update_neq by lia. apply nth_error_snoc_eq.
Qed.

Lemma for_each_setitem self i (g : Q -> Q) row m keys : forall st df,
  view (heap st) self i df -> rows_len m df -> length row = m ->
  exists st',
    for_each keys (fun k =>
      cur <- get_data self ;;
      new <- lift (loc_setitem cur (g k) row) ;;
      inplace_data self new) st = (st', Ok tt)
    /\ view (heap st') self i (setitems_result df (map g keys) row)
    /\ warnings st' = warnings st /\ files st' = files st.
Proof.
  induction keys as [|k t IH]; intros st df V W L; simpl.
  - exists st. auto.
  - unfold bind at 1. unfold bind at 1. rewrite (get_data_run _ _ _ _ V).
    unfold bind at 1. unfold lift. rewrite (loc_setitem_ok _ _ _ _ W L).
    destruct (inplace_data_run st self i df (setitem df (g k) row) V) as [E V'].
    rewrite E.
    destruct (IH (set_heap st (update (heap st) (data i)
                                 (ODataFrame (setitem df (g k) row))))
                 (setitem df (g k) row) V' (rows_len_setitem _ _ _ _ W L) L)
      as (st' & E' & V'' & Hw & Hf).
    exists st'. auto.
Qed.

Lemma fillGaps_run st self i df scale :
  view (heap st) self i df -> rows_len (length (bincenters i)) df ->
  exists st' i' df',
    fillGaps self scale st = (st', Ok tt)
    /\ view (heap st') self i' df'
    /\ (exists dl, i' = with_data i dl)
    /\ (gaps scale df = [] -> st' = st /\ df' = df)
    /\ (gaps scale df <> [] ->
        warnings st' = warnings st ++ [gap_warning (length (gaps scale df))]
        /\ df' = sort_index (setitems_result df (fill_keys scale df)
                               (zeros (length (bincenters i))))).
Proof.
  intros V W. unfold fillGaps. unfold bind at 1. rewrite (get_data_run _ _ _ _ V).
  unfold fill_keys, gaps, typical_delta. fold (deltas df).
  destruct (np_median (deltas df)) as [m|] eqn:Em.
  2:{ exists st, i, df. split; [reflexivity|]. split; [exact V|].
      split; [exists (data i); symmetry; apply instance_eta|].
      split; [auto | intros H; now contradiction H]. }
  set (wh := np_where (fun d => Qltb (m * scale) d) (deltas df)).
  destruct (negb (Nat.eqb (length wh) 0)) eqn:Eg.
  2:{ assert (wh = []).
      { destruct wh; auto. discriminate. }
      exists st, i, df. split; [reflexivity|]. split; [exact V|].
      split; [exists (data i); symmetry; apply instance_eta|].
      split; [auto | intros H'; now contradiction H']. }
  assert (Hne : wh <> []) by (intros E; rewrite E in Eg; discriminate).
  assert (Lz : length (zeros (length (bincenters i))) = length (bincenters i))
    by apply repeat_length.
  unfold bind at 1. unfold warn at 1.
  set (st1 := mkState (heap st) (warnings st ++ [_]) (files st)).
  assert (V1 : view (heap st1) self i df) by exact V.
  unfold bind at 1. rewrite (get_instance_run _ _ _ _ V1).
  unfold bind at 1.
  destruct (for_each_setitem self i (fun gap_s => gap_s + m * scale)
              (zeros (length (bincenters i))) _
              (map (fun w => nth w (index df) 0) wh) st1 df V1 W Lz)
    as (st2 & E2 & V2 & Hw2 & Hf2).
  rewrite E2.
  unfold bind at 1.
  pose proof (rows_len_setitems
                (map (fun gap_s => gap_s + m * scale)
                     (map (fun w => nth w (index df) 0) wh))
                df _ _ W Lz) as W2.
  destruct (for_each_setitem self i (fun gap_e => gap_e - m * scale)
              (zeros (length (bincenters i))) _
              (map (fun w => nth (w + 1) (index df) 0) wh) st2 _ V2 W2 Lz)
    as (st3 & E3 & V3 & Hw3 & Hf3).
  rewrite E3.
  unfold bind at 1. rewrite (get_data_run _ _ _ _ V3).
  destruct (rebind_data_run st3 self i _
              (sort_index (setitems_result
                 (setitems_result df
                    (map (fun gap_s => gap_s + m * scale)
                       (map (fun w => nth w (index df) 0) wh))
                    (zeros (length (bincenters i))))
                 (map (fun gap_e => gap_e - m * scale)
                    (map (fun w => nth (w + 1) (index df) 0) wh))
                 (zeros (length (bincenters i))))) V3) as [E4 V4].
  rewrite E4.
  eexists. eexists. eexists. split; [reflexivity|]. split; [exact V4|].
  split; [eexists; reflexivity|]. split; [intros H; contradiction|].
  intros _. split.
  - simpl. rewrite Hw3, Hw2. reflexivity.
  - rewrite setitems_result_app, !map_map. reflexivity.
Qed.






Lemma index_app df df' : index (df ++ df') = index df ++ index df'.
Proof. unfold index. apply map_app. Qed.


(** ** Sorted arrays without repetitions *)

Lemma insert_key_perm k l : Permutation (insert_key k l) (k :: l).
Proof.
  induction l as [|k' t IH]; simpl; auto.
  destruct (Qle_bool k' k); auto.
  rewrite IH. apply perm_swap.
Qed.

Lemma np_sort_from_perm l acc :
  Permutation (fold_left (fun a k => insert_key k a) l acc) (acc ++ l).
Proof.
  revert acc; induction l as [|k t IH]; intros acc; simpl.
  - now rewrite app_nil_r.
  - rewrite IH. rewrite insert_key_perm. apply Permutation_middle.
Qed.

Lemma np_sort_perm l : Permutation (np_sort l) l.
Proof. apply (np_sort_from_perm l []). Qed.

Lemma insert_key_ascending k l : ascending l -> ascending (insert_key k l).
Proof.
  unfold ascending. induction l as [|k' t IH]; simpl; intros S.
  - repeat constructor.
  - inversion S as [|a l St Ft]; subst.
    destruct (Qle_bool k' k) eqn:E.
    + constructor; [now apply IH|].
      apply Qle_bool_iff in E.
      eapply Permutation_Forall; [symmetry; apply insert_key_perm|]. constructor; auto.
    + constructor; [exact S|].
      assert (L : k < k').
      { apply Qnot_le_lt. intros H. apply Qle_bool_iff in H. congruence. }
      constructor; [lra|].
      eapply Forall_impl; [|exact Ft]. intros x Hx; simpl in *. lra.
Qed.

Lemma np_sort_from_ascending l acc :
  ascending acc -> ascending (fold_left (fun a k => insert_key k a) l acc).
Proof.
  revert acc; induction l as [|k t IH]; intros acc S; simpl; auto.
  apply IH. now apply insert_key_ascending.
Qed.

Lemma np_sort_ascending l : ascending (np_sort l).
Proof. apply np_sort_from_ascending. constructor. Qed.

Lemma dedup_incl l x : In x (dedup l) -> In x l.
Proof.
  induction l as [|a [|b t] IH]; simpl in *; auto.
  destruct (Qeq_bool a b).
  - intros H. right. apply IH. exact H.
  - intros [H|H]; auto.
Qed.

Lemma dedup_InA l x : InA Qeq x l -> InA Qeq x (dedup l).
Proof.
  induction l as [|a [|b t] IH]; simpl in *; auto.
  destruct (Qeq_bool a b) eqn:E; intros H.
  - apply IH. inversion H; subst; auto.
    apply Qeq_bool_iff in E. left. now rewrite <- E.
  - inversion H; subst; [now left | right; auto].
Qed.

Lemma dedup_strict l : ascending l -> strictly_ascending (dedup l).
Proof.
  unfold ascending, strictly_ascending.
  induction l as [|a [|b t] IH]; intros S.
  - constructor.
  - repeat constructor.
  - inversion S as [|? ? St Ft]; subst. specialize (IH St).
    change (dedup (a :: b :: t))
      with (if Qeq_bool a b then dedup (b :: t) else a :: dedup (b :: t)).
    destruct (Qeq_bool a b) eqn:E; auto.
    constructor; auto.
    assert (Hab : a < b).
    { inversion Ft; subst.
      destruct (Qlt_le_dec a b) as [L|L]; auto.
      exfalso. assert (a == b) by lra. apply Qeq_bool_iff in H. congruence. }
    inversion St as [|? ? _ Fb]; subst.
    rewrite Forall_forall in *. intros x Hx. apply dedup_incl in Hx.
    destruct Hx as [<-|Hx]; auto. specialize (Fb x Hx). lra.
Qed.

Lemma np_unique_strict l : strictly_ascending (np_unique l).
Proof. apply dedup_strict, np_sort_ascending. Qed.

Lemma np_unique_InA l x : InA Qeq x (np_unique l) <-> InA Qeq x l.
Proof.
  unfold np_unique. split; intros H.
  - apply InA_alt in H. destruct H as (y & E & Hy). apply dedup_incl in Hy.
    apply InA_alt. exists y; split; auto.
    eapply Permutation_in; [apply np_sort_perm | exact Hy].
  - apply dedup_InA. eapply InA_perm; [symmetry; apply np_sort_perm | exact H].
Qed.

Lemma strict_app l1 l2 :
  strictly_ascending (l1 ++ l2) ->
  strictly_ascending l1 /\ strictly_ascending l2
  /\ forall x y, In x l1 -> In y l2 -> x < y.
Proof.
  unfold strictly_ascending. induction l1 as [|a t IH]; simpl; intros S.
  - repeat split; auto. constructor. intros x y [].
  - inversion S as [|? ? St Ft]; subst. destruct (IH St) as (S1 & S2 & H).
    rewrite Forall_forall in Ft.
    split; [constructor; auto; apply Forall_forall; intros x Hx; apply Ft;
            apply in_or_app; now left|].
    split; auto. intros x y [<-|Hx] Hy; auto.
    apply Ft. apply in_or_app; now right.
Qed.

Lemma filter_none {A} (p : A -> bool) l s :
  Forall (fun y => p y = false) l ->
  filter (fun x => p (snd x)) (combine (seq s (length l)) l) = [].
Proof.
  revert s; induction l as [|a t IH]; intros s F; simpl; auto.
  inversion F; subst. rewrite H1. apply IH; auto.
Qed.

Lemma where_single {A} (p : A -> bool) pre a post : forall s,
  Forall (fun y => p y = false) pre -> p a = true ->
  Forall (fun y => p y = false) post ->
  map fst (filter (fun x => p (snd x))
             (combine (seq s (length (pre ++ a :: post))) (pre ++ a :: post)))
  = [(s + length pre)%nat].
Proof.
  induction pre as [|b t IH]; intros s Fpre Ha Fpost; simpl.
  - rewrite Ha. simpl. rewrite filter_none by auto. simpl. f_equal; lia.
  - inversion Fpre; subst. rewrite H1. rewrite IH; auto. f_equal; lia.
Qed.

Lemma np_where_unique pre a post x :
  strictly_ascending (pre ++ a :: post) -> a == x ->
  np_where (fun y => Qeq_bool y x) (pre ++ a :: post) = [length pre].
Proof.
  intros S E. unfold np_where.
  destruct (strict_app _ _ S) as (_ & S2 & H).
  inversion S2 as [|? ? _ Fa]; subst. rewrite Forall_forall in Fa.
  apply (where_single (fun y => Qeq_bool y x) pre a post 0%nat).
  - apply Forall_forall. intros y Hy. apply Qeq_bool_false.
    specialize (H y a Hy (or_introl eq_refl)). lra.
  - now apply Qeq_bool_iff.
  - apply Forall_forall. intros y Hy. apply Qeq_bool_false.
    specialize (Fa y Hy). lra.
Qed.

Lemma app_eq_length {A} (l1 l2 x y : list A) :
  length l1 = length l2 -> l1 ++ x = l2 ++ y -> l1 = l2 /\ x = y.
Proof.
  revert l2; induction l1 as [|a t IH]; intros [|b l2] L E; simpl in *; try lia; auto.
  injection E as -> E. destruct (IH l2) as [-> ->]; auto.
Qed.

Lemma index_difference_spec U lo hi :
  strictly_ascending U -> InA Qeq lo U -> InA Qeq hi U ->
  exists d, index_difference U lo hi = [d] /\ (d = 1%Z <-> adjacent U lo hi).
Proof.
  intros S Hlo Hhi.
  apply InA_split in Hlo. destruct Hlo as (pre1 & a & post1 & Ea & E1).
  apply InA_split in Hhi. destruct Hhi as (pre2 & b & post2 & Eb & E2).
  unfold index_difference.
  assert (W1 : np_where (fun x => Qeq_bool x lo) U = [length pre1]).
  { rewrite E1. apply np_where_unique; [now rewrite <- E1 | now symmetry]. }
  assert (W2 : np_where (fun x => Qeq_bool x hi) U = [length pre2]).
  { rewrite E2. apply np_where_unique; [now rewrite <- E2 | now symmetry]. }
  rewrite W1, W2. simpl. eexists; split; [reflexivity|]. split.
  - intros D. assert (L : length pre2 = length (pre1 ++ [a])).
    { rewrite length_app; simpl. lia. }
    assert (E : (pre1 ++ [a]) ++ post1 = pre2 ++ b :: post2).
    { rewrite <- app_assoc. simpl. congruence. }
    destruct (app_eq_length _ _ _ _ (eq_sym L) E) as [_ ->].
    exists pre1, a, b, post2. split; [exact E1|]. split; now symmetry.
  - intros (pre & a' & b' & post & EU & Ea' & Eb').
    assert (W1' : np_where (fun x => Qeq_bool x lo) U = [length pre]).
    { rewrite EU. apply np_where_unique; [now rewrite <- EU | exact Ea']. }
    assert (W2' : np_where (fun x => Qeq_bool x hi) U = [length (pre ++ [a'])]).
    { rewrite EU. change (pre ++ a' :: b' :: post) with (pre ++ [a'] ++ b' :: post).
      rewrite app_assoc. apply np_where_unique; [|exact Eb'].
      rewrite <- app_assoc. simpl. now rewrite <- EU. }
    rewrite W1 in W1'. rewrite W2 in W2'. injection W1' as ->. injection W2' as ->.
    rewrite length_app; simpl. lia.
Qed.

Lemma adjacent_between L lo hi :
  lo < hi ->
  (adjacent (np_unique (L ++ [lo; hi])) lo hi
   <-> ~ exists v, In v L /\ lo < v /\ v < hi).
Proof.
  intros Hlt. set (U := np_unique (L ++ [lo; hi])).
  assert (S : strictly_ascending U) by apply np_unique_strict.
  assert (HU : forall x, InA Qeq x U <-> InA Qeq x (L ++ [lo; hi]))
    by (intros; apply np_unique_InA).
  split.
  - intros (pre & a & b & post & EU & Ea & Eb) (v & Hv & H1 & H2).
    assert (Hin : InA Qeq v U).
    { apply HU. apply InA_alt. exists v. split; [reflexivity|].
      apply in_or_app; now left. }
    apply InA_alt in Hin. destruct Hin as (u & Eu & Hu).
    rewrite EU in S, Hu. destruct (strict_app _ _ S) as (_ & S2 & Hpre).
    inversion S2 as [|? ? S3 Fa]; subst. inversion S3 as [|? ? _ Fb]; subst.
    rewrite Forall_forall in Fa, Fb.
    apply in_app_or in Hu. destruct Hu as [Hu|[<-|[<-|Hu]]].
    + specialize (Hpre u a Hu (or_introl eq_refl)). lra.
    + lra.
    + lra.
    + specialize (Fb u Hu). lra.
  - intros Hno.
    assert (Hlo : InA Qeq lo U).
    { apply HU. apply InA_alt. exists lo. split; [reflexivity|].
      apply in_or_app; right; now left. }
    assert (Hhi : InA Qeq hi U).
    { apply HU. apply InA_alt. exists hi. split; [reflexivity|].
      apply in_or_app; right; right; now left. }
    apply InA_split in Hlo. destruct Hlo as (pre1 & a & post1 & Ea & E1).
    apply InA_alt in Hhi. destruct Hhi as (u & Eu & Hu).
    pose proof S as S'. rewrite E1 in S'. destruct (strict_app _ _ S') as (_ & S2 & Hpre).
    inversion S2 as [|? ? S3 Fa]; subst. rewrite Forall_forall in Fa.
    rewrite E1 in Hu. apply in_app_or in Hu. destruct Hu as [Hu|[<-|Hu]].
    + specialize (Hpre u a Hu (or_introl eq_refl)). lra.
    + lra.
    + destruct post1 as [|c post1]; [contradiction|].
      destruct Hu as [<-|Hu].
      * exists pre1, a, c, post1. split; [exact E1|]. split; now symmetry.
      * exfalso. inversion S3 as [|? ? _ Fc]; subst. rewrite Forall_forall in Fc.
        specialize (Fc u Hu). specialize (Fa c (or_introl eq_refl)).
        assert (Hc : InA Qeq c (L ++ [lo; hi])).
        { apply HU. rewrite E1. apply InA_alt. exists c. split; [reflexivity|].
          apply in_or_app; right; right; now left. }
        apply InA_alt in Hc. destruct Hc as (v & Ev & Hv).
        apply in_app_or in Hv. destruct Hv as [Hv|[<-|[<-|[]]]]; try lra.
        apply Hno. exists v. split; [exact Hv|]. lra.
Qed.

Lemma adjacent_lt U lo hi : strictly_ascending U -> adjacent U lo hi -> lo < hi.
Proof.
  intros S (pre & a & b & post & -> & Ea & Eb).
  destruct (strict_app _ _ S) as (_ & S2 & _).
  inversion S2 as [|? ? _ Fa]; subst. inversion Fa; subst. lra.
Qed.

(** ** Adding a layer *)

Lemma view_update_self h l i i' df :
  view h l i df -> data i' = data i -> view (update h l (OInstance i')) l i' df.
Proof.
  intros V E. pose proof (view_neq _ _ _ _ V) as N. destruct V as [V1 V2]. split.
  - apply nth_error_update_eq. eapply nth_error_lt; eauto.
  - rewrite E. rewrite nth_error_update_neq; auto.
Qed.

Lemma view_update_other h l i df l' o :
  view h l i df -> l' <> l -> l' <> data i -> view (update h l' o) l i df.
Proof.
  intros [V1 V2] N1 N2. split; rewrite nth_error_update_neq; auto.
Qed.

Lemma view_unique h l i df i' df' : view h l i df -> view h l i' df' -> i = i' /\ df = df'.
Proof.
  intros [V1 V2] [V1' V2']. rewrite V1 in V1'. injection V1' as <-.
  rewrite V2 in V2'. injection V2' as <-. auto.
Qed.

Lemma flatten_app a b : flatten (a ++ b) = flatten a ++ flatten b.
Proof. unfold flatten. apply flat_map_app. Qed.

Lemma get_distributionType_run st self i df :
  view (heap st) self i df -> get_distributionType self st = (st, Ok (distributionType i)).
Proof.
  intros V. unfold get_distributionType, bind. now rewrite (get_instance_run _ _ _ _ V).
Qed.

(** What a conversion leaves behind, in terms of views. *)
Lemma convert_result st sd k verbose st1 d1 self i df :
  _convert2otherDistribution sd k verbose st = (st1, Ok d1) ->
  view (heap st) self i df ->
  view (heap st1) self i df
  /\ (length (heap st) <= d1)%nat
  /\ exists i1 df1, view (heap st1) d1 i1 df1 /\ (length (heap st) <= data i1)%nat.
Proof.
  unfold _convert2otherDistribution. generalize recursion_limit; intros fuel E V.
  destruct (convert_frame fuel (length (heap st)) sd k verbose st (Nat.le_refl _) I)
    as [[_ F] R].
  rewrite E in F, R. simpl in F, R. destruct R as (Hd & i1 & df1 & V1 & Hi1).
  split; [|split; [exact Hd | exists i1, df1; auto]].
  destruct V as [V1' V2']. split; rewrite F; auto; eapply nth_error_lt; eauto.
Qed.

Lemma add_layer_run st self sd i df lb lcs low high st1 d1 r :
  view (heap st) self i df ->
  layerbounderies i = Some (Arr2 lb) -> layercenters i = Some lcs ->
  _convert2otherDistribution sd (distributionType i) false st = (st1, Ok d1) ->
  get_data d1 st1 = (st1, Ok [r]) ->
  (~ adjacent (np_unique (flatten (lb ++ [(low, high)]))) low high ->
   add_layer self sd [low; high] st = (st1, Raise OverlappingLayer))
  /\ (adjacent (np_unique (flatten (lb ++ [(low, high)]))) low high ->
      exists st' dl,
        add_layer self sd [low; high] st = (st', Ok tt)
        /\ view (heap st') self (layer_added i lb lcs low high dl)
                (sort_index (df ++ [((low + high) / 2, snd r)]))).
Proof.
  intros V Hlb Hlcs Hconv Hget.
  destruct (convert_result _ _ _ _ _ _ _ _ _ Hconv V)
    as (V1 & Hd1 & i1 & df1 & Vd & Hi1).
  rewrite (get_data_run _ _ _ _ Vd) in Hget. injection Hget as ->.
  pose proof (nth_error_lt _ _ _ (proj1 V)) as Ls.
  pose proof (nth_error_lt _ _ _ (proj2 V)) as Ldi.
  set (U := np_unique (flatten (lb ++ [(low, high)]))).
  assert (HlU : InA Qeq low U).
  { apply np_unique_InA. rewrite flatten_app. apply InA_alt. exists low.
    split; [reflexivity|]. apply in_or_app; right; now left. }
  assert (HhU : InA Qeq high U).
  { apply np_unique_InA. rewrite flatten_app. apply InA_alt. exists high.
    split; [reflexivity|]. apply in_or_app; right; right; now left. }
  destruct (index_difference_spec U low high (np_unique_strict _) HlU HhU)
    as (d0 & Ed & Hd0).
  assert (Start : forall (k : unit -> M unit),
    add_layer self sd [low; high] st
    = (match index_difference U low high with
       | [] => raise (IndexError "index 0 is out of bounds for axis 0 with size 0")
       | d0 :: _ =>
         if negb (Z.eqb d0 1) then raise OverlappingLayer
         else
           i <- get_instance self ;;
           store self (OInstance (with_layerbounderies i
                         (Arr2 (sort_axis0 (lb ++ [(low, high)]))))) ;;;
           lcs <- get_layercenters self ;;
           i <- get_instance self ;;
           store self (OInstance (with_layercenters i
                         (np_sort (lcs ++ [(low + high) / 2])))) ;;;
           new <- get_data d1 ;;
           match new with
           | [r] => inplace_data d1 [((low + high) / 2, snd r)]
           | _ => raise (ValueError "Length mismatch")
           end ;;;
           cur <- get_data self ;;
           new <- get_data d1 ;;
           rebind_data self (sort_index (cur ++ new))
       end) st1).
  { intros _. unfold add_layer. unfold bind at 1.
    rewrite (get_distributionType_run _ _ _ _ V).
    unfold bind at 1. rewrite Hconv.
    unfold bind at 1. unfold get_layerbounderies at 1. unfold bind at 1.
    rewrite (get_instance_run _ _ _ _ V1). rewrite Hlb.
    unfold ret at 1. unfold bind at 1. unfold ret at 1. reflexivity. }
  rewrite (Start (fun _ => ret tt)). rewrite Ed. clear Start.
  split.
  - intros Hn. destruct (Z.eqb d0 1) eqn:E; [|reflexivity].
    apply Z.eqb_eq in E. apply Hd0 in E. contradiction.
  - intros Ha. apply Hd0 in Ha. subst d0. change (negb (1 =? 1)%Z) with false. cbv iota.
    set (c := (low + high) / 2).
    set (iA := with_layerbounderies i (Arr2 (sort_axis0 (lb ++ [(low, high)])))).
    set (iB := with_layercenters iA (np_sort (lcs ++ [c]))).
    assert (Nd : d1 <> self) by lia.
    assert (Ndd : data i1 <> self) by lia.
    assert (Ndi : data i1 <> data i) by lia.
    assert (Nsd : self <> data i1) by lia.
    pose proof (view_neq _ _ _ _ Vd) as Nd1.
    (* store the boundaries *)
    unfold bind at 1. rewrite (get_instance_run _ _ _ _ V1).
    unfold bind at 1. unfold store at 1.
    fold iA.
    set (st2 := set_heap st1 (update (heap st1) self (OInstance iA))).
    assert (V2 : view (heap st2) self iA df)
      by (apply (view_update_self _ _ i iA df V1); reflexivity).
    assert (Vd2 : view (heap st2) d1 i1 [r])
      by (apply view_update_other; auto).
    (* store the centers *)
    unfold bind at 1. unfold get_layercenters at 1. unfold bind at 1.
    rewrite (get_instance_run _ _ _ _ V2).
    replace (layercenters iA) with (Some lcs) by (symmetry; exact Hlcs).
    unfold ret at 1.
    unfold bind at 1. rewrite (get_instance_run _ _ _ _ V2).
    unfold bind at 1. unfold store at 1.
    fold iB.
    set (st3 := set_heap st2 (update (heap st2) self (OInstance iB))).
    assert (V3 : view (heap st3) self iB df)
      by (apply (view_update_self _ _ iA iB df V2); reflexivity).
    assert (Vd3 : view (heap st3) d1 i1 [r])
      by (apply view_update_other; auto).
    (* the key of the incoming row *)
    unfold bind at 1. rewrite (get_data_run _ _ _ _ Vd3).
    unfold bind at 1.
    destruct (inplace_data_run st3 d1 i1 [r] [(c, snd r)] Vd3) as [E4 Vd4].
    rewrite E4.
    set (st4 := set_heap st3 (update (heap st3) (data i1) (ODataFrame [(c, snd r)]))).
    assert (V4 : view (heap st4) self iB df)
      by (apply view_update_other; auto).
    (* append and sort *)
    unfold bind at 1. rewrite (get_data_run _ _ _ _ V4).
    unfold bind at 1. rewrite (get_data_run st4 d1 i1 [(c, snd r)] Vd4).
    destruct (rebind_data_run st4 self iB df (sort_index (df ++ [(c, snd r)])) V4)
      as [E5 V5].
    rewrite E5. eexists. exists (length (heap st4)). split; [reflexivity|].
    exact V5.
Qed.

(** ** Sample data *)



(** C4, as stated.  A layer series that was constructed with the layer
    edges 100 and 200 has the layer center 150; the pair (200, 300),
    which overlaps nothing, is not added to it: [add_layer] raises the
    dimension error, not the overlap error.  On the series with the
    layer (100, 200) that [add_layer] built, the pair (300, 200) is
    refused with the overlap error, although 200 and 300 are neighbours
    among the distinct boundary values and no boundary value lies
    strictly between them. *)
Lemma add_layer_refuses_without_overlap :
  (exists i df, view (heap edges_layer_state) 1%nat i df
     /\ layerbounderies i = Some (Arr1 [100; 200])
     /\ Forall2 Qeq (match layercenters i with Some l => l | None => [] end) [150])
  /\ snd (add_layer 1%nat 3%nat [200; 300] edges_layer_state)
     = Raise (ValueError "all the input arrays must have same number of dimensions")
  /\ snd (add_layer 1%nat 3%nat [200; 300] edges_layer_state) <> Raise OverlappingLayer
  /\ layerbounderies (instance_of (get_object one_layer_state 1%nat))
     = Some (Arr2 [(100, 200)])
  /\ snd (add_layer 1%nat 8%nat [300; 200] one_layer_state) = Raise OverlappingLayer
  /\ adjacent (np_unique (flatten ([(100, 200)] ++ [(300, 200)]))) 200 300
  /\ ~ exists v, In v (flatten [(100, 200)]) /\ 200 < v /\ v < 300.
Proof.
  split.
  { eexists. eexists. split; [split; vm_compute; reflexivity|].
    split; [reflexivity|]. repeat constructor; reflexivity. }
  split; [vm_compute; reflexivity|].
  split; [vm_compute; discriminate|].
  split; [vm_compute; reflexivity|].
  split; [vm_compute; reflexivity|].
  split.
  { exists [100], 200, 300, []. vm_compute. repeat split; reflexivity. }
  intros (v & Hv & L1 & L2). simpl in Hv.
  destruct Hv as [<-|[<-|[]]]; [discriminate L1 | discriminate L1].
Qed.

(** C7: the nested layer.  The layer (120, 180) lies inside the layer
    (100, 200) and is accepted all the same.  Afterwards the boundary
    rows are (100, 180) and (120, 200), which overlap, and both rows of
    the table have the key 150, which is not the midpoint of (100, 180). *)
Theorem nested_layer_accepted :
  exists st host i df,
    two_layers [100; 200] [120; 180] empty_state = (st, Ok host)
    /\ view (heap st) host i df
    /\ layerbounderies i = Some (Arr2 [(100, 180); (120, 200)])
    /\ 120 < 180 /\ 100 < 200
    /\ Forall2 Qeq (index df) [150; 150]
    /\ ~ (100 + 180) / 2 == 150.
Proof.
  eexists. eexists. eexists. eexists.
  split; [vm_compute; reflexivity|].
  split; [split; vm_compute; reflexivity|].
  split; [reflexivity|].
  split; [reflexivity|]. split; [reflexivity|].
  split; [repeat constructor; reflexivity | discriminate].
Qed.

(** C2: two layers.  With the cross-section 1 for every diameter, the
    first layer (5 particles per nm in bins 100 nm wide) gets the
    extinction coefficient 500 * 1e6 * 1e-12 per bin; the second layer
    (7 particles per nm) gets 700 * 1e6 * 1e-24, since the cross-section
    that [_get_coefficients] scaled in place for the first layer is
    scaled again. *)
Theorem AOD_second_layer_rescaled :
  exists r row1 row2,
    snd (two_layer_AOD empty_state) = Ok r
    /\ map snd (extCoeffPerLayer r) = [row1; row2]
    /\ Forall2 veq row1 [Some (500 * 1000000 * (1 # 1000000000000));
                         Some (500 * 1000000 * (1 # 1000000000000))]
    /\ Forall2 veq row2
         [Some (700 * 1000000 * ((1 # 1000000000000) * (1 # 1000000000000)));
          Some (700 * 1000000 * ((1 # 1000000000000) * (1 # 1000000000000)))]
    /\ ~ Forall2 veq row2 [Some (700 * 1000000 * (1 # 1000000000000));
                           Some (700 * 1000000 * (1 # 1000000000000))].
Proof.
  eexists. eexists. eexists.
  split; [vm_compute; reflexivity|].
  split; [vm_compute; reflexivity|].
  split; [repeat constructor; reflexivity|].
  split; [repeat constructor; reflexivity|].
  intros H. inversion H as [|? ? ? ? E _]; subst. discriminate E.
Qed.

(** C10.  The layer constructor does not look at its parameters
    [bincenters] and [fixGaps]: it runs the base constructor without bin
    centers and with gap filling.  On a frame with one value per bin it
    returns an instance whose bin centers are the midpoints of the bin
    edges and whose rows are the gap-filled rows of the frame, with the
    warning, whatever [bincenters] and [fixGaps] were. *)
Theorem SizeDist_LS_init_ignores data bins k lb bc fg st :
  SizeDist_LS__init__ data bins k lb bc fg st
  = SizeDist_LS__init__ data bins k lb None true st
  /\ SizeDist_LS__init__ data bins k lb bc fg st
     = (self <- SizeDist__init__ SizeDist_LS data bins k None true ;;
        i <- get_instance self ;;
        match lb with
        | None => store self (OInstance (with_layers i (Arr2 []) []))
        | Some lb =>
          store self (OInstance (with_layers i (Arr1 lb)
            (map2 (fun a b => (a + b) / 2) (from1 lb) (upto_last lb))))
        end ;;;
        ret self) st
  /\ forall d df,
       data = Some d -> nth_error (heap st) d = Some (ODataFrame df) ->
       rows_len (length (bin_midpoints bins)) df ->
       exists st' self i' df',
         SizeDist_LS__init__ data bins k lb bc fg st = (st', Ok self)
         /\ view (heap st') self i' df'
         /\ cls i' = SizeDist_LS
         /\ bincenters i' = bin_midpoints bins
         /\ (gaps default_scale df = [] -> df' = df)
         /\ (gaps default_scale df <> [] ->
             warnings st' = warnings st ++ [gap_warning (length (gaps default_scale df))]
             /\ df' = sort_index (setitems_result df (fill_keys default_scale df)
                                    (zeros (length (bin_midpoints bins))))).
Proof.
  split; [reflexivity|]. split; [reflexivity|].
  intros d df -> Hd W.
  pose proof (nth_error_lt _ _ _ Hd) as Ld.
  unfold SizeDist_LS__init__, SizeDist__init__.
  fold (bin_midpoints bins).
  set (i0 := mkInstance SizeDist_LS bins (bin_midpoints bins) _ k d None None).
  unfold bind at 1. unfold bind at 1. unfold alloc at 1.
  set (st1 := set_heap st (heap st ++ [OInstance i0])).
  assert (V1 : view (heap st1) (length (heap st)) i0 df).
  { split; simpl.
    - apply nth_error_snoc_eq.
    - rewrite nth_error_snoc_lt; auto. }
  unfold bind at 1.
  destruct (fillGaps_run st1 (length (heap st)) i0 df default_scale V1 W)
    as (st2 & i2 & df2 & E2 & V2 & [dl ->] & Hnone & Hsome).
  rewrite E2. unfold ret at 1.
  unfold bind at 1. rewrite (get_instance_run _ _ _ _ V2).
  unfold bind at 1. unfold ret.
  assert (Fin : forall lb' lc',
    exists st' i',
      store (length (heap st)) (OInstance (with_layers (with_data i0 dl) lb' lc')) st2
      = (st', Ok tt)
      /\ view (heap st') (length (heap st)) i' df2
      /\ cls i' = SizeDist_LS /\ bincenters i' = bin_midpoints bins
      /\ warnings st' = warnings st2).
  { intros lb' lc'. eexists. eexists. split; [reflexivity|]. split.
    - apply (view_update_self _ _ (with_data i0 dl)); [exact V2 | reflexivity].
    - simpl. auto. }
  destruct lb as [lb|];
    [destruct (Fin (Arr1 lb) (map2 (fun a b => (a + b) / 2) (from1 lb) (upto_last lb)))
       as (st' & i' & E & V' & Hc & Hb & Hw)
    |destruct (Fin (Arr2 []) []) as (st' & i' & E & V' & Hc & Hb & Hw)];
    rewrite E; exists st', (length (heap st)), i', df2;
    (split; [reflexivity|]); (split; [exact V'|]); (split; [exact Hc|]);
    (split; [exact Hb|]);
    (split; [intros G; apply (Hnone G)|]);
    intros G; destruct (Hsome G) as [Hw2 ->]; (split; [|reflexivity]);
    rewrite Hw; exact Hw2.
Qed.

(** ** Snapshots *)

Lemma split_on_nonempty c s : exists h r, split_on c s = h :: r.
Proof.
  induction s as [|a t IH]; simpl; eauto.
  destruct (Ascii.eqb a c); eauto.
  destruct IH as (h & r & ->). eauto.
Qed.

Section TextProofs.

Variable repr_list : list Q -> string.
Variable py_eval : string -> outcome (list Q).

Lemma read_header_S f todo i outDict :
  read_header py_eval f (S todo) i outDict
  = match nth 0 (split_on "=" (readline f i)) "" with
    | EmptyString => Raise (IndexError "string index out of range")
    | String c _ =>
      if Ascii.eqb c "#" then Ok (i, outDict)
      else
        match nth_error (split_on "=" (readline f i)) 1 with
        | None => Raise (IndexError "list index out of range")
        | Some v =>
          match (if member (strip (nth 0 (split_on "=" (readline f i)) "")) nol
                 then Ok (PStr (strip v))
                 else match py_eval (strip v) with
                      | Ok a => Ok (PArray a)
                      | Raise e => Raise e
                      end) with
          | Raise e => Raise e
          | Ok entry =>
            if Nat.eqb i (headerNo - 1) then Raise NotASizeDistribution
            else read_header py_eval f todo (S i)
                   ((strip (nth 0 (split_on "=" (readline f i)) ""), entry) :: outDict)
          end
        end
    end.
Proof. reflexivity. Qed.

Lemma read_header_line f todo i outDict c0 r0 v rest entry :
  split_on "=" (readline f i) = String c0 r0 :: v :: rest ->
  Ascii.eqb c0 "#" = false ->
  (if member (strip (String c0 r0)) nol then Ok (PStr (strip v))
   else match py_eval (strip v) with
        | Ok a => Ok (PArray a)
        | Raise e => Raise e
        end) = Ok entry ->
  read_header py_eval f (S todo) i outDict
  = if Nat.eqb i (headerNo - 1) then Raise NotASizeDistribution
    else read_header py_eval f todo (S i) ((strip (String c0 r0), entry) :: outDict).
Proof.
  intros Hs Hc He. rewrite read_header_S, Hs.
  change (nth 0 (String c0 r0 :: v :: rest) "") with (String c0 r0).
  change (nth_error (String c0 r0 :: v :: rest) 1) with (Some v).
  cbv iota. rewrite Hc, He. reflexivity.
Qed.

Lemma read_header_hash f todo i outDict r0 rest :
  split_on "=" (readline f i) = String "#" r0 :: rest ->
  read_header py_eval f (S todo) i outDict = Ok (i, outDict).
Proof.
  intros Hs. rewrite read_header_S, Hs. reflexivity.
Qed.


Lemma saved_header bins k c :
  In k all_kinds ->
  py_eval (line_value ("bins = " ++ repr_list bins)) = Ok bins ->
  forall text,
  read_header py_eval
    (mkFile [("bins = " ++ repr_list bins)%string;
             ("distributionType = " ++ k)%string;
             ("objectType = " ++ class_name c)%string;
             "#"] (Some text)) headerNo 0 []
  = Ok (3%nat, [("objectType", PStr (class_name c));
                ("distributionType", PStr k);
                ("bins", PArray bins)]).
Proof.
  intros Hk Hb text. unfold headerNo.
  destruct (split_on_nonempty "=" (" " ++ repr_list bins)) as (v0 & rest0 & E0).
  assert (S0 : split_on "=" ("bins = " ++ repr_list bins) = "bins " :: v0 :: rest0).
  { simpl. simpl in E0. rewrite E0. reflexivity. }
  unfold line_value in Hb. rewrite S0 in Hb. simpl in Hb.
  rewrite (read_header_line _ 49 0 [] "b" "ins " v0 rest0 (PArray bins));
    [ | exact S0 | reflexivity | ].
  2:{ change (member (strip "bins ") nol) with false. cbv iota. now rewrite Hb. }
  change (Nat.eqb 0 (headerNo - 1)) with false. cbv iota.
  change (strip "bins ") with "bins".
  unfold all_kinds, axis_kinds in Hk. simpl in Hk.
  repeat (destruct Hk as [Hk|Hk]; [subst k|]); try contradiction;
    destruct c; vm_compute; reflexivity.
Qed.

End TextProofs.

Lemma lookup_file_head fname f fs : lookup_file fname ((fname, f) :: fs) = Some f.
Proof. simpl. now rewrite String.eqb_refl. Qed.


(** What [save_csv] leaves behind and what the loader reads from it. *)
Lemma save_csv_run (repr_list : list Q -> string) (to_csv_text : DataFrame -> list string)
    st self i df fname :
  view (heap st) self i df ->
  let lines := [("bins = " ++ repr_list (bins i))%string;
                ("distributionType = " ++ distributionType i)%string;
                ("objectType = " ++ class_name (cls i))%string;
                "#"] in
  let st0 := set_files st ((fname, mkFile lines None) :: files st) in
  save_csv repr_list to_csv_text self fname st
  = (set_files st0 ((fname, mkFile lines (Some (to_csv_text df))) :: files st0), Ok tt).
Proof.
  intros V lines st0.
  unfold save_csv. unfold bind at 1. rewrite (get_instance_run _ _ _ _ V).
  unfold bind at 1. unfold write_file at 1. fold lines. fold st0.
  unfold bind at 1. rewrite (get_data_run st0 self i df V).
  unfold to_csv, append_table. unfold st0 at 1. simpl files.
  rewrite lookup_file_head. reflexivity.
Qed.

(** The loader on a file whose head was read up to the line [i], from
    the reading of the table on. *)
Lemma load_table (py_eval : string -> outcome (list Q))
    (read_csv_text : list string -> outcome (list (label * list value)))
    (to_datetime : list label -> outcome (list Q)) st fname f fixGaps i outDict :
  lookup_file fname (files st) = Some f ->
  read_header py_eval f headerNo 0 [] = Ok (i, outDict) ->
  (forall e, read_csv read_csv_text f (i + 1) = Raise e ->
     read_distribution_csv py_eval read_csv_text to_datetime fname fixGaps st
     = (st, Raise e))
  /\ (forall raw e, read_csv read_csv_text f (i + 1) = Ok raw ->
       to_datetime (map fst raw) = Raise e ->
       read_distribution_csv py_eval read_csv_text to_datetime fname fixGaps st
       = (st, Raise e))
  /\ (forall raw keys, read_csv read_csv_text f (i + 1) = Ok raw ->
       to_datetime (map fst raw) = Ok keys -> length keys = length raw ->
       read_distribution_csv py_eval read_csv_text to_datetime fname fixGaps st
       = (let data := length (heap st) in
          objectType <- lift (dict_get outDict "objectType") ;;
          if is_str objectType "SizeDist_TS" then
            b <- lift (dict_get outDict "bins") ;; b <- lift (as_array b) ;;
            k <- lift (dict_get outDict "distributionType") ;; k <- lift (as_str k) ;;
            SizeDist__init__ SizeDist_TS (Some data) b k None fixGaps
          else if is_str objectType "SizeDist" then
            b <- lift (dict_get outDict "bins") ;; b <- lift (as_array b) ;;
            k <- lift (dict_get outDict "distributionType") ;; k <- lift (as_str k) ;;
            SizeDist__init__ SizeDist (Some data) b k None fixGaps
          else if is_str objectType "SizeDist_LS" then
            b <- lift (dict_get outDict "bins") ;;
            k <- lift (dict_get outDict "distributionType") ;;
            raise (TypeError
              "__init__() missing 1 required positional argument: 'layerbounderies'")
          else raise UnknownObjectType)
         (set_heap st (heap st ++ [ODataFrame (combine keys (map snd raw))]))).
Proof.
  intros Hf Hh.
  assert (Start : forall k : file -> nat * list (string * pyvalue) -> M loc,
    (f <- open_read fname ;;
     r <- lift (read_header py_eval f headerNo 0 []) ;; k f r) st = k f (i, outDict) st).
  { intros k. unfold bind at 1. unfold open_read at 1. rewrite Hf.
    unfold bind at 1. unfold lift at 1. rewrite Hh. reflexivity. }
  unfold read_distribution_csv. split; [|split].
  - intros e He. rewrite Start. simpl fst. unfold bind at 1. unfold lift at 1.
    rewrite He. reflexivity.
  - intros raw e Hr He. rewrite Start. simpl fst. unfold bind at 1. unfold lift at 1.
    rewrite Hr. unfold bind at 1. unfold lift at 1. rewrite He. reflexivity.
  - intros raw keys Hr Hk Hl. rewrite Start. simpl fst. unfold bind at 1.
    unfold lift at 1. rewrite Hr. unfold bind at 1. unfold lift at 1. rewrite Hk.
    unfold bind at 1. unfold lift at 1. unfold set_index.
    replace (Nat.eqb (length keys) (length raw)) with true
      by (symmetry; now apply Nat.eqb_eq).
    unfold bind at 1. unfold alloc at 1. reflexivity.
Qed.


(** ** Instances *)


Lemma convert_same_kind_witness :
  exists st' d dl,
    _convert2otherDistribution 1%nat "dNdDp" false (sample_state "dNdDp") = (st', Ok d)
    /\ view (heap st') d
         (with_data (instance_of (get_object (sample_state "dNdDp") 1%nat)) dl)
         [(0, [Some 1; Some 2])]
    /\ (2 <= d)%nat /\ (2 <= dl)%nat /\ d <> 1%nat /\ dl <> 0%nat
    /\ firstn 2 (heap st') = heap (sample_state "dNdDp")
    /\ view (heap st') 1%nat (instance_of (get_object (sample_state "dNdDp") 1%nat))
         [(0, [Some 1; Some 2])].
Proof.
  refine (convert_same_kind (sample_state "dNdDp") 1%nat
            (instance_of (get_object (sample_state "dNdDp") 1%nat))
            [(0, [Some 1; Some 2])] false _).
  split; reflexivity.
Defined.

Lemma convert_calibration_witness :
  snd (_convert2otherDistribution 1%nat "dNdDp" false (sample_state "calibration"))
  = Raise (not_an_option "dNdDp").
Proof.
  refine (proj1 (convert_calibration (sample_state "calibration") 1%nat
                   (instance_of (get_object (sample_state "calibration") 1%nat))
                   [(0, [Some 1; Some 2])] false _ _) eq_refl "dNdDp" _).
  - split; reflexivity.
  - split; repeat constructor.
  - discriminate.
Defined.

(** C5, as stated: the error of a refused conversion names the requested
    kind and not the kind of the source. *)
Lemma calibration_error_names_one_kind :
  exists e,
    snd (_convert2otherDistribution 1%nat "dNdDp" false (sample_state "calibration"))
    = Raise e
    /\ mentions e "dNdDp" = true
    /\ mentions e "calibration" = false.
Proof.
  eexists. split; [vm_compute; reflexivity|]. split; reflexivity.
Qed.



Lemma SizeDist_LS_init_ignores_witness :
  exists st' self i' df',
    SizeDist_LS__init__ (Some 0%nat) sample_bins "dNdDp" None (Some [7; 7; 7]) false
      (mkState [ODataFrame gap_table] [] [])
    = (st', Ok self)
    /\ view (heap st') self i' df'
    /\ bincenters i' = bin_midpoints sample_bins
    /\ warnings st' = ["The dataset provided had 1 gaps"]
    /\ length df' = 12%nat.
Proof.
  destruct (proj2 (proj2 (SizeDist_LS_init_ignores (Some 0%nat) sample_bins "dNdDp" None
                            (Some [7; 7; 7]) false
                            (mkState [ODataFrame gap_table] [] [])))
              0%nat gap_table eq_refl eq_refl)
    as (st' & self & i' & df' & E & V & _ & Hb & _ & Hg).
  - repeat constructor.
  - exists st', self, i', df'. split; [exact E|]. split; [exact V|].
    split; [exact Hb|].
    destruct Hg as [Hw ->]; [discriminate|].
    split; [exact Hw | reflexivity].
Defined.



(** The snapshot of a layer series cannot be loaded: the loader calls the
    layer constructor without its boundaries. *)
Lemma snapshot_of_layer_series_not_loaded :
  let st := fst (two_layers [100; 200] [200; 300] empty_state) in
  let saved := fst (save_csv sample_repr sample_to_csv 1%nat "layers.csv" st) in
  snd (save_csv sample_repr sample_to_csv 1%nat "layers.csv" st) = Ok tt
  /\ snd (read_distribution_csv sample_eval sample_read_csv sample_to_datetime
            "layers.csv" false saved)
     = Raise (TypeError
         "__init__() missing 1 required positional argument: 'layerbounderies'").
Proof.
  split; vm_compute; reflexivity.
Qed.

(** ** Number concentrations *)

(** A conversion called on the working copy [d] returns a copy of that
    copy; seen from the source it is a working copy again. *)
Lemma triple_rebase n self i0 k df d t df' (m : M loc) :
  (forall n' dl,
     triple n' (fun h => (d < n')%nat
                         /\ view h d (with_distributionType (with_data i0 dl) k) df)
       m (returns_some (holds n' d (with_distributionType (with_data i0 dl) k) t df'))) ->
  triple n (holds n self i0 k df d) m (returns_some (holds n self i0 t df')).
Proof.
  intros H st Hn (Hs & Vs & Hd & dl & Hdl & Vd & Vf).
  pose proof (nth_error_lt _ _ _ Vd) as Ld.
  destruct (H (length (heap st)) dl st (Nat.le_refl _)
              (conj Ld (conj Vd Vf))) as [F (d' & E & Hh)].
  split; [apply (frozen_le n (length (heap st))); [exact Hn | exact F]|].
  exists d'. split; [exact E|].
  destruct Hh as (_ & _ & Hd' & dl' & Hdl' & Vd' & Vf').
  split; [exact Hs|]. split.
  { destruct F as [_ F]. rewrite F by lia. exact Vs. }
  split; [lia|]. exists dl'. split; [lia|]. split; [exact Vd' | exact Vf'].
Qed.

Lemma convert_to_nC fuel n self i0 df verbose :
  In (distributionType i0) axis_kinds -> frame_wf i0 df ->
  triple n (fun h => (self < n)%nat /\ view h self i0 df)
    (convert (S (S fuel)) self "numberConcentration" verbose)
    (returns_some (holds n self i0 "numberConcentration"
       (apply_op vmulq (binwidth i0)
          (apply_op (convert_value (distributionType i0) "dNdDp") (bincenters i0) df)))).
Proof.
  intros H1 [W1 W2]. rewrite convert_unfold.
  eapply triple_bind_some; [apply spec_copy | intros dist].
  eapply triple_bind_ok; [apply spec_get_distributionType|].
  assert (Inner : forall k, k = distributionType i0 ->
    triple n (holds n self i0 k df dist) (convert (S fuel) dist "dNdDp" false)
      (returns_some (holds n self i0 "dNdDp"
         (apply_op (convert_value k "dNdDp") (bincenters i0) df)))).
  { intros k ->. apply triple_rebase. intros n' dl.
    apply (convert_axis fuel n' dist
             (with_distributionType (with_data i0 dl) (distributionType i0)) df "dNdDp" false);
      simpl; auto. }
  apply In_axis_kinds in H1.
  repeat (destruct H1 as [H1|H1]); rewrite H1 in *;
  destruct verbose; repeat conv_step;
  (eapply triple_bind_some; [apply Inner; reflexivity | intros d']);
  repeat conv_step;
  first [ apply rows_len_apply_op2; assumption
        | apply triple_ret; intros h Hh; exists d'; split; [reflexivity | exact Hh] ].
Qed.

Lemma convert_from_nC fuel n self i0 df t verbose :
  distributionType i0 = "numberConcentration" -> In t axis_kinds -> frame_wf i0 df ->
  triple n (fun h => (self < n)%nat /\ view h self i0 df)
    (convert (S (S fuel)) self t verbose)
    (returns_some (holds n self i0 t
       (apply_op (convert_value "dNdDp" t) (bincenters i0)
          (apply_op vdivq (binwidth i0) df)))).
Proof.
  intros H1 H2 [W1 W2]. rewrite convert_unfold.
  eapply triple_bind_some; [apply spec_copy | intros dist].
  eapply triple_bind_ok; [apply spec_get_distributionType|].
  assert (Inner :
    triple n (holds n self i0 "dNdDp" (apply_op vdivq (binwidth i0) df) dist)
      (convert (S fuel) dist t false)
      (returns_some (holds n self i0 t
         (apply_op (convert_value "dNdDp" t) (bincenters i0)
            (apply_op vdivq (binwidth i0) df))))).
  { apply triple_rebase. intros n' dl.
    apply (convert_axis fuel n' dist
             (with_distributionType (with_data i0 dl) "dNdDp")
             (apply_op vdivq (binwidth i0) df) t false); simpl; auto.
    apply rows_len_apply_op2; assumption. }
  rewrite H1. apply In_axis_kinds in H2.
  repeat (destruct H2 as [H2|H2]); rewrite H2 in *;
  destruct verbose; repeat conv_step;
  (eapply triple_bind_some; [apply Inner | intros d']);
  repeat conv_step;
  (apply triple_ret; intros h Hh; exists d'; split; [reflexivity | exact Hh]).
Qed.

(** X1.  Conversion of a table of one of the six axis kinds to number
    concentrations: it succeeds on a table with one value per bin, and
    every value of the result is the value converted to [dNdDp] times the
    width of its bin.  The result is a new instance with the attributes
    of the source; the source keeps its rows. *)
Theorem to_numberConcentration st self i df verbose :
  view (heap st) self i df ->
  In (distributionType i) axis_kinds -> frame_wf i df ->
  exists st' d dl,
    _convert2otherDistribution self "numberConcentration" verbose st = (st', Ok d)
    /\ view (heap st') d
         (with_distributionType (with_data i dl) "numberConcentration")
         (apply_op vmulq (binwidth i)
            (apply_op (convert_value (distributionType i) "dNdDp") (bincenters i) df))
    /\ view (heap st') self i df /\ d <> self.
Proof.
  intros V H1 W. unfold _convert2otherDistribution. change recursion_limit with (S (S 998)).
  pose proof (nth_error_lt _ _ _ (proj1 V)) as Ls.
  pose proof (nth_error_lt _ _ _ (proj2 V)) as Ld.
  destruct (run_triple _ _ _ _ st
              (convert_to_nC 998 (length (heap st)) self i df verbose H1 W))
    as (st' & r & E & F & d & -> & Hd); auto.
  destruct (holds_view _ _ _ _ _ _ _ Hd) as (dl & V' & Hd' & _).
  exists st', d, dl. split; [exact E|]. split; [exact V'|]. split; [|lia].
  destruct F as [_ F]. destruct V as [V1 V2]. split; rewrite F; auto.
Qed.

Lemma to_numberConcentration_witness :
  exists st' d dl,
    _convert2otherDistribution 1%nat "numberConcentration" false (sample_state "dNdlogDp")
    = (st', Ok d)
    /\ view (heap st') d
         (with_distributionType
            (with_data (instance_of (get_object (sample_state "dNdlogDp") 1%nat)) dl)
            "numberConcentration")
         (apply_op vmulq
            (binwidth (instance_of (get_object (sample_state "dNdlogDp") 1%nat)))
            (apply_op (convert_value "dNdlogDp" "dNdDp")
               (bincenters (instance_of (get_object (sample_state "dNdlogDp") 1%nat)))
               [(0, [Some 1; Some 2])]))
    /\ view (heap st') 1%nat (instance_of (get_object (sample_state "dNdlogDp") 1%nat))
         [(0, [Some 1; Some 2])]
    /\ d <> 1%nat.
Proof.
  refine (to_numberConcentration (sample_state "dNdlogDp") 1%nat
            (instance_of (get_object (sample_state "dNdlogDp") 1%nat))
            [(0, [Some 1; Some 2])] false _ _ _).
  - split; reflexivity.
  - simpl; auto.
  - split; repeat constructor.
Defined.

(** X2.  Conversion of a table of number concentrations to one of the six
    axis kinds: every value is divided by the width of its bin, which
    gives [dNdDp], and then converted to the target kind. *)
Theorem from_numberConcentration st self i df t verbose :
  view (heap st) self i df ->
  distributionType i = "numberConcentration" -> In t axis_kinds -> frame_wf i df ->
  exists st' d dl,
    _convert2otherDistribution self t verbose st = (st', Ok d)
    /\ view (heap st') d (with_distributionType (with_data i dl) t)
         (apply_op (convert_value "dNdDp" t) (bincenters i)
            (apply_op vdivq (binwidth i) df))
    /\ view (heap st') self i df /\ d <> self.
Proof.
  intros V H1 H2 W. unfold _convert2otherDistribution.
  change recursion_limit with (S (S 998)).
  pose proof (nth_error_lt _ _ _ (proj1 V)) as Ls.
  pose proof (nth_error_lt _ _ _ (proj2 V)) as Ld.
  destruct (run_triple _ _ _ _ st
              (convert_from_nC 998 (length (heap st)) self i df t verbose H1 H2 W))
    as (st' & r & E & F & d & -> & Hd); auto.
  destruct (holds_view _ _ _ _ _ _ _ Hd) as (dl & V' & Hd' & _).
  exists st', d, dl. split; [exact E|]. split; [exact V'|]. split; [|lia].
  destruct F as [_ F]. destruct V as [V1 V2]. split; rewrite F; auto.
Qed.

Lemma from_numberConcentration_witness :
  exists st' d dl,
    _convert2otherDistribution 1%nat "dVdlogDp" false (sample_state "numberConcentration")
    = (st', Ok d)
    /\ view (heap st') d
         (with_distributionType
            (with_data (instance_of (get_object (sample_state "numberConcentration") 1%nat))
               dl) "dVdlogDp")
         (apply_op (convert_value "dNdDp" "dVdlogDp")
            (bincenters (instance_of (get_object (sample_state "numberConcentration") 1%nat)))
            (apply_op vdivq
               (binwidth (instance_of (get_object (sample_state "numberConcentration") 1%nat)))
               [(0, [Some 1; Some 2])]))
    /\ view (heap st') 1%nat
         (instance_of (get_object (sample_state "numberConcentration") 1%nat))
         [(0, [Some 1; Some 2])]
    /\ d <> 1%nat.
Proof.
  refine (from_numberConcentration (sample_state "numberConcentration") 1%nat
            (instance_of (get_object (sample_state "numberConcentration") 1%nat))
            [(0, [Some 1; Some 2])] "dVdlogDp" false _ _ _ _).
  - split; reflexivity.
  - reflexivity.
  - simpl; auto 10.
  - split; repeat constructor.
Defined.

Lemma member_In s l : member s l = true <-> In s l.
Proof.
  unfold member. rewrite existsb_exists. split.
  - intros (x & Hx & E). apply String.eqb_eq in E. now subst.
  - intros H. exists s. split; [exact H | apply String.eqb_refl].
Qed.

Lemma member_not_In s l : ~ In s l -> member s l = false.
Proof.
  intros H. destruct (member s l) eqn:E; auto. apply member_In in E. contradiction.
Qed.

Lemma off_axis_groups t :
  ~ In t axis_kinds ->
  member t (distTypes "log normal") = false /\ member t (distTypes "natural") = false
  /\ member t (distTypes "number") = false /\ member t (distTypes "surface") = false
  /\ member t (distTypes "volume") = false.
Proof.
  intros H. repeat split; apply member_not_In; intros C; apply H;
    simpl in C; simpl; intuition auto.
Qed.

(** A target kind that is on neither axis: the second block refuses
    it. *)
Lemma convert_axis_unknown fuel self i0 df t verbose :
  In (distributionType i0) axis_kinds ->
  rows_len (length (bincenters i0)) df ->
  ~ In t axis_kinds -> String.eqb t "numberConcentration" = false ->
  call (fun h => view h self i0 df) (convert (S fuel) self t verbose)
    (refused (not_an_option t)).
Proof.
  intros H1 W Ht Enc n. rewrite convert_unfold. apply start_convert; intros dist.
  eapply triple_bind_ok; [apply spec_get_distributionType|].
  destruct (off_axis_groups t Ht) as (M1 & M2 & M3 & M4 & M5).
  assert (E0 : String.eqb (distributionType i0) t = false).
  { apply String.eqb_neq. intros E. apply Ht. now rewrite <- E. }
  rewrite E0, Enc, M1, M2, M3, M4, M5.
  apply In_axis_kinds in H1.
  repeat (destruct H1 as [H1|H1]); rewrite H1; repeat conv_step; conv_raise.
Qed.

Lemma convert_nC_unknown fuel self i0 df t verbose :
  distributionType i0 = "numberConcentration" -> frame_wf i0 df ->
  ~ In t axis_kinds -> String.eqb t "numberConcentration" = false ->
  call (fun h => view h self i0 df) (convert (S (S fuel)) self t verbose)
    (refused (not_an_option t)).
Proof.
  intros E [W1 W2] Ht Enc n. rewrite convert_unfold. apply start_convert; intros dist.
  eapply triple_bind_ok; [apply spec_get_distributionType|].
  rewrite E.
  assert (E0 : String.eqb "numberConcentration" t = false)
    by (rewrite String.eqb_sym; exact Enc).
  rewrite E0, Enc. repeat conv_step.
  eapply triple_bind_raises with (P' := fun _ => True); [|intros; reflexivity].
  eapply triple_conseq with (Q' := refused (not_an_option t));
    [ intros h Hh; exact Hh | | intros r h Hr; split; [exact Hr | exact I] ].
  apply triple_inner_call; intros dl.
  apply convert_axis_unknown; auto.
  - simpl; auto.
  - simpl. now apply rows_len_apply_op2.
Qed.

(** A source kind that is not convertible, asked for number
    concentrations: the inner conversion to [dNdDp] is refused. *)
Lemma convert_off_axis_nC fuel self i0 df verbose :
  ~ In (distributionType i0) convertible_kinds ->
  call (fun h => view h self i0 df)
    (convert (S (S fuel)) self "numberConcentration" verbose)
    (refused (not_an_option "dNdDp")).
Proof.
  intros Hk n. rewrite convert_unfold. apply start_convert; intros dist.
  eapply triple_bind_ok; [apply spec_get_distributionType|].
  assert (Ha : ~ In (distributionType i0) axis_kinds).
  { intros C. apply Hk. apply in_or_app; now left. }
  assert (En : String.eqb (distributionType i0) "numberConcentration" = false).
  { apply String.eqb_neq. intros C. apply Hk. apply in_or_app; right. now left. }
  destruct (off_axis_groups _ Ha) as (M1 & M2 & _).
  rewrite En. repeat conv_step.
  eapply triple_bind_raises with (P' := fun _ => True); [|intros; reflexivity].
  eapply triple_conseq with (Q' := refused (not_an_option "dNdDp"));
    [ intros h Hh; exact Hh | | intros r h Hr; split; [exact Hr | exact I] ].
  apply triple_inner_call; intros dl.
  apply convert_off_axis; simpl; auto.
  apply String.eqb_neq. intros C. apply Ha. rewrite C. simpl; auto.
Qed.

(** X5.  The outcome of a conversion of a table with one value per bin.  It
    returns a table when the target is the kind of the source, or when
    both kinds are among the six axis kinds and [numberConcentration].
    In every other case it raises the [ValueError] that names the target,
    or [dNdDp] when number concentrations were asked of a source that
    cannot be converted. *)
Theorem convert_outcome st self i df t verbose :
  view (heap st) self i df -> frame_wf i df ->
  (t = distributionType i
   \/ (In (distributionType i) convertible_kinds /\ In t convertible_kinds) ->
   exists d, snd (_convert2otherDistribution self t verbose st) = Ok d)
  /\ (t <> distributionType i ->
      ~ (In (distributionType i) convertible_kinds /\ In t convertible_kinds) ->
      snd (_convert2otherDistribution self t verbose st)
      = Raise (not_an_option
                 (if String.eqb t "numberConcentration" then "dNdDp" else t))).
Proof.
  intros V [W1 W2]. unfold _convert2otherDistribution.
  change recursion_limit with (S (S 998)).
  pose proof (nth_error_lt _ _ _ (proj1 V)) as Ls.
  assert (Same : exists d, snd (convert (S (S 998)) self (distributionType i) verbose st)
                           = Ok d).
  { destruct (run_call _ _ _ st (convert_same (S 998) self i df verbose) V)
      as (st' & r & E & _ & d & dl & -> & _). exists d. now rewrite E. }
  split.
  - intros [->|[Hk Ht]]; [exact Same|].
    apply in_app_or in Hk, Ht.
    destruct Hk as [Hk|[Hk|[]]], Ht as [Ht|[Ht|[]]].
    + destruct (run_triple _ _ _ _ st
                  (convert_axis (S 998) (length (heap st)) self i df t verbose Hk Ht W1))
        as (st' & r & E & _ & d & -> & _); auto.
      exists d. now rewrite E.
    + subst t.
      destruct (run_triple _ _ _ _ st
                  (convert_to_nC 998 (length (heap st)) self i df verbose Hk
                     (conj W1 W2)))
        as (st' & r & E & _ & d & -> & _); auto.
      exists d. now rewrite E.
    + destruct (run_triple _ _ _ _ st
                  (convert_from_nC 998 (length (heap st)) self i df t verbose
                     (eq_sym Hk) Ht (conj W1 W2)))
        as (st' & r & E & _ & d & -> & _); auto.
      exists d. now rewrite E.
    + rewrite <- Ht, Hk. exact Same.
  - intros Hne Hno.
    assert (Run : forall e,
      call (fun h => view h self i df) (convert (S (S 998)) self t verbose) (refused e) ->
      snd (convert (S (S 998)) self t verbose st) = Raise e).
    { intros e C. destruct (run_call _ _ _ st C V) as (st' & r & Er & _ & ->).
      now rewrite Er. }
    assert (Ekt : String.eqb (distributionType i) t = false)
      by (apply String.eqb_neq; congruence).
    destruct (String.eqb t "numberConcentration") eqn:Et.
    + apply String.eqb_eq in Et. subst t. apply Run.
      apply convert_off_axis_nC. intros Hk. apply Hno. split; [exact Hk|].
      apply in_or_app; right; now left.
    + assert (Hta : In (distributionType i) convertible_kinds -> ~ In t axis_kinds).
      { intros Hk C. apply Hno. split; [exact Hk | apply in_or_app; now left]. }
      apply Run.
      destruct (String.eqb (distributionType i) "numberConcentration") eqn:E1.
      { apply String.eqb_eq in E1. apply convert_nC_unknown; auto; [split; auto|].
        apply Hta. apply in_or_app; right. rewrite E1. now left. }
      destruct (member (distributionType i) (distTypes "log normal")) eqn:E2.
      { apply member3 in E2.
        assert (Hk : In (distributionType i) axis_kinds)
          by (unfold axis_kinds; simpl; intuition auto).
        apply convert_axis_unknown; auto. apply Hta. apply in_or_app; now left. }
      destruct (member (distributionType i) (distTypes "natural")) eqn:E3.
      { apply member3 in E3.
        assert (Hk : In (distributionType i) axis_kinds)
          by (unfold axis_kinds; simpl; intuition auto).
        apply convert_axis_unknown; auto. apply Hta. apply in_or_app; now left. }
      apply convert_off_axis; auto.
Qed.

Lemma convert_outcome_witness :
  snd (_convert2otherDistribution 1%nat "dNdAmp" false (sample_state "dSdDp"))
  = Raise (not_an_option "dNdAmp").
Proof.
  refine (proj2 (convert_outcome (sample_state "dSdDp") 1%nat
                   (instance_of (get_object (sample_state "dSdDp") 1%nat))
                   [(0, [Some 1; Some 2])] "dNdAmp" false _ _) _ _).
  - split; reflexivity.
  - split; repeat constructor.
  - discriminate.
  - intros [_ H]. simpl in H. intuition discriminate.
Defined.

(** ** Gap filling keeps the rows *)

(** ** The frame of the caller *)





(** ** Tables without gaps *)

Lemma np_median_bounds l lo hi m :
  Forall (fun x => lo <= x /\ x <= hi) l -> np_median l = Some m -> lo <= m /\ m <= hi.
Proof.
  intros F. unfold np_median.
  assert (Fs : Forall (fun x => lo <= x /\ x <= hi) (np_sort l)).
  { eapply Permutation_Forall; [symmetry; apply np_sort_perm | exact F]. }
  assert (N : forall j, (j < length (np_sort l))%nat ->
            lo <= nth j (np_sort l) 0 /\ nth j (np_sort l) 0 <= hi).
  { intros j Hj. rewrite Forall_forall in Fs. apply Fs. now apply nth_In. }
  destruct (length (np_sort l)) as [|n] eqn:L; [discriminate|].
  assert (H1 : (S n / 2 < S n)%nat) by (apply Nat.div_lt; lia).
  assert (H2 : (S n / 2 - 1 < S n)%nat)
    by (generalize dependent (S n / 2)%nat; intros; lia).
  destruct (Nat.even (S n)); intros E; injection E as <-;
    change (fst (Nat.divmod n 1 0 0)) with (S n / 2)%nat.
  - destruct (N _ H1) as [A1 A2]. destruct (N _ H2) as [B1 B2].
    split; [apply Qle_shift_div_l | apply Qle_shift_div_r]; try reflexivity; lra.
  - now apply N.
Qed.

Lemma np_where_none {A} (p : A -> bool) l :
  Forall (fun y => p y = false) l -> np_where p l = [].
Proof.
  intros F. unfold np_where. now rewrite filter_none.
Qed.

(** X8.  A table without gaps is left alone.  For a table with fewer than
    two rows, and for a table whose keys are evenly spaced with a step
    that is not negative, [fillGaps] with a scale of at least 1 returns
    without any change of the store, of the warnings or of the files. *)
Theorem fillGaps_regular st self i df scale step :
  view (heap st) self i df ->
  Forall (fun d => d == step) (deltas df) -> 0 <= step -> 1 <= scale ->
  fillGaps self scale st = (st, Ok tt) /\ gaps scale df = [].
Proof.
  intros V Hd Hstep Hs.
  assert (Hg : forall m, np_median (deltas df) = Some m ->
            np_where (fun d => Qltb (m * scale) d) (deltas df) = []).
  { intros m Em.
    assert (Fb : Forall (fun x => step <= x /\ x <= step) (deltas df)).
    { eapply Forall_impl; [|exact Hd]. intros x Hx; simpl in Hx. split; lra. }
    destruct (np_median_bounds _ _ _ _ Fb Em) as [M1 M2].
    apply np_where_none. eapply Forall_impl; [|exact Hd]. intros x Hx; simpl in Hx.
    unfold Qltb. apply negb_false_iff. apply Qle_bool_iff.
    assert (m == step) by lra.
    assert (step * 1 <= step * scale) by (apply Qmult_le_l_weak || nra).
    nra. }
  split.
  - unfold fillGaps. unfold bind at 1. rewrite (get_data_run _ _ _ _ V).
    fold (deltas df).
    destruct (np_median (deltas df)) as [m|] eqn:Em; [|reflexivity].
    rewrite (Hg m eq_refl). reflexivity.
  - unfold gaps. destruct (np_median (deltas df)) as [m|]; [now apply Hg | reflexivity].
Qed.

Lemma fillGaps_regular_witness :
  fillGaps 1%nat default_scale regular_state = (regular_state, Ok tt)
  /\ gaps default_scale regular_table = [].
Proof.
  refine (fillGaps_regular regular_state 1%nat
            (instance_of (get_object regular_state 1%nat))
            regular_table default_scale 1 _ _ _ _).
  - split; reflexivity.
  - repeat constructor.
  - discriminate.
  - discriminate.
Defined.

(** ** The geometry of the bins *)

(** ** A conversion keeps the attributes *)

Lemma version_copy n self i0 :
  triple n (fun h => nth_error h self = Some (OInstance i0)) (copy self)
    (converted i0 n (distributionType i0)).
Proof.
  intros st Hn Vs. unfold copy, bind, get_instance, get_frame, alloc.
  rewrite Vs. simpl.
  destruct (nth_error (heap st) (data i0)) as [[df| |]|]; simpl; auto using frozen_refl.
  split.
  - eapply frozen_trans; apply frozen_alloc; auto.
    rewrite length_app; simpl; lia.
  - rewrite length_app; simpl. split; [lia|].
    exists (length (heap st)), df. split; [lia|]. split.
    + replace (length (heap st) + 1)%nat with (length (heap st ++ [ODataFrame df]))
        by (rewrite length_app; reflexivity).
      apply nth_error_snoc_eq.
    + simpl. rewrite nth_error_snoc_lt by (rewrite length_app; simpl; lia).
      apply nth_error_snoc_eq.
Qed.

Lemma version_get_distributionType n i0 k d :
  triple n (version i0 n k d) (get_distributionType d) (returns k (version i0 n k d)).
Proof.
  apply triple_const. intros st (_ & dl & df & _ & [V _]).
  unfold get_distributionType, bind, get_instance. now rewrite V.
Qed.

Lemma version_rebind_data n i0 d df :
  triple n (some_version i0 n d) (rebind_data d df) (fun _ => some_version i0 n d).
Proof.
  intros st Hn (k & Hd & dl & df0 & Hdl & [V1 V2]).
  unfold rebind_data, bind, get_instance, alloc, store. rewrite V1. simpl.
  pose proof (nth_error_lt _ _ _ V1) as Ld.
  split.
  - eapply frozen_trans; [apply frozen_alloc; auto|].
    apply frozen_update; auto. rewrite length_app; simpl; lia.
  - exists k. split; auto. exists (length (heap st)), df. split; [lia|]. split.
    + apply nth_error_update_eq. rewrite length_app; simpl; lia.
    + simpl. rewrite nth_error_update_neq by lia. apply nth_error_snoc_eq.
Qed.

Lemma version_inplace_data n i0 d df :
  triple n (some_version i0 n d) (inplace_data d df) (fun _ => some_version i0 n d).
Proof.
  intros st Hn (k & Hd & dl & df0 & Hdl & [V1 V2]).
  unfold inplace_data, bind, get_instance, get_frame, store. rewrite V1. simpl.
  simpl in V2. rewrite V2. simpl.
  pose proof (nth_error_lt _ _ _ V2) as Ld.
  assert (dl <> d) by (intros E; rewrite E in V2; congruence).
  split.
  - apply frozen_update; auto.
  - exists k. split; auto. exists dl, df. split; [auto|]. split.
    + now rewrite nth_error_update_neq.
    + simpl. now apply nth_error_update_eq.
Qed.

Lemma version_set_distributionType n i0 d k :
  triple n (some_version i0 n d) (set_distributionType d k)
    (fun _ => version i0 n k d).
Proof.
  intros st Hn (k0 & Hd & dl & df0 & Hdl & [V1 V2]).
  unfold set_distributionType, bind, get_instance, store. rewrite V1. simpl.
  pose proof (nth_error_lt _ _ _ V1) as Ld. simpl in V2.
  assert (dl <> d) by (intros E; rewrite E in V2; congruence).
  split.
  - apply frozen_update; auto.
  - split; auto. exists dl, df0. split; [auto|]. split.
    + now apply nth_error_update_eq.
    + simpl. now rewrite nth_error_update_neq.
Qed.

Lemma version_set_distributionType_some n i0 d k :
  triple n (some_version i0 n d) (set_distributionType d k)
    (fun _ => some_version i0 n d).
Proof.
  eapply triple_conseq with (P' := some_version i0 n d)
    (Q' := fun _ => version i0 n k d);
    [auto | apply version_set_distributionType | intros r h H; exists k; exact H].
Qed.

Lemma version_data_assign {B} n i0 d (op : value -> B -> value) a :
  triple n (some_version i0 n d) (data_assign op d a) (fun _ => some_version i0 n d).
Proof.
  unfold data_assign.
  apply triple_seq; [apply triple_reads; auto using reads_get_data | intros df | auto].
  apply triple_seq; [apply triple_reads; auto using reads_lift | intros new | auto].
  apply version_rebind_data.
Qed.

Lemma version_data_inplace {B} n i0 d (op : value -> B -> value) a :
  triple n (some_version i0 n d) (data_inplace op d a) (fun _ => some_version i0 n d).
Proof.
  unfold data_inplace.
  apply triple_seq; [apply triple_reads; auto using reads_get_data | intros df | auto].
  apply triple_seq; [apply triple_reads; auto using reads_lift | intros new | auto].
  apply version_inplace_data.
Qed.

Lemma reads_step {A} (m : M A) :
  reads m -> forall n P, triple n P m (fun _ => P).
Proof. intros H n P. now apply triple_reads. Qed.

(** One step of a computation that works on a version of the source. *)
Ltac version_step :=
  match goal with
  | |- triple _ _ (if ?b then _ else _) _ => destruct b
  | |- triple _ _ (ret _) _ => apply reads_step, reads_ret
  | |- triple _ _ (raise _) _ => apply reads_step, reads_raise
  | |- triple _ _ (data_assign _ _ _) _ => apply version_data_assign
  | |- triple _ _ (data_inplace _ _ _) _ => apply version_data_inplace
  | |- triple _ _ (bind (_normal2log _) _) (fun _ => _) =>
      apply triple_seq; [ apply reads_step, reads_normal2log | intro | auto ]
  | |- triple _ _ (bind (_2Surface _) _) (fun _ => _) =>
      apply triple_seq; [ apply reads_step, reads_2Surface | intro | auto ]
  | |- triple _ _ (bind (_2Volume _) _) (fun _ => _) =>
      apply triple_seq; [ apply reads_step, reads_2Volume | intro | auto ]
  end.

Lemma convert_version fuel : forall n self distType verbose i0,
  triple n (fun h => nth_error h self = Some (OInstance i0))
    (convert fuel self distType verbose) (converted i0 n distType).
Proof.
  induction fuel as [|fuel IH]; intros n self distType verbose i0.
  - apply triple_raise; simpl; auto.
  - assert (Inner : forall d t v,
      triple n (some_version i0 n d) (convert fuel d t v) (converted_some i0 n)).
    { intros d t v st Hn (k & Hd & dl & df & Hdl & V).
      destruct (IH n d t v (with_distributionType (with_data i0 dl) k) st Hn (proj1 V))
        as [F R].
      split; [exact F|]. unfold converted, converted_some in *.
      destruct (snd (convert fuel d t v st)) as [d'|]; [|exact I].
      exists t. exact R. }
    rewrite convert_unfold.
    eapply triple_bind with (Q := converted i0 n (distributionType i0));
      [apply version_copy | intros dist; simpl | simpl; auto].
    eapply triple_bind_ok; [apply version_get_distributionType|].
    destruct (String.eqb (distributionType i0) distType) eqn:E.
    { apply String.eqb_eq in E. rewrite <- E.
      apply triple_seq; [| intros _; apply triple_ret; simpl; auto | simpl; auto].
      destruct verbose; [apply reads_step, reads_warn | apply reads_step, reads_ret]. }
    eapply triple_conseq with (P' := some_version i0 n dist)
      (Q' := converted i0 n distType);
      [intros h H; exists (distributionType i0); exact H | | auto].
    apply triple_seq; [repeat version_step | intros _ | simpl; auto].
    apply triple_seq; [repeat version_step | intros _ | simpl; auto].
    eapply triple_bind with (Q := converted_some i0 n); [| intros d | simpl; auto].
    + destruct (String.eqb distType "numberConcentration").
      * eapply triple_bind with (Q := converted_some i0 n);
          [ apply Inner | intros d; simpl | simpl; auto ].
        apply triple_seq; [apply reads_step, reads_get_instance | intros i | simpl; auto].
        apply triple_seq; [apply version_data_inplace | intros _ | simpl; auto].
        apply triple_ret; simpl; auto.
      * destruct (String.eqb (distributionType i0) "numberConcentration").
        -- apply triple_seq;
             [apply reads_step, reads_get_instance | intros i | simpl; auto].
           apply triple_seq; [apply version_data_assign | intros _ | simpl; auto].
           apply triple_seq;
             [apply version_set_distributionType_some | intros _ | simpl; auto].
           apply Inner.
        -- apply triple_ret; simpl; auto.
    + simpl.
      eapply triple_bind with (Q := fun _ => version i0 n distType d);
        [apply version_set_distributionType | intros _ | simpl; auto].
      apply triple_ret; simpl; auto.
Qed.

Lemma convert_version_run st self i t verbose st' d :
  nth_error (heap st) self = Some (OInstance i) ->
  _convert2otherDistribution self t verbose st = (st', Ok d) ->
  exists dl df,
    view (heap st') d (with_distributionType (with_data i dl) t) df
    /\ (length (heap st) <= d)%nat /\ (length (heap st) <= dl)%nat.
Proof.
  unfold _convert2otherDistribution. generalize recursion_limit; intros fuel Hs E.
  destruct (convert_version fuel (length (heap st)) self t verbose i st
              (Nat.le_refl _) Hs) as [_ R].
  rewrite E in R. simpl in R. destruct R as (Hd & dl & df & Hdl & V).
  exists dl, df. auto.
Qed.

(** X6.  A conversion that returns, whatever the kinds and the frame, returns
    a new instance of the kind that was asked for, with a frame of its
    own; its class, bin edges, bin centers, bin widths and layer
    attributes are those of the source. *)
Theorem convert_keeps_attributes st self i t verbose st' d :
  nth_error (heap st) self = Some (OInstance i) ->
  _convert2otherDistribution self t verbose st = (st', Ok d) ->
  exists i' df',
    view (heap st') d i' df'
    /\ distributionType i' = t
    /\ cls i' = cls i /\ bins i' = bins i
    /\ bincenters i' = bincenters i /\ binwidth i' = binwidth i
    /\ layerbounderies i' = layerbounderies i /\ layercenters i' = layercenters i
    /\ (length (heap st) <= d)%nat /\ (length (heap st) <= data i')%nat.
Proof.
  intros Hs E.
  destruct (convert_version_run st self i t verbose st' d Hs E) as (dl & df & V & Hd & Hdl).
  exists (with_distributionType (with_data i dl) t), df.
  split; [exact V|]. simpl. repeat split; auto.
Qed.

Lemma convert_keeps_attributes_witness :
  exists i' df',
    view (heap (fst (_convert2otherDistribution 1%nat "dVdDp" false
                       one_layer_state)))
         10%nat i' df'
    /\ distributionType i' = "dVdDp"
    /\ cls i' = SizeDist_LS
    /\ layerbounderies i' = Some (Arr2 [(100, 200)]).
Proof.
  destruct (convert_keeps_attributes one_layer_state 1%nat
              (instance_of (get_object one_layer_state 1%nat)) "dVdDp" false
              (fst (_convert2otherDistribution 1%nat "dVdDp" false one_layer_state))
              10%nat)
    as (i' & df' & V & Hk & Hc & _ & _ & _ & Hl & _).
  - reflexivity.
  - vm_compute. reflexivity.
  - exists i', df'. split; [exact V|]. split; [exact Hk|].
    split; [exact Hc | exact Hl].
Defined.

(** ** Layers that are accepted, and calls that fail half-way *)

(** What the layer constructor leaves at the reference it returns, when
    it was given layer edges. *)
Lemma LS_init_edges data edges k lb bc fg st st0 host :
  SizeDist_LS__init__ data edges k (Some lb) bc fg st = (st0, Ok host) ->
  exists i,
    nth_error (heap st0) host = Some (OInstance i)
    /\ layerbounderies i = Some (Arr1 lb)
    /\ layercenters i = Some (bin_midpoints lb).
Proof.
  unfold SizeDist_LS__init__. unfold bind at 1.
  destruct (SizeDist__init__ SizeDist_LS data edges k None true st) as [st1 [self|e]];
    [|discriminate].
  unfold bind at 1. unfold get_instance.
  destruct (nth_error (heap st1) self) as [[ | |i]|] eqn:Hs; try discriminate.
  unfold bind, store, ret. intros E. injection E as <- <-.
  eexists. split; [simpl; apply nth_error_update_eq; eapply nth_error_lt; eauto|].
  split; reflexivity.
Qed.

Lemma convert_leaves st sd k verbose l :
  (l < length (heap st))%nat ->
  nth_error (heap (fst (_convert2otherDistribution sd k verbose st))) l
  = nth_error (heap st) l.
Proof.
  intros Hl. unfold _convert2otherDistribution. generalize recursion_limit; intros fuel.
  destruct (convert_frame fuel (length (heap st)) sd k verbose st (Nat.le_refl _) I)
    as [[_ F] _].
  now apply F.
Qed.

(** X14.  A layer series that was constructed with layer edges accepts no
    layer: [add_layer] fails whatever the table and the pair, and when
    the pair has two entries and the conversion of the table succeeds, it
    fails because the edges are a one-dimensional array. *)
Theorem add_layer_after_edges data edges k lb bc fg st st0 host sd b :
  SizeDist_LS__init__ data edges k (Some lb) bc fg st = (st0, Ok host) ->
  (exists e, snd (add_layer host sd b st0) = Raise e)
  /\ forall low high i st1 d1,
       b = [low; high] ->
       nth_error (heap st0) host = Some (OInstance i) ->
       _convert2otherDistribution sd (distributionType i) false st0 = (st1, Ok d1) ->
       add_layer host sd b st0
       = (st1, Raise (ValueError
                        "all the input arrays must have same number of dimensions")).
Proof.
  intros Hinit.
  destruct (LS_init_edges _ _ _ _ _ _ _ _ _ Hinit) as (i & Hs & Hlb & _).
  pose proof (nth_error_lt _ _ _ Hs) as Ls.
  assert (Run : forall low high,
    add_layer host sd [low; high] st0
    = match _convert2otherDistribution sd (distributionType i) false st0 with
      | (st1, Ok _) =>
        (st1, Raise (ValueError
                       "all the input arrays must have same number of dimensions"))
      | (st1, Raise e) => (st1, Raise e)
      end).
  { intros low high. unfold add_layer. unfold bind at 1.
    unfold get_distributionType, bind at 1, get_instance. rewrite Hs. unfold ret at 1.
    unfold bind at 1.
    pose proof (convert_leaves st0 sd (distributionType i) false host Ls) as Hk.
    destruct (_convert2otherDistribution sd (distributionType i) false st0)
      as [st1 [d1|e]]; [|reflexivity].
    simpl in Hk. unfold bind at 1. unfold get_layerbounderies, bind at 1, get_instance.
    rewrite Hk, Hs, Hlb. reflexivity. }
  split.
  - destruct b as [|low [|high [|x b]]]; try (eexists; reflexivity).
    rewrite Run.
    destruct (_convert2otherDistribution sd (distributionType i) false st0)
      as [st1 [d1|e]]; eexists; reflexivity.
  - intros low high i' st1 d1 -> Hs' Hc. rewrite Hs in Hs'. injection Hs' as <-.
    rewrite Run, Hc. reflexivity.
Qed.

(** The calls of [add_layer] up to the check of the new pair. *)
Lemma add_layer_start st self sd i df lb low high st1 d1 :
  view (heap st) self i df ->
  layerbounderies i = Some (Arr2 lb) ->
  _convert2otherDistribution sd (distributionType i) false st = (st1, Ok d1) ->
  add_layer self sd [low; high] st
  = (match index_difference (np_unique (flatten (lb ++ [(low, high)]))) low high with
     | [] => raise (IndexError "index 0 is out of bounds for axis 0 with size 0")
     | d0 :: _ =>
       if negb (Z.eqb d0 1) then raise OverlappingLayer
       else
         i <- get_instance self ;;
         store self (OInstance (with_layerbounderies i
                       (Arr2 (sort_axis0 (lb ++ [(low, high)]))))) ;;;
         lcs <- get_layercenters self ;;
         i <- get_instance self ;;
         store self (OInstance (with_layercenters i
                       (np_sort (lcs ++ [(low + high) / 2])))) ;;;
         new <- get_data d1 ;;
         match new with
         | [r] => inplace_data d1 [((low + high) / 2, snd r)]
         | _ => raise (ValueError "Length mismatch")
         end ;;;
         cur <- get_data self ;;
         new <- get_data d1 ;;
         rebind_data self (sort_index (cur ++ new))
     end) st1.
Proof.
  intros V Hlb Hconv.
  destruct (convert_result _ _ _ _ _ _ _ _ _ Hconv V) as (V1 & _).
  unfold add_layer. unfold bind at 1.
  rewrite (get_distributionType_run _ _ _ _ V).
  unfold bind at 1. rewrite Hconv.
  unfold bind at 1. unfold get_layerbounderies at 1. unfold bind at 1.
  rewrite (get_instance_run _ _ _ _ V1). rewrite Hlb.
  unfold ret at 1. unfold bind at 1. unfold ret at 1. reflexivity.
Qed.

Lemma adjacent_index_difference lb low high :
  adjacent (np_unique (flatten (lb ++ [(low, high)]))) low high ->
  exists rest,
    index_difference (np_unique (flatten (lb ++ [(low, high)]))) low high = 1%Z :: rest.
Proof.
  intros A. set (U := np_unique (flatten (lb ++ [(low, high)]))) in *.
  assert (HlU : InA Qeq low U).
  { apply np_unique_InA. rewrite flatten_app. apply InA_alt. exists low.
    split; [reflexivity|]. apply in_or_app; right; now left. }
  assert (HhU : InA Qeq high U).
  { apply np_unique_InA. rewrite flatten_app. apply InA_alt. exists high.
    split; [reflexivity|]. apply in_or_app; right; right; now left. }
  destruct (index_difference_spec U low high (np_unique_strict _) HlU HhU)
    as (d0 & Ed & Hd0).
  apply Hd0 in A. subst d0. exists []. exact Ed.
Qed.

(** X13.  A call of [add_layer] that fails half-way.  When the converted
    incoming table does not have exactly one row, the call raises a
    [ValueError] after the new pair has passed the check: the host has
    then got the new boundaries and the new layer center but no new row,
    so that it has one layer center more than it had and the rows it
    had. *)
Theorem add_layer_fails_half_way st self sd i df lb lcs low high st1 d1 rows :
  view (heap st) self i df ->
  layerbounderies i = Some (Arr2 lb) -> layercenters i = Some lcs ->
  _convert2otherDistribution sd (distributionType i) false st = (st1, Ok d1) ->
  get_data d1 st1 = (st1, Ok rows) -> length rows <> 1%nat ->
  adjacent (np_unique (flatten (lb ++ [(low, high)]))) low high ->
  exists st',
    add_layer self sd [low; high] st = (st', Raise (ValueError "Length mismatch"))
    /\ view (heap st') self
         (with_layercenters
            (with_layerbounderies i (Arr2 (sort_axis0 (lb ++ [(low, high)]))))
            (np_sort (lcs ++ [(low + high) / 2])))
         df
    /\ length (np_sort (lcs ++ [(low + high) / 2])) = S (length lcs).
Proof.
  intros V Hlb Hlcs Hconv Hget Hrows Ha.
  rewrite (add_layer_start st self sd i df lb low high st1 d1 V Hlb Hconv).
  destruct (adjacent_index_difference lb low high Ha) as (rest & ->).
  change (negb (1 =? 1)%Z) with false. cbv iota.
  destruct (convert_result _ _ _ _ _ _ _ _ _ Hconv V)
    as (V1 & Hd1 & i1 & df1 & Vd & Hi1).
  rewrite (get_data_run _ _ _ _ Vd) in Hget. injection Hget as ->.
  pose proof (nth_error_lt _ _ _ (proj1 V)) as Ls.
  set (c := (low + high) / 2).
  set (iA := with_layerbounderies i (Arr2 (sort_axis0 (lb ++ [(low, high)])))).
  set (iB := with_layercenters iA (np_sort (lcs ++ [c]))).
  assert (Nd : d1 <> self) by lia.
  assert (Nsd : self <> data i1) by lia.
  unfold bind at 1. rewrite (get_instance_run _ _ _ _ V1).
  unfold bind at 1. unfold store at 1. fold iA.
  set (st2 := set_heap st1 (update (heap st1) self (OInstance iA))).
  assert (V2 : view (heap st2) self iA df)
    by (apply (view_update_self _ _ i iA df V1); reflexivity).
  assert (Vd2 : view (heap st2) d1 i1 rows) by (apply view_update_other; auto).
  unfold bind at 1. unfold get_layercenters at 1. unfold bind at 1.
  rewrite (get_instance_run _ _ _ _ V2).
  replace (layercenters iA) with (Some lcs) by (symmetry; exact Hlcs).
  unfold ret at 1.
  unfold bind at 1. rewrite (get_instance_run _ _ _ _ V2).
  unfold bind at 1. unfold store at 1. fold iB.
  set (st3 := set_heap st2 (update (heap st2) self (OInstance iB))).
  assert (V3 : view (heap st3) self iB df)
    by (apply (view_update_self _ _ iA iB df V2); reflexivity).
  assert (Vd3 : view (heap st3) d1 i1 rows) by (apply view_update_other; auto).
  unfold bind at 1. rewrite (get_data_run _ _ _ _ Vd3).
  exists st3. split; [|split; [exact V3|]].
  - destruct rows as [|r [|r' rows]]; [reflexivity | now contradiction Hrows | reflexivity].
  - rewrite (Permutation_length (np_sort_perm _)), length_app. simpl. lia.
Qed.

Lemma add_layer_fails_half_way_witness :
  exists st',
    add_layer 1%nat 1%nat [200; 300] (fst (two_layers [100; 200] [300; 400] empty_state))
    = (st', Raise (ValueError "Length mismatch"))
    /\ length (np_sort ([(100 + 200) / 2; (300 + 400) / 2] ++ [(200 + 300) / 2]))
       = 3%nat.
Proof.
  pose (st := fst (two_layers [100; 200] [300; 400] empty_state)).
  pose (c := _convert2otherDistribution 1%nat "dNdDp" false st).
  destruct (add_layer_fails_half_way st 1%nat 1%nat
              (instance_of (get_object st 1%nat))
              (frame_of st (instance_of (get_object st 1%nat)))
              [(100, 200); (300, 400)] [(100 + 200) / 2; (300 + 400) / 2] 200 300
              (fst c) 13%nat
              (frame_of st (instance_of (get_object st 1%nat))))
    as (st' & E & _ & L).
  - vm_compute. split; reflexivity.
  - vm_compute. reflexivity.
  - vm_compute. reflexivity.
  - vm_compute. reflexivity.
  - vm_compute. reflexivity.
  - vm_compute. discriminate.
  - exists [100], 200, 300, [400]. vm_compute. repeat split; reflexivity.
  - exists st'. split; [exact E | exact L].
Defined.

(** X11.  [add_layer] accepts every layer that overlaps no layer of the host:
    when every layer of the host ends at or below the new one, or starts
    at or above it, the new pair passes the check. *)
Theorem add_layer_accepts_disjoint st self sd i df lb lcs low high st1 d1 r :
  view (heap st) self i df ->
  layerbounderies i = Some (Arr2 lb) -> layercenters i = Some lcs ->
  _convert2otherDistribution sd (distributionType i) false st = (st1, Ok d1) ->
  get_data d1 st1 = (st1, Ok [r]) ->
  low < high ->
  Forall (fun p => fst p <= snd p /\ (snd p <= low \/ high <= fst p)) lb ->
  exists st' dl,
    add_layer self sd [low; high] st = (st', Ok tt)
    /\ view (heap st') self (layer_added i lb lcs low high dl)
         (sort_index (df ++ [((low + high) / 2, snd r)])).
Proof.
  intros V Hlb Hlcs Hconv Hget Hlt Hdis.
  apply (proj2 (add_layer_run st self sd i df lb lcs low high st1 d1 r
                  V Hlb Hlcs Hconv Hget)).
  rewrite flatten_app. apply adjacent_between; [exact Hlt|].
  intros (v & Hv & H1 & H2). unfold flatten in Hv. apply in_flat_map in Hv.
  destruct Hv as (p & Hp & Hv). rewrite Forall_forall in Hdis.
  destruct (Hdis p Hp) as [Hle Hd]. simpl in Hv.
  destruct Hv as [<-|[<-|[]]]; destruct Hd; lra.
Qed.

Lemma add_layer_accepts_disjoint_witness :
  exists st' dl,
    add_layer 1%nat 8%nat [200; 300] one_layer_state = (st', Ok tt)
    /\ view (heap st') 1%nat
         (layer_added (instance_of (get_object one_layer_state 1%nat))
            [(100, 200)] [(100 + 200) / 2] 200 300 dl)
         (sort_index
            (frame_of one_layer_state (instance_of (get_object one_layer_state 1%nat))
             ++ [((200 + 300) / 2, [Some 7; Some 7])])).
Proof.
  pose (st := one_layer_state).
  pose (c := fst (_convert2otherDistribution 8%nat "dNdDp" false st)).
  refine (add_layer_accepts_disjoint st 1%nat 8%nat (instance_of (get_object st 1%nat))
            (frame_of st (instance_of (get_object st 1%nat)))
            [(100, 200)] [(100 + 200) / 2] 200 300 c 10%nat (0, [Some 7; Some 7])
            _ _ _ _ _ _ _).
  - vm_compute. split; reflexivity.
  - vm_compute. reflexivity.
  - vm_compute. reflexivity.
  - vm_compute. reflexivity.
  - vm_compute. reflexivity.
  - reflexivity.
  - repeat constructor; simpl; discriminate.
Defined.

(** X12.  [add_layer] takes the pair in ascending order only: a pair whose
    first entry is not below the second is refused with the message of
    an overlapping layer, whatever the layers of the host, and the host
    is left as it was. *)
Theorem add_layer_refuses_unordered st self sd i df lb low high st1 d1 :
  view (heap st) self i df ->
  layerbounderies i = Some (Arr2 lb) ->
  _convert2otherDistribution sd (distributionType i) false st = (st1, Ok d1) ->
  high <= low ->
  add_layer self sd [low; high] st = (st1, Raise OverlappingLayer)
  /\ view (heap st1) self i df.
Proof.
  intros V Hlb Hconv Hle.
  rewrite (add_layer_start st self sd i df lb low high st1 d1 V Hlb Hconv).
  split; [|exact (proj1 (convert_result _ _ _ _ _ _ _ _ _ Hconv V))].
  set (U := np_unique (flatten (lb ++ [(low, high)]))).
  assert (HlU : InA Qeq low U).
  { apply np_unique_InA. rewrite flatten_app. apply InA_alt. exists low.
    split; [reflexivity|]. apply in_or_app; right; now left. }
  assert (HhU : InA Qeq high U).
  { apply np_unique_InA. rewrite flatten_app. apply InA_alt. exists high.
    split; [reflexivity|]. apply in_or_app; right; right; now left. }
  destruct (index_difference_spec U low high (np_unique_strict _) HlU HhU)
    as (d0 & -> & Hd0).
  destruct (Z.eqb d0 1) eqn:E; [|reflexivity].
  apply Z.eqb_eq in E. apply Hd0 in E.
  apply (adjacent_lt U low high (np_unique_strict _)) in E. lra.
Qed.

Lemma add_layer_refuses_unordered_witness :
  add_layer 1%nat 8%nat [300; 200] one_layer_state
  = (fst (_convert2otherDistribution 8%nat "dNdDp" false one_layer_state),
     Raise OverlappingLayer)
  /\ view (heap (fst (_convert2otherDistribution 8%nat "dNdDp" false one_layer_state)))
       1%nat (instance_of (get_object one_layer_state 1%nat))
       (frame_of one_layer_state (instance_of (get_object one_layer_state 1%nat))).
Proof.
  refine (add_layer_refuses_unordered one_layer_state 1%nat 8%nat
            (instance_of (get_object one_layer_state 1%nat))
            (frame_of one_layer_state (instance_of (get_object one_layer_state 1%nat)))
            [(100, 200)] 300 200 _ 10%nat _ _ _ _).
  - vm_compute. split; reflexivity.
  - vm_compute. reflexivity.
  - vm_compute. reflexivity.
  - discriminate.
Defined.

(** ** Optical depth *)

Lemma get_coefficients_run st cs cn a b :
  nth_error (heap st) cs = Some (OSeries a) ->
  nth_error (heap st) cn = Some (OSeries b) ->
  cs <> cn -> length b = length a ->
  _get_coefficients cs cn st
  = (set_heap st
       (update (update (heap st) cs (OSeries (rescale a))) cn
          (OSeries (map (fun x => vmulq x 1000000) b))
        ++ [OSeries (map2 vmul (map (fun x => vmulq x 1000000) b) (rescale a))]),
     Ok (length (heap st))).
Proof.
  intros Ha Hb N L.
  pose proof (nth_error_lt _ _ _ Ha) as La. pose proof (nth_error_lt _ _ _ Hb) as Lb.
  unfold _get_coefficients.
  unfold bind at 1. unfold get_series at 1. rewrite Ha.
  unfold bind at 1. unfold store at 1.
  unfold bind at 1. unfold get_series at 1. simpl heap.
  rewrite nth_error_update_neq by exact N. rewrite Hb.
  unfold bind at 1. unfold store at 1.
  unfold bind at 1. unfold get_series at 1. simpl heap.
  rewrite nth_error_update_eq by (rewrite length_update; exact Lb).
  unfold bind at 1. unfold get_series at 1. simpl heap.
  rewrite nth_error_update_neq by auto.
  rewrite nth_error_update_eq by exact La.
  fold (rescale a).
  replace (Nat.eqb _ _) with true
    by (symmetry; apply Nat.eqb_eq; unfold rescale; rewrite !length_map; exact L).
  unfold alloc. simpl. rewrite !length_update. reflexivity.
Qed.

Lemma loc_getitem_apply_op {B} (op : value -> B -> value) a df k row :
  loc_getitem df k = Ok row ->
  loc_getitem (apply_op op a df) k = Ok (map2 op row a).
Proof.
  unfold loc_getitem, apply_op.
  assert (E : filter (fun r => Qeq_bool (fst r) k)
                (map (fun r => (fst r, map2 op (snd r) a)) df)
              = map (fun r => (fst r, map2 op (snd r) a))
                  (filter (fun r => Qeq_bool (fst r) k) df)).
  { induction df as [|r df IH]; simpl; auto.
    destruct (Qeq_bool (fst r) k); simpl; now rewrite IH. }
  rewrite E.
  destruct (filter (fun r => Qeq_bool (fst r) k) df) as [|r [|r' t]]; simpl;
    try discriminate.
  intros H. injection H as <-. reflexivity.
Qed.

Lemma loc_getitem_In df k row : loc_getitem df k = Ok row -> exists r, In r df /\ snd r = row.
Proof.
  unfold loc_getitem.
  destruct (filter (fun r => Qeq_bool (fst r) k) df) as [|r [|r' t]] eqn:E;
    try discriminate.
  intros H. injection H as <-. exists r. split; [|reflexivity].
  assert (Hin : In r (filter (fun r => Qeq_bool (fst r) k) df)) by (rewrite E; now left).
  apply filter_In in Hin. tauto.
Qed.

Lemma iter_shift {A} (f : A -> A) j x : Nat.iter (S j) f x = Nat.iter j f (f x).
Proof. induction j as [|j IH]; simpl in *; auto. now rewrite IH. Qed.

Lemma perform_Miecalculations_run (refractive_index : Type)
    (bhmie_hagen : value -> refractive_index -> Q -> Q -> mie_values) st diam wl n :
  exists st' mie,
    _perform_Miecalculations refractive_index bhmie_hagen diam wl n st = (st', Ok mie)
    /\ nth_error (heap st') (extinction_crossection mie)
       = Some (OSeries (map values_extinction_crosssection
                          (map (fun d => bhmie_hagen (qdiv (2 * np_pi * (d / 2)) wl)
                                           n 100 d) diam)))
    /\ (length (heap st) <= extinction_crossection mie)%nat
    /\ forall l, (l < length (heap st))%nat -> nth_error (heap st') l = nth_error (heap st) l.
Proof.
  unfold _perform_Miecalculations, bind, alloc, ret. simpl.
  eexists. eexists. split; [reflexivity|]. simpl.
  repeat rewrite length_app. simpl. split; [|split; [lia|]].
  - rewrite nth_error_app1 by (repeat rewrite length_app; simpl; lia).
    rewrite nth_error_app1 by (repeat rewrite length_app; simpl; lia).
    replace (length (heap st) + 1 + 1 + 1)%nat
      with (length (((heap st ++ [OSeries (map values_extinction_efficiency
              (map (fun d => bhmie_hagen (qdiv (2 * np_pi * (d / 2)) wl) n 100 d) diam))])
              ++ [OSeries (map values_scattering_efficiency
              (map (fun d => bhmie_hagen (qdiv (2 * np_pi * (d / 2)) wl) n 100 d) diam))])
              ++ [OSeries (map (fun v => vsub (values_extinction_efficiency v)
                                              (values_scattering_efficiency v))
              (map (fun d => bhmie_hagen (qdiv (2 * np_pi * (d / 2)) wl) n 100 d) diam))]))
      by (repeat rewrite length_app; simpl; lia).
    apply nth_error_snoc_eq.
  - intros l Hl. repeat (rewrite nth_error_app1 by (repeat rewrite length_app; simpl; lia)).
    reflexivity.
Qed.

Section Loop.

Variables (sdls : loc) (i_s : instance) (dfn : DataFrame) (mie : mie_frame)
  (lb : list (Q * Q)).
Hypothesis Hlb : layerbounderies i_s = Some (Arr2 lb).

Lemma AOD_loop_run : forall lcs j0 st cur,
  view (heap st) sdls i_s dfn ->
  nth_error (heap st) (extinction_crossection mie) = Some (OSeries cur) ->
  extinction_crossection mie <> sdls -> extinction_crossection mie <> data i_s ->
  (forall lc, In lc lcs ->
     exists row, loc_getitem dfn lc = Ok row /\ length row = length cur) ->
  (j0 + length lcs <= length lb)%nat ->
  exists st' aod ext,
    AOD_loop sdls mie j0 lcs st = (st', Ok (aod, ext))
    /\ length aod = length lcs /\ length ext = length lcs
    /\ forall j lc row low high,
         nth_error lcs j = Some lc -> loc_getitem dfn lc = Ok row ->
         nth_error lb (j0 + j) = Some (low, high) ->
         nth_error ext j = Some (lc, layer_coefficients row cur j)
         /\ nth_error aod j
            = Some (lc, np_sum (map (fun x => vmulq x (high - low))
                                  (layer_coefficients row cur j))).
Proof.
  induction lcs as [|lc rest IH]; intros j0 st cur V Hc N1 N2 Hrows Hlen.
  - exists st, [], []. split; [reflexivity|]. split; [reflexivity|].
    split; [reflexivity|]. intros [|j]; discriminate.
  - simpl AOD_loop. set (ecs := extinction_crossection mie) in *.
    destruct (Hrows lc (or_introl eq_refl)) as (row & Hrow & Lrow).
    pose proof (nth_error_lt _ _ _ (proj1 V)) as Ls.
    pose proof (nth_error_lt _ _ _ (proj2 V)) as Ld.
    pose proof (nth_error_lt _ _ _ Hc) as Le.
    unfold bind at 1. rewrite (get_data_run _ _ _ _ V).
    unfold bind at 1. unfold lift at 1. rewrite Hrow.
    unfold bind at 1. unfold alloc at 1.
    set (st1 := set_heap st (heap st ++ [OSeries row])).
    unfold bind at 1.
    rewrite (get_coefficients_run st1 ecs (length (heap st)) cur row);
      [ | simpl; rewrite nth_error_snoc_lt; auto
        | simpl; apply nth_error_snoc_eq
        | lia
        | exact Lrow ].
    set (A := OSeries (rescale cur)).
    set (B := OSeries (map (fun x => vmulq x 1000000) row)).
    set (C := map2 vmul (map (fun x => vmulq x 1000000) row) (rescale cur)).
    simpl heap.
    set (h4 := update (update (heap st ++ [OSeries row]) ecs A) (length (heap st)) B
               ++ [OSeries C]).
    set (st4 := set_heap st1 h4).
    assert (Keep : forall l, (l < length (heap st))%nat -> l <> ecs ->
              nth_error h4 l = nth_error (heap st) l).
    { intros l Hl Hne. unfold h4.
      rewrite nth_error_app1 by (rewrite !length_update, length_app; simpl; lia).
      rewrite nth_error_update_neq by lia.
      rewrite nth_error_update_neq by auto.
      now apply nth_error_snoc_lt. }
    assert (Hc4 : nth_error h4 ecs = Some A).
    { unfold h4.
      rewrite nth_error_app1 by (rewrite !length_update, length_app; simpl; lia).
      rewrite nth_error_update_neq by lia.
      apply nth_error_update_eq. rewrite length_app; simpl; lia. }
    assert (HC : nth_error h4 (length (heap st ++ [OSeries row])) = Some (OSeries C)).
    { unfold h4.
      replace (length (heap st ++ [OSeries row]))
        with (length (update (update (heap st ++ [OSeries row]) ecs A)
                        (length (heap st)) B))
        by (rewrite !length_update; reflexivity).
      apply nth_error_snoc_eq. }
    assert (V4 : view (heap st4) sdls i_s dfn).
    { destruct V as [V1 V2]. split; simpl; rewrite Keep; auto. }
    unfold bind at 1. unfold get_layerbounderies at 1. unfold bind at 1.
    rewrite (get_instance_run _ _ _ _ V4). rewrite Hlb. unfold ret at 1.
    destruct (nth_error lb j0) as [[low0 high0]|] eqn:Hj0.
    2:{ apply nth_error_None in Hj0. simpl in Hlen. lia. }
    unfold bind at 1. unfold lift at 1. unfold layerThickness. rewrite Hj0.
    unfold bind at 1. unfold get_series at 1. simpl heap. rewrite HC.
    destruct (IH (S j0) st4 (rescale cur)) as (st' & aod & ext & E & La & Lx & Hnth);
      [ exact V4 | exact Hc4 | exact N1 | exact N2 | | simpl in Hlen; lia | ].
    { intros lc' Hin. destruct (Hrows lc' (or_intror Hin)) as (row' & H1 & H2).
      exists row'. split; [exact H1|]. unfold rescale. now rewrite length_map. }
    unfold bind at 1. rewrite E. unfold ret. simpl fst. simpl snd.
    eexists. eexists. eexists. split; [reflexivity|].
    split; [simpl; now rewrite La|]. split; [simpl; now rewrite Lx|].
    intros [|j] lc' row' low high Hl Hr Hb.
    + simpl in Hl. injection Hl as <-. rewrite Hrow in Hr. injection Hr as <-.
      rewrite Nat.add_0_r in Hb. rewrite Hj0 in Hb. injection Hb as <- <-.
      split; reflexivity.
    + simpl in Hl. replace (j0 + S j)%nat with (S j0 + j)%nat in Hb by lia.
      destruct (Hnth j lc' row' low high Hl Hr Hb) as [H1 H2].
      unfold layer_coefficients in *. rewrite iter_shift.
      split; [exact H1 | exact H2].
Qed.

End Loop.

(** X15.  [calculate_AOD] on a layer series of one of the six axis kinds that
    [add_layer] has built, with a row for every layer center.  It
    returns one row of extinction coefficients and one optical depth for
    every layer.  For the layer at position [j], the coefficient of a bin
    is the number concentration of the bin times 1e6 times the
    cross-section of the bin times 1e-12 to the power [j + 1]: the
    cross-sections are rescaled again for every layer.  The optical depth
    of the layer is the sum of these coefficients times the thickness of
    the layer. *)
Theorem AOD_layers (refractive_index : Type)
    (bhmie_hagen : value -> refractive_index -> Q -> Q -> mie_values)
    st self i df lb lcs wl n :
  view (heap st) self i df ->
  In (distributionType i) axis_kinds -> frame_wf i df ->
  layerbounderies i = Some (Arr2 lb) -> layercenters i = Some lcs ->
  (length lcs <= length lb)%nat ->
  (forall lc, In lc lcs -> exists row, loc_getitem df lc = Ok row) ->
  exists st' r,
    calculate_AOD refractive_index bhmie_hagen self wl n st = (st', Ok r)
    /\ length (extCoeffPerLayer r) = length lcs
    /\ length (AOD_layer r) = length lcs
    /\ AOD r = np_sum (map snd (AOD_layer r))
    /\ forall j lc row low high,
         nth_error lcs j = Some lc -> loc_getitem df lc = Ok row ->
         nth_error lb j = Some (low, high) ->
         nth_error (extCoeffPerLayer r) j
         = Some (lc, layer_coefficients (number_row i row)
                       (mie_crosssections bhmie_hagen i wl n) j)
         /\ nth_error (AOD_layer r) j
            = Some (lc, np_sum (map (fun x => vmulq x (high - low))
                                  (layer_coefficients (number_row i row)
                                     (mie_crosssections bhmie_hagen i wl n) j))).
Proof.
  intros V Hk W Hlb Hlcs Hlen Hrows.
  unfold calculate_AOD, convert2numberconcentration, _convert2otherDistribution.
  change recursion_limit with (S (S 998)).
  pose proof (nth_error_lt _ _ _ (proj1 V)) as Ls.
  destruct (run_triple _ _ _ _ st
              (convert_to_nC 998 (length (heap st)) self i df false Hk W))
    as (st1 & r1 & E1 & F1 & sdls & -> & Hd1); auto.
  destruct (holds_view _ _ _ _ _ _ _ Hd1) as (dl & V1 & Hs1 & Hdl).
  set (i_s := with_distributionType (with_data i dl) "numberConcentration") in *.
  set (dfn := apply_op vmulq (binwidth i)
                (apply_op (convert_value (distributionType i) "dNdDp")
                   (bincenters i) df)) in *.
  unfold bind at 1. rewrite E1.
  unfold bind at 1. rewrite (get_instance_run _ _ _ _ V1).
  unfold bind at 1.
  destruct (perform_Miecalculations_run refractive_index bhmie_hagen st1
              (map (fun c => c / 1000) (bincenters i_s)) (wl / 1000) n)
    as (st2 & mie & E2 & Hcs & Lcs & Keep).
  rewrite E2.
  pose proof (nth_error_lt _ _ _ (proj1 V1)) as Lsd.
  pose proof (nth_error_lt _ _ _ (proj2 V1)) as Ldd.
  assert (V2 : view (heap st2) sdls i_s dfn).
  { destruct V1 as [A B]. split; rewrite Keep; auto. }
  unfold bind at 1. unfold get_layercenters at 1. unfold bind at 1.
  rewrite (get_instance_run _ _ _ _ V2).
  replace (layercenters i_s) with (Some lcs) by (symmetry; exact Hlcs).
  unfold ret at 1.
  destruct W as [W1 W2].
  assert (Lrow : forall row r0, In r0 df -> snd r0 = row ->
            length (number_row i row) = length (bincenters i)).
  { intros row r0 Hin <-. unfold number_row.
    unfold rows_len in W1, W2. rewrite Forall_forall in W1, W2.
    pose proof (W1 r0 Hin) as L1. pose proof (W2 r0 Hin) as L2. simpl in L1, L2.
    rewrite length_map2; rewrite length_map2; congruence. }
  assert (Hget : forall lc row, loc_getitem df lc = Ok row ->
            loc_getitem dfn lc = Ok (number_row i row)).
  { intros lc row H. unfold dfn, number_row.
    now apply loc_getitem_apply_op, loc_getitem_apply_op. }
  destruct (AOD_loop_run sdls i_s dfn mie lb Hlb lcs 0%nat st2 _ V2 Hcs)
    as (st3 & aod & ext & E3 & La & Lx & Hnth);
    [ lia | lia | | simpl; lia | ].
  { intros lc Hin. destruct (Hrows lc Hin) as (row & Hrow).
    exists (number_row i row). split; [now apply Hget|].
    destruct (loc_getitem_In _ _ _ Hrow) as (r0 & Hin0 & E0).
    rewrite (Lrow row r0 Hin0 E0). rewrite !length_map. reflexivity. }
  unfold bind at 1. rewrite E3.
  unfold bind, warn, ret. simpl.
  eexists. eexists. split; [reflexivity|]. simpl.
  split; [exact Lx|]. split; [exact La|]. split; [reflexivity|].
  intros j lc row low high Hl Hr Hb.
  exact (Hnth j lc (number_row i row) low high Hl (Hget lc row Hr) Hb).
Qed.

Lemma AOD_layers_witness :
  exists st' r,
    calculate_AOD Q unit_mie 1%nat 600 (16 # 10)
      (fst (two_layers [100; 200] [200; 300] empty_state)) = (st', Ok r)
    /\ length (extCoeffPerLayer r) = 2%nat
    /\ nth_error (extCoeffPerLayer r) 1
       = Some ((200 + 300) / 2,
               layer_coefficients
                 (number_row
                    (instance_of (get_object
                       (fst (two_layers [100; 200] [200; 300] empty_state)) 1%nat))
                    [Some 7; Some 7])
                 (mie_crosssections unit_mie
                    (instance_of (get_object
                       (fst (two_layers [100; 200] [200; 300] empty_state)) 1%nat))
                    600 (16 # 10)) 1).
Proof.
  pose (st := fst (two_layers [100; 200] [200; 300] empty_state)).
  assert (R : loc_getitem (frame_of st (instance_of (get_object st 1%nat)))
                ((200 + 300) / 2) = Ok [Some 7; Some 7])
    by (vm_compute; reflexivity).
  destruct (AOD_layers Q unit_mie st 1%nat (instance_of (get_object st 1%nat))
              (frame_of st (instance_of (get_object st 1%nat)))
              [(100, 200); (200, 300)] [(100 + 200) / 2; (200 + 300) / 2] 600 (16 # 10))
    as (st' & r & E & Lx & _ & _ & Hnth).
  - vm_compute. split; reflexivity.
  - vm_compute. auto.
  - split; vm_compute; repeat constructor.
  - vm_compute. reflexivity.
  - vm_compute. reflexivity.
  - simpl. lia.
  - intros lc [<-|[<-|[]]]; eexists; vm_compute; reflexivity.
  - exists st', r. split; [exact E|]. split; [exact Lx|].
    exact (proj1 (Hnth 1%nat ((200 + 300) / 2) [Some 7; Some 7] 200 300
                    eq_refl R eq_refl)).
Defined.

(** ** Layer series that were constructed with layer edges *)

Lemma get_coefficients_keeps st cs cn l :
  l <> cs -> l <> cn -> (l < length (heap st))%nat ->
  nth_error (heap (fst (_get_coefficients cs cn st))) l = nth_error (heap st) l.
Proof.
  intros N1 N2 Hl.
  assert (U : forall (h : list pyobj) o o',
            nth_error (update (update h cs o) cn o') l = nth_error h l).
  { intros h o o'. now rewrite !nth_error_update_neq by auto. }
  unfold _get_coefficients, bind, get_series, store, alloc, raise. simpl.
  destruct (nth_error (heap st) cs) as [[ |a| ]|]; simpl; auto.
  destruct (nth_error (update (heap st) cs _) cn) as [[ |b| ]|]; simpl;
    try (now rewrite nth_error_update_neq by auto).
  destruct (nth_error (update (update (heap st) cs _) cn _) cn) as [[ |b'| ]|]; simpl;
    try apply U.
  destruct (nth_error (update (update (heap st) cs _) cn _) cs) as [[ |a'| ]|]; simpl;
    try apply U.
  destruct (Nat.eqb (length b') (length a')); simpl; [|apply U].
  rewrite nth_error_app1 by (rewrite !length_update; exact Hl). apply U.
Qed.

Lemma AOD_loop_edges sdls i_s mie a j lc rest st :
  nth_error (heap st) sdls = Some (OInstance i_s) ->
  layerbounderies i_s = Some (Arr1 a) ->
  extinction_crossection mie <> sdls ->
  exists e, snd (AOD_loop sdls mie j (lc :: rest) st) = Raise e.
Proof.
  intros Hs Hlb N. pose proof (nth_error_lt _ _ _ Hs) as Ls.
  simpl AOD_loop. unfold bind at 1.
  pose proof (reads_get_data sdls st) as R.
  destruct (get_data sdls st) as [sa [df|e]]; [|eexists; reflexivity].
  simpl in R.
  unfold bind at 1. unfold lift at 1.
  destruct (loc_getitem df lc) as [row|e]; [|eexists; reflexivity].
  unfold bind at 1. unfold alloc at 1.
  unfold bind at 1.
  rewrite <- R in Ls.
  assert (K := get_coefficients_keeps (set_heap sa (heap sa ++ [OSeries row]))
                 (extinction_crossection mie) (length (heap sa)) sdls
                 (not_eq_sym N) (Nat.lt_neq _ _ Ls)).
  simpl heap in K. rewrite length_app in K.
  specialize (K (Nat.lt_lt_add_r _ _ _ Ls)).
  rewrite nth_error_snoc_lt in K by exact Ls.
  destruct (_get_coefficients (extinction_crossection mie) (length (heap sa))
              (set_heap sa (heap sa ++ [OSeries row]))) as [sb [coef|e]];
    [|eexists; reflexivity].
  simpl in K.
  unfold bind at 1. unfold get_layerbounderies, bind at 1, get_instance.
  rewrite K, R, Hs, Hlb. unfold ret at 1.
  unfold bind at 1. unfold lift at 1. unfold layerThickness.
  destruct (nth_error a j); eexists; reflexivity.
Qed.

(** X16.  A layer series that was constructed with two or more layer edges
    has no optical depth: [calculate_AOD] raises an exception on it,
    whatever the table.  The loop over the layer centers reads the
    boundaries of a layer as a pair, and the constructor stored the
    edges as a one-dimensional array. *)
Theorem AOD_after_edges (refractive_index : Type)
    (bhmie_hagen : value -> refractive_index -> Q -> Q -> mie_values)
    data edges k lb bc fg st st0 host wl n :
  SizeDist_LS__init__ data edges k (Some lb) bc fg st = (st0, Ok host) ->
  (2 <= length lb)%nat ->
  exists e, snd (calculate_AOD refractive_index bhmie_hagen host wl n st0) = Raise e.
Proof.
  intros Hinit Hlen.
  destruct (LS_init_edges _ _ _ _ _ _ _ _ _ Hinit) as (i & Hs & Hlb & Hlcs).
  unfold calculate_AOD, convert2numberconcentration. unfold bind at 1.
  destruct (_convert2otherDistribution host "numberConcentration" false st0)
    as [st1 [sdls|e]] eqn:E1; [|eexists; reflexivity].
  destruct (convert_version_run _ _ _ _ _ _ _ Hs E1) as (dl & df & V1 & Hd & Hdl).
  set (i_s := with_distributionType (with_data i dl) "numberConcentration") in *.
  pose proof (nth_error_lt _ _ _ (proj1 V1)) as Lsd.
  unfold bind at 1. rewrite (get_instance_run _ _ _ _ V1).
  unfold bind at 1.
  destruct (perform_Miecalculations_run refractive_index bhmie_hagen st1
              (map (fun c => c / 1000) (bincenters i_s)) (wl / 1000) n)
    as (st2 & mie & E2 & _ & Lcs & Keep).
  rewrite E2.
  assert (H2 : nth_error (heap st2) sdls = Some (OInstance i_s)).
  { rewrite Keep by exact Lsd. exact (proj1 V1). }
  unfold bind at 1. unfold get_layercenters, bind at 1, get_instance.
  rewrite H2. replace (layercenters i_s) with (Some (bin_midpoints lb))
    by (symmetry; exact Hlcs).
  unfold ret at 1.
  destruct lb as [|e0 [|e1 lb]]; simpl in Hlen; try lia.
  unfold bin_midpoints, from1, upto_last. simpl tl. simpl removelast.
  change (map2 (fun a b => (a + b) / 2) (e1 :: lb)
            (e0 :: match lb with [] => [] | _ :: _ => e1 :: removelast lb end))
    with ((e1 + e0) / 2
          :: map2 (fun a b => (a + b) / 2) lb
               (match lb with [] => [] | _ :: _ => e1 :: removelast lb end)).
  unfold bind at 1.
  destruct (AOD_loop_edges sdls i_s mie (e0 :: e1 :: lb) 0%nat ((e1 + e0) / 2)
              (map2 (fun a b => (a + b) / 2) lb
                 (match lb with [] => [] | _ :: _ => e1 :: removelast lb end))
              st2 H2 Hlb) as (e & He); [lia|].
  destruct (AOD_loop sdls mie 0 _ st2) as [st3 [r|e']]; [discriminate|].
  eexists; reflexivity.
Qed.

Lemma AOD_after_edges_witness :
  exists e,
    snd (calculate_AOD Q unit_mie 1%nat 600 (16 # 10)
           (fst (SizeDist_LS__init__ None sample_bins "dNdDp" (Some [0; 100; 200])
                   None true empty_state)))
    = Raise e.
Proof.
  refine (AOD_after_edges Q unit_mie None sample_bins "dNdDp" [0; 100; 200] None true
            empty_state _ 1%nat 600 (16 # 10) _ _).
  - vm_compute. reflexivity.
  - simpl. lia.
Defined.

Lemma add_layer_after_edges_witness :
  exists e,
    snd (add_layer 1%nat 1%nat [0; 50]
           (fst (SizeDist_LS__init__ None sample_bins "dNdDp" (Some [0; 100; 200])
                   None true empty_state)))
    = Raise e.
Proof.
  refine (proj1 (add_layer_after_edges None sample_bins "dNdDp" [0; 100; 200] None true
                   empty_state _ 1%nat 1%nat [0; 50] _)).
  vm_compute. reflexivity.
Defined.

(** ** The head of a snapshot *)

Section HeaderProofs.

Variable py_eval : string -> outcome (list Q).

(** The loader passes the assignment lines above line [i]. *)
Lemma read_header_prefix f i : forall k j todo outDict,
  (j + k = i)%nat -> (i < headerNo)%nat -> (j + todo = headerNo)%nat ->
  (forall j', (j' < i)%nat -> assignment_line py_eval (readline f j')) ->
  exists d,
    read_header py_eval f todo j outDict = read_header py_eval f (todo - k) i d
    /\ length d = (length outDict + k)%nat.
Proof.
  induction k as [|k IH]; intros j todo outDict Hj Hi Ht Hall.
  - exists outDict. replace j with i by lia. rewrite Nat.sub_0_r, Nat.add_0_r. auto.
  - destruct todo as [|todo]; [unfold headerNo in *; lia|].
    destruct (Hall j) as (c0 & r0 & v & rest & Hs & Hc & He); [lia|].
    assert (exists entry,
      (if member (strip (String c0 r0)) nol then Ok (PStr (strip v))
       else match py_eval (strip v) with
            | Ok a => Ok (PArray a)
            | Raise e => Raise e
            end) = Ok entry) as [entry Hentry].
    { destruct He as [-> | [a Ha]]; [eauto|].
      destruct (member _ nol); [eauto|]. rewrite Ha. eauto. }
    rewrite (read_header_line py_eval f todo j outDict c0 r0 v rest entry Hs Hc Hentry).
    replace (Nat.eqb j (headerNo - 1)) with false
      by (symmetry; apply Nat.eqb_neq; unfold headerNo in *; lia).
    destruct (IH (S j) todo ((strip (String c0 r0), entry) :: outDict)) as (d & E & L);
      try lia; [exact Hall|].
    exists d. split; [exact E|]. simpl in L. lia.
Qed.

End HeaderProofs.

(** X17.  How the loader reads the head of a file.  Let the lines above line
    [i] be assignments, for an [i] below fifty.  When line [i] starts
    with [#], the head ends there and one entry has been read for every
    line above it.  When the file ends before line [i], or line [i] is a
    line of the table, the loader fails with an [IndexError]: the head of
    such a file has no [#] line. *)
Theorem header_scan (py_eval : string -> outcome (list Q)) f i :
  (i < headerNo)%nat ->
  (forall j, (j < i)%nat -> assignment_line py_eval (readline f j)) ->
  ((exists r0 rest, split_on "=" (readline f i) = String "#" r0 :: rest) ->
   exists d, read_header py_eval f headerNo 0 [] = Ok (i, d) /\ length d = i)
  /\ (length (header f) = i -> table f = None ->
      read_header py_eval f headerNo 0 []
      = Raise (IndexError "string index out of range"))
  /\ (length (header f) = i -> table f <> None ->
      read_header py_eval f headerNo 0 []
      = Raise (IndexError "list index out of range")).
Proof.
  intros Hi Hall.
  destruct (read_header_prefix py_eval f i i 0%nat headerNo [] eq_refl Hi eq_refl Hall)
    as (d & E & L).
  rewrite E. simpl in L.
  assert (Ht : exists todo, (headerNo - i)%nat = S todo).
  { exists (headerNo - i - 1)%nat. unfold headerNo in *. lia. }
  destruct Ht as (todo & ->).
  assert (Hend : length (header f) = i -> nth_error (header f) i = None).
  { intros <-. apply nth_error_None. lia. }
  split; [|split].
  - intros (r0 & rest & Hs). exists d. split; [|exact L].
    now apply (read_header_hash py_eval f todo i d r0 rest).
  - intros Hlen Hnone. rewrite read_header_S. unfold readline.
    rewrite (Hend Hlen), Hnone. reflexivity.
  - intros Hlen Hsome. rewrite read_header_S. unfold readline.
    rewrite (Hend Hlen). destruct (table f); [reflexivity | now contradiction Hsome].
Qed.

Lemma header_scan_witness :
  exists d,
    read_header sample_eval (mkFile ["bins = [50.0, 150.0, 250.0]"; "#"] None) headerNo 0 []
    = Ok (1%nat, d)
    /\ length d = 1%nat.
Proof.
  refine (proj1 (header_scan sample_eval
                   (mkFile ["bins = [50.0, 150.0, 250.0]"; "#"] None) 1%nat _ _) _).
  - unfold headerNo. lia.
  - intros j Hj. assert (j = 0%nat) as -> by lia.
    exists "b"%char, "ins ", " [50.0, 150.0, 250.0]", [].
    split; [reflexivity|]. split; [reflexivity|]. right. eexists. reflexivity.
  - exists "", []. reflexivity.
Defined.

(** X18.  The snapshot of a layer series is written but cannot be loaded
    again: for every layer series whose kind is one of the eight names
    and whose printed bin edges evaluate to them, the loader reads the
    head of the file that [save_csv] wrote and never returns a table.
    When the table is read back from its text, the loader fails with a
    [TypeError], since it calls the layer constructor without layer
    boundaries. *)
Theorem layer_series_snapshot_not_loaded (repr_list : list Q -> string)
    (py_eval : string -> outcome (list Q))
    (to_csv_text : DataFrame -> list string)
    (read_csv_text : list string -> outcome (list (label * list value)))
    (to_datetime : list label -> outcome (list Q))
    st self i df fname fixGaps :
  view (heap st) self i df ->
  cls i = SizeDist_LS ->
  In (distributionType i) all_kinds ->
  py_eval (line_value ("bins = " ++ repr_list (bins i))) = Ok (bins i) ->
  exists st1,
    save_csv repr_list to_csv_text self fname st = (st1, Ok tt)
    /\ heap st1 = heap st
    /\ (exists e,
          snd (read_distribution_csv py_eval read_csv_text to_datetime fname fixGaps st1)
          = Raise e)
    /\ (forall raw keys,
          read_csv_text (to_csv_text df) = Ok raw ->
          to_datetime (map fst raw) = Ok keys -> length keys = length raw ->
          snd (read_distribution_csv py_eval read_csv_text to_datetime fname fixGaps st1)
          = Raise (TypeError
              "__init__() missing 1 required positional argument: 'layerbounderies'")).
Proof.
  intros V Hc Hk Hb.
  pose proof (save_csv_run repr_list to_csv_text st self i df fname V) as Es.
  cbv zeta in Es.
  set (lines := [("bins = " ++ repr_list (bins i))%string;
                 ("distributionType = " ++ distributionType i)%string;
                 ("objectType = " ++ class_name (cls i))%string;
                 "#"]) in *.
  set (f := mkFile lines (Some (to_csv_text df))) in *.
  set (st0 := set_files st ((fname, mkFile lines None) :: files st)) in *.
  set (st1 := set_files st0 ((fname, f) :: files st0)) in *.
  pose proof (saved_header repr_list py_eval (bins i) (distributionType i) (cls i)
                Hk Hb (to_csv_text df)) as Hh.
  fold lines in Hh. fold f in Hh.
  assert (Hf : lookup_file fname (files st1) = Some f)
    by (unfold st1; simpl files; apply lookup_file_head).
  destruct (load_table py_eval read_csv_text to_datetime st1 fname f fixGaps 3%nat _
              Hf Hh) as (L1 & L2 & L3).
  assert (Hcsv : read_csv read_csv_text f (3 + 1) = read_csv_text (to_csv_text df))
    by reflexivity.
  assert (Last : forall raw keys,
    read_csv_text (to_csv_text df) = Ok raw ->
    to_datetime (map fst raw) = Ok keys -> length keys = length raw ->
    snd (read_distribution_csv py_eval read_csv_text to_datetime fname fixGaps st1)
    = Raise (TypeError
        "__init__() missing 1 required positional argument: 'layerbounderies'")).
  { intros raw keys Hr Hkeys Hlen.
    rewrite (L3 raw keys) by (rewrite ?Hcsv; assumption).
    cbv zeta. unfold bind at 1. unfold lift at 1. simpl dict_get.
    rewrite Hc. reflexivity. }
  exists st1. split; [exact Es|]. split; [reflexivity|]. split; [|exact Last].
  destruct (read_csv_text (to_csv_text df)) as [raw|e] eqn:Hr.
  - destruct (to_datetime (map fst raw)) as [keys|e] eqn:Hkeys.
    + destruct (Nat.eqb (length keys) (length raw)) eqn:Hlen.
      * apply Nat.eqb_eq in Hlen. eexists. now apply (Last raw keys).
      * exists (ValueError "Length mismatch").
        unfold read_distribution_csv. unfold bind at 1. unfold open_read at 1. rewrite Hf.
        unfold bind at 1. unfold lift at 1. rewrite Hh.
        simpl fst. unfold bind at 1. unfold lift at 1. rewrite Hcsv.
        unfold bind at 1. unfold lift at 1. rewrite Hkeys.
        unfold bind at 1. unfold lift at 1. unfold set_index. rewrite Hlen. reflexivity.
    + exists e. rewrite (L2 raw e); [reflexivity | now rewrite Hcsv | exact Hkeys].
  - exists e. rewrite (L1 e); [reflexivity | now rewrite Hcsv].
Qed.

Lemma layer_series_snapshot_not_loaded_witness :
  exists st1,
    save_csv sample_repr sample_to_csv 1%nat "layers.csv" one_layer_state = (st1, Ok tt)
    /\ heap st1 = heap one_layer_state
    /\ snd (read_distribution_csv sample_eval sample_read_csv sample_to_datetime
              "layers.csv" true st1)
       = Raise (TypeError
           "__init__() missing 1 required positional argument: 'layerbounderies'").
Proof.
  pose (df := frame_of one_layer_state (instance_of (get_object one_layer_state 1%nat))).
  assert (R : exists raw keys, sample_read_csv (sample_to_csv df) = Ok raw
                               /\ sample_to_datetime (map fst raw) = Ok keys
                               /\ length keys = length raw).
  { eexists. eexists. split; [vm_compute; reflexivity|].
    split; [vm_compute; reflexivity | reflexivity]. }
  destruct R as (raw & keys & R1 & R2 & R3).
  destruct (layer_series_snapshot_not_loaded sample_repr sample_eval sample_to_csv
              sample_read_csv sample_to_datetime one_layer_state 1%nat
              (instance_of (get_object one_layer_state 1%nat)) df "layers.csv" true)
    as (st1 & Es & Hh & _ & Hl).
  - vm_compute. split; reflexivity.
  - reflexivity.
  - vm_compute. auto.
  - reflexivity.
  - exists st1. split; [exact Es|]. split; [exact Hh|]. exact (Hl raw keys R1 R2 R3).
Defined.

(** ** Labels and plot arrays, proofs *)

Lemma get_label_Ok k l :
  get_label k = Ok l ->
  (k = "dNdDp" /\ l = "$\mathrm{d}N\,/\,\mathrm{d}D_{P}$ (nm$^{-1}\,$cm$^{-3}$)")
  \/ (k = "dNdlogDp" /\ l = "$\mathrm{d}N\,/\,\mathrm{d}log(D_{P})$ (cm$^{-3}$)")
  \/ (k = "dSdDp" /\ l = "$\mathrm{d}S\,/\,\mathrm{d}D_{P}$ (nm$\,$cm$^{-3}$)")
  \/ (k = "dSdlogDp" /\ l = "$\mathrm{d}S\,/\,\mathrm{d}log(D_{P})$ (nm$^2\,$cm$^{-3}$)")
  \/ (k = "dVdDp" /\ l = "$\mathrm{d}V\,/\,\mathrm{d}D_{P}$ (nm$^2\,$cm$^{-3}$)")
  \/ (k = "dVdlogDp" /\ l = "$\mathrm{d}V\,/\,\mathrm{d}log(D_{P})$ (nm$^3\,$cm$^{-3}$)")
  \/ (k = "calibration" /\ l = "$\mathrm{d}N\,/\,\mathrm{d}Amp$ (bin$^{-1}\,$cm$^{-3}$)")
  \/ (k = "numberConcentration" /\ l = "Particle number in bin").
Proof.
  unfold get_label.
  repeat match goal with
  | |- context [String.eqb k ?s] =>
      let E := fresh "E" in
      destruct (String.eqb k s) eqn:E;
      [ apply String.eqb_eq in E; intros H; injection H as <-; tauto | ]
  end.
  discriminate.
Qed.

(** X19.  [get_label] knows the eight kinds and no other: it returns a label
    for each of the eight names, two different kinds never get the same
    label, and any other name is refused with a [ValueError] that quotes
    it. *)
Theorem get_label_kinds k :
  (In k all_kinds -> exists l, get_label k = Ok l)
  /\ (~ In k all_kinds ->
      get_label k = Raise (ValueError (k ++ " is not really an option!?!")%string))
  /\ (forall k' l, get_label k = Ok l -> get_label k' = Ok l -> k = k').
Proof.
  split; [|split].
  - unfold all_kinds, axis_kinds. simpl. intros H.
    repeat (destruct H as [<-|H]; [eexists; reflexivity|]). contradiction.
  - intros H. unfold get_label.
    repeat match goal with
    | |- context [String.eqb k ?s] =>
        let E := fresh "E" in
        destruct (String.eqb k s) eqn:E;
        [ apply String.eqb_eq in E; exfalso; apply H; rewrite E;
          unfold all_kinds, axis_kinds; simpl; tauto | ]
    end.
    reflexivity.
  - intros k' l H1 H2. apply get_label_Ok in H1, H2.
    repeat (destruct H1 as [[-> E1]|H1]; [|]);
      try destruct H1 as [-> E1];
      repeat (destruct H2 as [[-> E2]|H2]; [|]);
      try destruct H2 as [-> E2];
      try reflexivity; rewrite E1 in E2; discriminate E2.
Qed.

(** X20.  The three arrays that [_getXYZ] returns for plotting have the same
    shape when every row has one value per bin, that is, one value less
    than there are bin edges: one row for every row of the table and one
    column for every bin edge.  The last column of the values is the
    appended zero; the table itself is left alone. *)
Theorem getXYZ_shapes st self i df :
  view (heap st) self i df ->
  rows_len (pred (length (bins i))) df -> (0 < length (bins i))%nat ->
  exists X Y Z,
    _getXYZ self st = (st, Ok (X, Y, Z))
    /\ length X = length df /\ length Y = length df /\ length Z = length df
    /\ Forall (fun r => length r = length (bins i)) X
    /\ Forall (fun r => r = bins i) Y
    /\ Forall (fun r => length r = length (bins i) /\ last r None = Some 0) Z
    /\ Forall2 (fun r z => z = snd r ++ [Some 0]) df Z
    /\ Forall2 (fun r x => Forall (fun k => k = fst r) x) df X.
Proof.
  intros [V1 V2] W Hb. unfold _getXYZ, bind, get_instance, get_frame, ret.
  rewrite V1, V2. eexists. eexists. eexists. split; [reflexivity|].
  unfold index. rewrite !length_map, repeat_length.
  split; [reflexivity|]. split; [reflexivity|].
  assert (HZ : map2 (fun row e => row ++ e) (map snd df)
                 (map (fun _ => [Some 0]) (map fst df))
               = map (fun r => snd r ++ [Some 0]) df).
  { clear. induction df as [|r df IH]; simpl; auto. now rewrite IH. }
  rewrite HZ. rewrite !length_map.
  split; [reflexivity|].
  split; [|split; [|split; [|split]]].
  - rewrite Forall_map, Forall_map. apply Forall_forall. intros r _.
    apply repeat_length.
  - apply Forall_forall. intros r Hr. now apply repeat_spec in Hr.
  - rewrite Forall_map. unfold rows_len in W.
    eapply Forall_impl; [|exact W]. intros r Hr; simpl in Hr.
    split; [|apply last_last].
    rewrite length_app. simpl length. rewrite Nat.add_1_r.
    etransitivity; [apply f_equal, Hr|].
    destruct (length (bins i)); [inversion Hb | reflexivity].
  - clear. induction df as [|r df IH]; simpl; constructor; auto.
  - clear. induction df as [|r df IH]; simpl; constructor; auto.
    apply Forall_forall. intros k Hk. now apply repeat_spec in Hk.
Qed.

Lemma getXYZ_shapes_witness :
  exists X Y Z,
    _getXYZ 1%nat (gap_state false) = (gap_state false, Ok (X, Y, Z))
    /\ length X = 10%nat /\ length Y = 10%nat /\ length Z = 10%nat
    /\ Forall (fun r => length r = 3%nat) X
    /\ Forall (fun r => r = sample_bins) Y
    /\ Forall (fun r => length r = 3%nat /\ last r None = Some 0) Z.
Proof.
  destruct (getXYZ_shapes (gap_state false) 1%nat
              (instance_of (get_object (gap_state false) 1%nat)) gap_table)
    as (X & Y & Z & E & H1 & H2 & H3 & H4 & H5 & H6 & _).
  - split; reflexivity.
  - repeat constructor.
  - simpl. lia.
  - exists X, Y, Z. repeat split; assumption.
Defined.

Lemma length_sort_axis0 a : length (sort_axis0 a) = length a.
Proof.
  unfold sort_axis0. rewrite length_combine.
  rewrite (Permutation_length (np_sort_perm (map fst a))).
  rewrite (Permutation_length (np_sort_perm (map snd a))).
  rewrite !length_map. apply Nat.min_id.
Qed.

(** X21.  What a successful [add_layer] keeps.  The host gets exactly one
    boundary pair, one layer center and one row more; its layer centers
    and its row keys are ascending; and when the row keys were the layer
    centers before the call, they are the layer centers after it, so that
    every layer center still labels a row. *)
Theorem add_layer_keeps_counts st self sd i df lb lcs low high st1 d1 r st' :
  view (heap st) self i df ->
  layerbounderies i = Some (Arr2 lb) -> layercenters i = Some lcs ->
  _convert2otherDistribution sd (distributionType i) false st = (st1, Ok d1) ->
  get_data d1 st1 = (st1, Ok [r]) ->
  add_layer self sd [low; high] st = (st', Ok tt) ->
  exists i' df' lb' lcs',
    view (heap st') self i' df'
    /\ layerbounderies i' = Some (Arr2 lb') /\ layercenters i' = Some lcs'
    /\ length lb' = S (length lb) /\ length lcs' = S (length lcs)
    /\ length df' = S (length df)
    /\ ascending lcs' /\ ascending (index df')
    /\ (Permutation (index df) lcs -> Permutation (index df') lcs')
    /\ (rows_len (length (snd r)) df -> rows_len (length (snd r)) df').
Proof.
  intros V Hlb Hlcs Hconv Hget Hadd.
  destruct (add_layer_run st self sd i df lb lcs low high st1 d1 r V Hlb Hlcs Hconv Hget)
    as [Hno Hyes].
  set (U := np_unique (flatten (lb ++ [(low, high)]))) in *.
  assert (HlU : InA Qeq low U).
  { apply np_unique_InA. rewrite flatten_app. apply InA_alt. exists low.
    split; [reflexivity|]. apply in_or_app; right; now left. }
  assert (HhU : InA Qeq high U).
  { apply np_unique_InA. rewrite flatten_app. apply InA_alt. exists high.
    split; [reflexivity|]. apply in_or_app; right; right; now left. }
  destruct (index_difference_spec U low high (np_unique_strict _) HlU HhU)
    as (d0 & _ & Hd0).
  destruct (Z.eq_dec d0 1) as [E|E].
  2:{ rewrite Hno in Hadd; [discriminate|]. intros A. apply E. now apply Hd0. }
  apply Hd0 in E. destruct (Hyes E) as (st'' & dl & Hadd' & V').
  rewrite Hadd in Hadd'. injection Hadd' as <-.
  set (c := (low + high) / 2) in *.
  pose proof (sort_index_perm (df ++ [(c, snd r)])) as P.
  exists (layer_added i lb lcs low high dl), (sort_index (df ++ [(c, snd r)])),
    (sort_axis0 (lb ++ [(low, high)])), (np_sort (lcs ++ [c])).
  split; [exact V'|]. split; [reflexivity|]. split; [reflexivity|].
  split; [rewrite length_sort_axis0, length_app; simpl; lia|].
  split; [rewrite (Permutation_length (np_sort_perm _)), length_app; simpl; lia|].
  split; [rewrite (Permutation_length P), length_app; simpl; lia|].
  split; [apply np_sort_ascending|]. split; [apply sort_index_ascending|].
  split.
  - intros Hp. unfold index at 1. rewrite P. fold (index (df ++ [(c, snd r)])).
    rewrite index_app. simpl. rewrite (np_sort_perm (lcs ++ [c])).
    now apply Permutation_app_tail.
  - intros W. unfold rows_len. eapply Permutation_Forall; [symmetry; exact P|].
    apply Forall_app. split; [exact W | repeat constructor].
Qed.

Lemma add_layer_keeps_counts_witness :
  exists i' df' lb' lcs',
    view (heap (fst (add_layer 1%nat 8%nat [200; 300] one_layer_state))) 1%nat i' df'
    /\ layerbounderies i' = Some (Arr2 lb') /\ layercenters i' = Some lcs'
    /\ length lb' = 2%nat /\ length lcs' = 2%nat /\ length df' = 2%nat
    /\ Permutation (index df') lcs'.
Proof.
  pose (st := one_layer_state).
  destruct (add_layer_keeps_counts st 1%nat 8%nat (instance_of (get_object st 1%nat))
              (frame_of st (instance_of (get_object st 1%nat)))
              [(100, 200)] [(100 + 200) / 2] 200 300
              (fst (_convert2otherDistribution 8%nat "dNdDp" false st)) 10%nat
              (0, [Some 7; Some 7])
              (fst (add_layer 1%nat 8%nat [200; 300] st)))
    as (i' & df' & lb' & lcs' & V & H1 & H2 & H3 & H4 & H5 & _ & _ & H6 & _).
  - vm_compute. split; reflexivity.
  - vm_compute. reflexivity.
  - vm_compute. reflexivity.
  - vm_compute. reflexivity.
  - vm_compute. reflexivity.
  - vm_compute. reflexivity.
  - exists i', df', lb', lcs'. split; [exact V|]. split; [exact H1|].
    split; [exact H2|]. split; [exact H3|]. split; [exact H4|]. split; [exact H5|].
    apply H6. vm_compute. apply Permutation_refl.
Defined.

(** ** The optical depth is computed on new objects *)

Lemma triple_pure {A} n (phi : Prop) (m : M A) Q :
  (phi -> triple n (fun _ => True) m Q) -> triple n (fun _ => phi) m Q.
Proof. intros H st Hn Hphi. exact (H Hphi st Hn I). Qed.

Lemma triple_store_new n l o :
  (n <= l)%nat -> triple n (fun _ => True) (store l o) (fun _ _ => True).
Proof.
  intros Hl st Hn _. unfold store; simpl. split; [now apply frozen_update | exact I].
Qed.

Lemma triple_alloc_new n o :
  triple n (fun _ => True) (alloc o)
    (fun r _ => match r with Ok l => (n <= l)%nat | Raise _ => True end).
Proof.
  intros st Hn _. unfold alloc; simpl. split; [now apply frozen_alloc | exact Hn].
Qed.

Lemma reads_get_layerbounderies l : reads (get_layerbounderies l).
Proof.
  unfold get_layerbounderies. apply reads_bind; [apply reads_get_instance|].
  intros i. destruct (layerbounderies i); [apply reads_ret | apply reads_raise].
Qed.

Lemma reads_get_layercenters l : reads (get_layercenters l).
Proof.
  unfold get_layercenters. apply reads_bind; [apply reads_get_instance|].
  intros i. destruct (layercenters i); [apply reads_ret | apply reads_raise].
Qed.

(** A step that leaves the store alone, followed by the rest. *)
Ltac reads_then lem :=
  apply triple_seq; [apply reads_step, lem | intro | auto].

Lemma get_coefficients_new n cs cn :
  (n <= cs)%nat -> (n <= cn)%nat ->
  triple n (fun _ => True) (_get_coefficients cs cn) (fun _ _ => True).
Proof.
  intros Hcs Hcn. unfold _get_coefficients.
  reads_then reads_get_series.
  apply triple_seq; [now apply triple_store_new | intros _ | auto].
  reads_then reads_get_series.
  apply triple_seq; [now apply triple_store_new | intros _ | auto].
  reads_then reads_get_series.
  reads_then reads_get_series.
  destruct (Nat.eqb _ _).
  - eapply triple_conseq; [| apply triple_alloc_new |]; simpl; auto.
  - apply triple_raise; auto.
Qed.

Lemma AOD_loop_new n sdls mie :
  (n <= extinction_crossection mie)%nat ->
  forall lcs i, triple n (fun _ => True) (AOD_loop sdls mie i lcs) (fun _ _ => True).
Proof.
  intros Hcs. induction lcs as [|lc rest IH]; intros i; simpl AOD_loop.
  - apply triple_ret; auto.
  - reads_then reads_get_data.
    reads_then (@reads_lift (list value)).
    eapply triple_bind;
      [apply triple_alloc_new | intros laydata; cbv beta iota | simpl; auto].
    apply (triple_pure n (n <= laydata)%nat). intros Hl.
    apply triple_seq; [now apply get_coefficients_new | intros coef | auto].
    reads_then reads_get_layerbounderies.
    reads_then (@reads_lift Q).
    reads_then reads_get_series.
    apply triple_seq; [apply IH | intros r | auto].
    apply triple_ret; auto.
Qed.

Lemma perform_Miecalculations_new (refractive_index : Type)
    (bhmie_hagen : value -> refractive_index -> Q -> Q -> mie_values) n diam wl ri :
  triple n (fun _ => True)
    (_perform_Miecalculations refractive_index bhmie_hagen diam wl ri)
    (fun r _ => match r with
                | Ok mie => (n <= extinction_crossection mie)%nat
                | Raise _ => True
                end).
Proof.
  intros st Hn _.
  destruct (perform_Miecalculations_run refractive_index bhmie_hagen st diam wl ri)
    as (st' & mie & E & Hcs & Lcs & Keep).
  rewrite E. simpl. pose proof (nth_error_lt _ _ _ Hcs) as L.
  split; [split; [lia | intros l Hl; apply Keep; lia] | lia].
Qed.

(** X22.  [calculate_AOD] works on objects of its own: whatever the layer
    series and whatever the outcome, every object that existed before the
    call, the layer series and its table among them, is left as it was. *)
Theorem calculate_AOD_preserves_store (refractive_index : Type)
    (bhmie_hagen : value -> refractive_index -> Q -> Q -> mie_values) st self wl n :
  firstn (length (heap st))
    (heap (fst (calculate_AOD refractive_index bhmie_hagen self wl n st)))
  = heap st.
Proof.
  apply frozen_prefix.
  assert (T : triple (length (heap st)) (fun _ => True)
                (calculate_AOD refractive_index bhmie_hagen self wl n)
                (fun _ _ => True)).
  { unfold calculate_AOD, convert2numberconcentration, _convert2otherDistribution.
    generalize recursion_limit; intros fuel.
    apply triple_seq;
      [ eapply triple_conseq; [| apply convert_frame |]; simpl; auto
      | intros sdls | auto ].
    reads_then reads_get_instance.
    eapply triple_bind;
      [ apply perform_Miecalculations_new | intros mie; cbv beta iota | simpl; auto ].
    apply (triple_pure _ (length (heap st) <= extinction_crossection mie)%nat).
    intros Hcs.
    reads_then reads_get_layercenters.
    apply triple_seq; [now apply AOD_loop_new | intros r | auto].
    reads_then reads_warn.
    apply triple_ret; auto. }
  exact (proj1 (T st (Nat.le_refl _) I)).
Qed.

(** X23.  [add_layer] changes no object but the host.  When the
    conversion of the incoming table returns, then whatever the outcome
    of the call, every object that existed before it, other than the host
    instance, is left as it was: the incoming table and its frame, and
    the frame that the host had, which is replaced and not changed. *)
Theorem add_layer_touches_host_only st self sd i df lb lcs low high st1 d1 :
  view (heap st) self i df ->
  layerbounderies i = Some (Arr2 lb) -> layercenters i = Some lcs ->
  _convert2otherDistribution sd (distributionType i) false st = (st1, Ok d1) ->
  forall l, (l < length (heap st))%nat -> l <> self ->
    nth_error (heap (fst (add_layer self sd [low; high] st))) l = nth_error (heap st) l.
Proof.
  intros V Hlb Hlcs Hconv l Hl Hne.
  rewrite (add_layer_start st self sd i df lb low high st1 d1 V Hlb Hconv).
  destruct (convert_result _ _ _ _ _ _ _ _ _ Hconv V)
    as (V1 & Hd1 & i1 & df1 & Vd & Hi1).
  pose proof (convert_leaves st sd (distributionType i) false l Hl) as K1.
  rewrite Hconv in K1. simpl in K1.
  destruct (index_difference _ low high) as [|d0 rest]; [exact K1|].
  destruct (negb (Z.eqb d0 1)); [exact K1|].
  pose proof (nth_error_lt _ _ _ (proj1 V)) as Ls.
  set (c := (low + high) / 2).
  set (iA := with_layerbounderies i (Arr2 (sort_axis0 (lb ++ [(low, high)])))).
  set (iB := with_layercenters iA (np_sort (lcs ++ [c]))).
  assert (Nd : d1 <> self) by lia.
  assert (Nsd : self <> data i1) by lia.
  unfold bind at 1. rewrite (get_instance_run _ _ _ _ V1).
  unfold bind at 1. unfold store at 1. fold iA.
  set (st2 := set_heap st1 (update (heap st1) self (OInstance iA))).
  assert (V2 : view (heap st2) self iA df)
    by (apply (view_update_self _ _ i iA df V1); reflexivity).
  assert (Vd2 : view (heap st2) d1 i1 df1) by (apply view_update_other; auto).
  unfold bind at 1. unfold get_layercenters at 1. unfold bind at 1.
  rewrite (get_instance_run _ _ _ _ V2).
  replace (layercenters iA) with (Some lcs) by (symmetry; exact Hlcs).
  unfold ret at 1.
  unfold bind at 1. rewrite (get_instance_run _ _ _ _ V2).
  unfold bind at 1. unfold store at 1. fold iB.
  set (st3 := set_heap st2 (update (heap st2) self (OInstance iB))).
  assert (V3 : view (heap st3) self iB df)
    by (apply (view_update_self _ _ iA iB df V2); reflexivity).
  assert (Vd3 : view (heap st3) d1 i1 df1) by (apply view_update_other; auto).
  assert (K3 : nth_error (heap st3) l = nth_error (heap st) l).
  { simpl. rewrite !nth_error_update_neq by auto. exact K1. }
  unfold bind at 1. rewrite (get_data_run _ _ _ _ Vd3).
  destruct df1 as [|r [|r' df1]]; try exact K3.
  unfold bind at 1.
  destruct (inplace_data_run st3 d1 i1 [r] [(c, snd r)] Vd3) as [E4 Vd4].
  rewrite E4.
  set (st4 := set_heap st3 (update (heap st3) (data i1) (ODataFrame [(c, snd r)]))).
  assert (V4 : view (heap st4) self iB df)
    by (apply view_update_other; auto; change (data iB) with (data i);
        pose proof (nth_error_lt _ _ _ (proj2 V)); lia).
  assert (K4 : nth_error (heap st4) l = nth_error (heap st) l).
  { simpl. rewrite nth_error_update_neq by lia. exact K3. }
  unfold bind at 1. rewrite (get_data_run _ _ _ _ V4).
  unfold bind at 1. rewrite (get_data_run st4 d1 i1 [(c, snd r)] Vd4).
  destruct (rebind_data_run st4 self iB df (sort_index (df ++ [(c, snd r)])) V4)
    as [E5 _].
  rewrite E5. simpl fst. simpl heap.
  rewrite nth_error_update_neq by auto.
  rewrite nth_error_snoc_lt; [exact K4|].
  pose proof (nth_error_lt _ _ _ (proj1 Vd)) as Ld1.
  simpl. rewrite !length_update. lia.
Qed.

Lemma add_layer_touches_host_only_witness :
  nth_error (heap (fst (add_layer 1%nat 8%nat [200; 300] one_layer_state))) 8%nat
  = nth_error (heap one_layer_state) 8%nat.
Proof.
  refine (add_layer_touches_host_only one_layer_state 1%nat 8%nat
            (instance_of (get_object one_layer_state 1%nat))
            (frame_of one_layer_state (instance_of (get_object one_layer_state 1%nat)))
            [(100, 200)] [(100 + 200) / 2] 200 300 _ 10%nat _ _ _ _ 8%nat _ _).
  - vm_compute. split; reflexivity.
  - vm_compute. reflexivity.
  - vm_compute. reflexivity.
  - vm_compute. reflexivity.
  - vm_compute. lia.
  - discriminate.
Defined.
